(** * RnnDataProcesor: reshape and load of yield and atmospheric tables

    Shallow embedding of
    - [src/procesador_rnn.py]               (wide yield rows to month columns),
    - [src/procesador_datos_atmosfericos.py] (per-file parser and batch loader),
    - [src/pipeline_procesamiento.py]        (quality report).

    Python strings are modelled as [string], read as sequences of code
    points below 256.  [upper] is [str.upper] on them; the capitals of the
    code points 181 and 255 lie above 255, and the statements that depend
    on [upper] leave these two out.  A pandas cell is a [Celda]: a number,
    a text or the missing value.  Numbers are kept abstract (a type [V]
    with decidable equality), and so is the order in which pandas sorts
    the keys of a pivot. *)

From Stdlib Require Import Ascii String QArith Lqa.
From stdpp Require Import base decidable option strings numbers list.

(** ** Python string methods *)
Module Py.

Definition code (c : ascii) : N := N_of_ascii c.

(** [str.isspace] on one code point below 256. *)
Definition isspace (c : ascii) : bool :=
  let n := code c in
  (((9 <=? n) && (n <=? 13)) || ((28 <=? n) && (n <=? 32))
   || (n =? 133) || (n =? 160))%N.

(** The code points below 256 whose capital is 32 below them: a to z,
    and 224 to 254 but for the division sign 247. *)
Definition es_minuscula (n : N) : bool :=
  (((97 <=? n) && (n <=? 122))
   || ((224 <=? n) && (n <=? 254) && negb (n =? 247)))%N.

(** [str.upper] on one code point below 256.  The capital of 223 is the
    two letters SS.  The capitals of 181 and 255 are the code points 924
    and 376, which a [string] cannot hold: they are left as they are, and
    [mayusculas_en_rango] tells the strings that have neither. *)
Definition upper_char (c : ascii) : string :=
  let n := code c in
  if es_minuscula n then String (ascii_of_N (n - 32)) ""
  else if (n =? 223)%N then "SS"
  else String c "".

Fixpoint upper (s : string) : string :=
  match s with
  | EmptyString => EmptyString
  | String c s' => upper_char c +:+ upper s'
  end.

Definition mayuscula_en_rango (c : ascii) : bool :=
  negb ((code c =? 181) || (code c =? 255))%N.

Fixpoint lstrip (s : string) : string :=
  match s with
  | EmptyString => EmptyString
  | String c s' => if isspace c then lstrip s' else s
  end.

(** [s.rstrip(chars)], the characters to remove given as a predicate. *)
Fixpoint rstrip_con (f : ascii -> bool) (s : string) : string :=
  match s with
  | EmptyString => EmptyString
  | String c s' =>
      match rstrip_con f s' with
      | EmptyString => if f c then EmptyString else String c EmptyString
      | r => String c r
      end
  end.

Definition rstrip (s : string) : string := rstrip_con isspace s.

(** [s.strip()] *)
Definition strip (s : string) : string := rstrip (lstrip s).

(** [s.startswith(p)] *)
Definition startswith (s p : string) : bool := String.prefix p s.

(** [s.endswith(p)] *)
Definition endswith (s p : string) : bool :=
  let n := String.length s in
  let k := String.length p in
  (k <=? n)%nat && String.eqb (String.substring (n - k) k s) p.

Fixpoint all_chars (f : ascii -> bool) (s : string) : bool :=
  match s with
  | EmptyString => true
  | String c s' => f c && all_chars f s'
  end.

Definition mayusculas_en_rango (s : string) : bool := all_chars mayuscula_en_rango s.
Definition es_blanco (s : string) : bool := all_chars isspace s.

(** Two code points that are equal or the two cases of one letter. *)
Definition variante_char (a b : ascii) : bool :=
  if decide (a = b) then true
  else ((es_minuscula (code a) && (code a =? code b + 32))
        || (es_minuscula (code b) && (code b =? code a + 32)))%N.

Fixpoint solo_difiere_caso (s t : string) : bool :=
  match s, t with
  | EmptyString, EmptyString => true
  | String a s', String b t' => variante_char a b && solo_difiere_caso s' t'
  | _, _ => false
  end.

(** [os.path.splitext] on a name without directory separators, as
    [os.listdir] returns them: the extension starts at the last dot,
    unless only dots come before it. *)
Fixpoint rfind_dot (s : string) (i : nat) : option nat :=
  match s with
  | EmptyString => None
  | String c s' =>
      match rfind_dot s' (S i) with
      | Some j => Some j
      | None => if decide (c = "."%char) then Some i else None
      end
  end.

Definition es_punto (c : ascii) : bool := bool_decide (c = "."%char).

(** [os.path.join(a, b)] for a relative name [b], POSIX flavour. *)
Definition path_join (a b : string) : string :=
  if String.eqb a "" then b
  else if endswith a "/" then a +:+ b
  else a +:+ "/" +:+ b.

Definition splitext (p : string) : string * string :=
  match rfind_dot p 0 with
  | None => (p, "")
  | Some dotIndex =>
      if all_chars es_punto (String.substring 0 dotIndex p) then (p, "")
      else (String.substring 0 dotIndex p,
            String.substring dotIndex (String.length p - dotIndex) p)
  end.

End Py.

(** ** Cells, tables and exceptions *)
Module Pandas.

Inductive Celda (V : Type) : Type :=
| CNum (v : V)
| CTexto (s : string)
| CNaN.
Arguments CNum {V} v.
Arguments CTexto {V} s.
Arguments CNaN {V}.

Global Instance Celda_eq_dec {V} `{EqDecision V} : EqDecision (Celda V).
Proof. solve_decision. Defined.

Definition isnull {V} (c : Celda V) : bool :=
  match c with CNaN => true | _ => false end.

(** [Series.dropna()]: the cells that are not missing, in order. *)
Definition dropna {V} (l : list (Celda V)) : list (Celda V) :=
  filter (fun c => isnull c = false) l.

Record DataFrame (V : Type) : Type := mkDataFrame {
  columns : list (Celda V);
  filas : list (list (Celda V))
}.
Arguments mkDataFrame {V} columns filas.
Arguments columns {V} d.
Arguments filas {V} d.

Inductive Excepcion : Type :=
| TypeError
| ValueError (msg : string)
| InvalidIndexError
| OtraExcepcion (msg : string).

(** What a call does: it returns a value or raises. *)
Inductive Resultado (A : Type) : Type :=
| Devuelve (a : A)
| Lanza (e : Excepcion).
Arguments Devuelve {A} a.
Arguments Lanza {A} e.

(** Sorting, by insertion, with the order given as a test. *)
Fixpoint insertar {A} (le : A -> A -> bool) (x : A) (l : list A) : list A :=
  match l with
  | [] => [x]
  | y :: l' => if le x y then x :: l else y :: insertar le x l'
  end.

Definition ordenar {A} (le : A -> A -> bool) (l : list A) : list A :=
  foldr (insertar le) [] l.

Section Operaciones.
Context {V : Type} `{EqDecision V}.

(** [df.empty]: some axis has length 0. *)
Definition empty (df : DataFrame V) : bool :=
  (length (columns df) =? 0)%nat || (length (filas df) =? 0)%nat.

(** Position of the first column with a given label. *)
Fixpoint indice_de (col : Celda V) (cols : list (Celda V)) : option nat :=
  match cols with
  | [] => None
  | c :: cols' => if decide (c = col) then Some 0%nat else S <$> indice_de col cols'
  end.

(** [fila[col]] for a row of [df]; a cell that does not exist reads as missing. *)
Definition celda_de (cols : list (Celda V)) (fila : list (Celda V)) (col : Celda V) : Celda V :=
  match indice_de col cols with
  | Some n => default CNaN (fila !! n)
  | None => CNaN
  end.

(** [df[col] = valor] with a scalar: overwrite the column, or add it last. *)
Definition set_columna (df : DataFrame V) (col valor : Celda V) : DataFrame V :=
  match indice_de col (columns df) with
  | Some n => mkDataFrame (columns df) ((fun fila => <[n := valor]> fila) <$> filas df)
  | None => mkDataFrame (columns df ++ [col]) ((fun fila => fila ++ [valor]) <$> filas df)
  end.

(** [df.rename(columns={viejo: nuevo})] *)
Definition rename (df : DataFrame V) (viejo nuevo : Celda V) : DataFrame V :=
  mkDataFrame ((fun c => if decide (c = viejo) then nuevo else c) <$> columns df) (filas df).

(** The labels of several tables, each once, in order of first occurrence. *)
Definition unir_columnas (dfs : list (DataFrame V)) : list (Celda V) :=
  foldl (fun acc c => if decide (c ∈ acc) then acc else acc ++ [c]) []
        (dfs ≫= columns).

(** [pd.concat(dfs, ignore_index=True)]: the rows of the tables one after
    the other.  Tables that all have the same columns are stacked as they
    are.  Otherwise each table is laid out on the union of the columns,
    missing where it lacks a column, and pandas refuses to do that to a
    table that repeats a label.  An empty list is refused too. *)
Definition concat (dfs : list (DataFrame V)) : Resultado (DataFrame V) :=
  match dfs with
  | [] => Lanza (ValueError "No objects to concatenate")
  | df0 :: _ =>
      if decide (Forall (fun df => columns df = columns df0) dfs)
      then Devuelve (mkDataFrame (columns df0) (dfs ≫= filas))
      else if decide (Forall (fun df => NoDup (columns df)) dfs)
      then
        let cols := unir_columnas dfs in
        Devuelve
          (mkDataFrame cols
             (dfs ≫= fun df => (fun fila => celda_de (columns df) fila <$> cols) <$> filas df))
      else Lanza InvalidIndexError
  end.

(** Every row has one cell per column. *)
Definition rectangular (df : DataFrame V) : Prop :=
  Forall (fun fila => length fila = length (columns df)) (filas df).

End Operaciones.

End Pandas.
Import Pandas.

(** ** procesador_rnn.py: wide yield rows to month columns *)
Module Papa.
Section Script.
Context {V : Type} `{EqDecision V}.

Definition meses : list string :=
  ["enero"; "febrero"; "marzo"; "abril"; "mayo"; "junio";
   "julio"; "agosto"; "septiembre"; "octubre"; "noviembre"; "diciembre"].

(** A Python dict: keys in insertion order, one entry per key. *)
Definition Dict : Type := list (Celda V * Celda V).

(** [d[k] = v] *)
Fixpoint dict_set (d : Dict) (k v : Celda V) : Dict :=
  match d with
  | [] => [(k, v)]
  | (k', v') :: d' =>
      if decide (k' = k) then (k', v) :: d' else (k', v') :: dict_set d' k v
  end.

(** [d.get(k)] *)
Fixpoint dict_get (d : Dict) (k : Celda V) : option (Celda V) :=
  match d with
  | [] => None
  | (k', v') :: d' => if decide (k' = k) then Some v' else dict_get d' k
  end.

Definition clave_produccion (mes : string) : Celda V := CTexto (mes +:+ "-produccion").
Definition clave_area (mes : string) : Celda V := CTexto (mes +:+ "-area").

(** [if n < len(valores): fila_resultado[clave] = valores[n]] *)
Definition asignar_si (fila_resultado : Dict) (clave : Celda V)
    (valores : list (Celda V)) (n : nat) : Dict :=
  if (n <? length valores)%nat then
    match valores !! n with
    | Some v => dict_set fila_resultado clave v
    | None => fila_resultado
    end
  else fila_resultado.

(** [for i, mes in enumerate(meses): ...], from index [i] on. *)
Fixpoint asignar_meses (i : nat) (ms : list string) (valores : list (Celda V))
    (fila_resultado : Dict) : Dict :=
  match ms with
  | [] => fila_resultado
  | mes :: ms' =>
      let d1 := asignar_si fila_resultado (clave_produccion mes) valores (i * 2) in
      let d2 := asignar_si d1 (clave_area mes) valores (i * 2 + 1) in
      asignar_meses (S i) ms' valores d2
  end.

(** The body of the loop over the rows of Turrialba: one result row. *)
Definition procesar_fila (primera_columna : Celda V) (fila : list (Celda V)) : Dict :=
  let valores := dropna (tail fila) in
  let fila_resultado := [(primera_columna, CTexto "Turrialba")] in
  asignar_meses 0 meses valores fila_resultado.

(** [df[primera_columna] == 'Turrialba'] on one row. *)
Definition es_turrialba (fila : list (Celda V)) : bool :=
  match fila with
  | c :: _ => bool_decide (c = CTexto "Turrialba")
  | [] => false
  end.

(** The 24 month keys in slot order, and the key of slot [p]. *)
Definition claves_de (ms : list string) : list (Celda V) :=
  flat_map (fun mes => [clave_produccion mes; clave_area mes]) ms.

Definition claves : list (Celda V) := claves_de meses.

(** The months that got a production or an area value in a result row. *)
Definition tiene (d : Dict) (k : Celda V) : bool :=
  match dict_get d k with Some _ => true | None => false end.

Definition meses_asignados (d : Dict) : list string :=
  List.filter (fun mes => tiene d (clave_produccion mes) || tiene d (clave_area mes)) meses.

End Script.
End Papa.

(** ** procesador_datos_atmosfericos.py *)
Module Atmosfericos.

(** What the logger receives. *)
Inductive Registro : Type :=
| Warning_sin_encabezado (ruta : string)
| Warning_vacio (ruta : string)
| Warning_columnas_faltantes (ruta : string) (faltantes : list string)
| Error_procesando_archivo (ruta : string) (e : Excepcion)
| Info_procesando (n : nat)
| Info_procesados (procesados total : nat)
| Error_al_procesar (e : Excepcion).

Definition marcador : string := "PARAMETER,YEAR".

Definition columnas_meses : list string :=
  ["JAN"; "FEB"; "MAR"; "APR"; "MAY"; "JUN";
   "JUL"; "AUG"; "SEP"; "OCT"; "NOV"; "DEC"].

Definition columnas_necesarias : list string :=
  ["PARAMETER"; "YEAR"] ++ columnas_meses.

(** The test of the header scan on one line. *)
Definition es_encabezado (linea : string) : Prop :=
  Py.startswith (Py.strip linea) marcador = true.

(** A row of the long table that [melt] builds. *)
Record FilaLarga (V : Type) : Type := mkFilaLarga {
  PARAMETER : Celda V;
  YEAR : Celda V;
  mes : string;
  valor : Celda V
}.
Arguments mkFilaLarga {V} PARAMETER YEAR mes valor.
Arguments PARAMETER {V} f.
Arguments YEAR {V} f.
Arguments mes {V} f.
Arguments valor {V} f.

(** The table [pivot_table] returns, before [reset_index]: the index
    holds the (YEAR, mes) pairs, the columns the PARAMETER values, both
    sorted. *)
Record Pivote (V : Type) : Type := mkPivote {
  p_index : list (Celda V * string);
  p_columns : list (Celda V);
  p_valores : list (list (Celda V))
}.
Arguments mkPivote {V} p_index p_columns p_valores.
Arguments p_index {V} p.
Arguments p_columns {V} p.
Arguments p_valores {V} p.

Section Procesador.
Context {V : Type} `{EqDecision V}.

(** [pd.read_csv(ruta, skiprows=n)] on the file that has these lines. *)
Variable read_csv : list string -> nat -> Resultado (DataFrame V).
(** The number [pd.to_numeric] reads in a text cell, if any. *)
Variable to_numeric_texto : string -> option V.
(** The arithmetic mean. *)
Variable media : list V -> V.
(** The order in which pandas sorts the keys of a group-by. *)
Variable menor_o_igual : Celda V -> Celda V -> bool.

(** [for i, linea in enumerate(lineas): if ...: indice_inicio = i; break] *)
Fixpoint buscar_inicio (i : nat) (lineas : list string) : option nat :=
  match lineas with
  | [] => None
  | linea :: resto =>
      if Py.startswith (Py.strip linea) marcador then Some i
      else buscar_inicio (S i) resto
  end.

Definition columnas_faltantes (df : DataFrame V) : list string :=
  filter (fun col => CTexto col ∉ columns df) columnas_necesarias.

(** [df.melt(id_vars=[PARAMETER, YEAR], value_vars=[JAN..DEC], ...)] *)
Definition melt (df : DataFrame V) : list (FilaLarga V) :=
  columnas_meses ≫= fun m =>
    (fun fila =>
       mkFilaLarga (celda_de (columns df) fila (CTexto "PARAMETER"))
                   (celda_de (columns df) fila (CTexto "YEAR"))
                   m
                   (celda_de (columns df) fila (CTexto m))) <$> filas df.

(** [pd.to_numeric(..., errors='coerce')] on one cell. *)
Definition to_numeric (c : Celda V) : Celda V :=
  match c with
  | CTexto s => match to_numeric_texto s with Some v => CNum v | None => CNaN end
  | _ => c
  end.

Definition valor_a_numerico (df_largo : list (FilaLarga V)) : list (FilaLarga V) :=
  (fun r => mkFilaLarga (PARAMETER r) (YEAR r) (mes r) (to_numeric (valor r))) <$> df_largo.

Definition numero (c : Celda V) : option V :=
  match c with CNum v => Some v | _ => None end.

(** The numbers of the group (YEAR, mes, PARAMETER) = (y, m, p). *)
Definition grupo (df_largo : list (FilaLarga V)) (y : Celda V) (m : string)
    (p : Celda V) : list V :=
  omap (fun r => if decide (YEAR r = y /\ mes r = m /\ PARAMETER r = p)
                 then numero (valor r) else None) df_largo.

(** The mean of a group; missing when the group has no number. *)
Definition celda_media (df_largo : list (FilaLarga V)) (y : Celda V) (m : string)
    (p : Celda V) : Celda V :=
  match grupo df_largo y m p with
  | [] => CNaN
  | vs => CNum (media vs)
  end.

(** The rows that reach the table: keys present and a number to average. *)
Definition con_dato (df_largo : list (FilaLarga V)) : list (FilaLarga V) :=
  filter (fun r => isnull (YEAR r) = false /\ isnull (PARAMETER r) = false
                   /\ is_Some (numero (valor r))) df_largo.

(** The order of the index of the pivot: by YEAR, then by month name. *)
Definition orden_indice (a b : Celda V * string) : bool :=
  if decide (a.1 = b.1) then menor_o_igual (CTexto a.2) (CTexto b.2)
  else menor_o_igual a.1 b.1.

(** [pivot_table(index=[YEAR, mes], columns=PARAMETER, values=valor, aggfunc='mean')] *)
Definition pivot_table (df_largo : list (FilaLarga V)) : Pivote V :=
  let datos := con_dato df_largo in
  let index := ordenar orden_indice (remove_dups ((fun r => (YEAR r, mes r)) <$> datos)) in
  let cols := ordenar menor_o_igual (remove_dups (PARAMETER <$> datos)) in
  mkPivote index cols
    ((fun im => (fun p => celda_media df_largo im.1 im.2 p) <$> cols) <$> index).

(** [reset_index()]: the index levels become the first columns; pandas
    refuses when a column already has one of their names. *)
Definition reset_index (t : Pivote V) : Resultado (DataFrame V) :=
  if decide (CTexto "YEAR" ∈ p_columns t \/ CTexto "mes" ∈ p_columns t)
  then Lanza (ValueError "cannot insert, already exists")
  else Devuelve
         (mkDataFrame (CTexto "YEAR" :: CTexto "mes" :: p_columns t)
            ((fun iv => iv.1.1 :: CTexto iv.1.2 :: iv.2) <$> zip (p_index t) (p_valores t))).

(** The part of [_leer_archivo] that follows [pd.read_csv]. *)
Definition procesar_tabla (ruta canton : string) (leido : Resultado (DataFrame V))
    : list Registro * option (DataFrame V) :=
  match leido with
  | Lanza e => ([Error_procesando_archivo ruta e], None)
  | Devuelve df =>
      if empty df then ([Warning_vacio ruta], None)
      else
        match columnas_faltantes df with
        | (_ :: _) as faltantes =>
            ([Warning_columnas_faltantes ruta faltantes], None)
        | [] =>
            let df_largo := valor_a_numerico (melt df) in
            match reset_index (pivot_table df_largo) with
            | Lanza e => ([Error_procesando_archivo ruta e], None)
            | Devuelve df_pivoteado =>
                let df_pivoteado :=
                  set_columna df_pivoteado (CTexto "canton")
                    (CTexto (Py.upper (Py.strip canton))) in
                let df_pivoteado :=
                  rename df_pivoteado (CTexto "YEAR") (CTexto "anio") in
                ([], Some df_pivoteado)
            end
        end
  end.

(** [_leer_archivo(ruta, canton)], given what reading the file gives.
    It returns the log entries and the table, or [None]. *)
Definition _leer_archivo (contenido : Resultado (list string)) (ruta canton : string)
    : list Registro * option (DataFrame V) :=
  match contenido with
  | Lanza e => ([Error_procesando_archivo ruta e], None)
  | Devuelve lineas =>
      match buscar_inicio 0 lineas with
      | None => ([Warning_sin_encabezado ruta], None)
      | Some indice_inicio => procesar_tabla ruta canton (read_csv lineas indice_inicio)
      end
  end.

(** What [os.listdir] gives, with what reading each entry gives. *)
Definition Carpeta : Type := list (string * Resultado (list string)).

(** The loop of [procesar_todos] over the CSV files. *)
Fixpoint bucle (carpeta : string) (archivos : Carpeta) (df_final : list (DataFrame V))
    (archivos_procesados : nat) (log : list Registro)
    : list (DataFrame V) * nat * list Registro :=
  match archivos with
  | [] => (df_final, archivos_procesados, log)
  | (archivo, contenido) :: resto =>
      let ruta := Py.path_join carpeta archivo in
      let canton := (Py.splitext archivo).1 in
      let r := _leer_archivo contenido ruta canton in
      match r.2 with
      | Some df_canton =>
          bucle carpeta resto (df_final ++ [df_canton]) (S archivos_procesados) (log ++ r.1)
      | None => bucle carpeta resto df_final archivos_procesados (log ++ r.1)
      end
  end.

Definition sin_archivos (carpeta : string) : Excepcion :=
  ValueError ("No se encontraron archivos CSV en " +:+ carpeta).
Definition sin_validos : Excepcion :=
  ValueError "No se pudo procesar ningún archivo CSV válido".

(** [procesar_todos()], called without a file name as the pipeline does. *)
Definition procesar_todos (carpeta : string) (listado : Carpeta)
    : list Registro * Resultado (DataFrame V) :=
  let archivos := List.filter (fun f => Py.endswith f.1 ".csv") listado in
  match archivos with
  | [] => ([Error_al_procesar (sin_archivos carpeta)], Lanza (sin_archivos carpeta))
  | _ :: _ =>
      let '(df_final, archivos_procesados, log) :=
        bucle carpeta archivos [] 0 [Info_procesando (length archivos)] in
      match df_final with
      | [] => (log ++ [Error_al_procesar sin_validos], Lanza sin_validos)
      | _ :: _ =>
          let log := log ++ [Info_procesados archivos_procesados (length archivos)] in
          match concat df_final with
          | Devuelve df_consolidado => (log, Devuelve df_consolidado)
          | Lanza e => (log ++ [Error_al_procesar e], Lanza e)
          end
      end
  end.

(** What the loop collects: the call for one entry, the tables of the
    entries that parse, and the number of entries that do. *)
Definition leer_entrada (carpeta : string) (f : string * Resultado (list string))
    : list Registro * option (DataFrame V) :=
  _leer_archivo f.2 (Py.path_join carpeta f.1) (Py.splitext f.1).1.

Definition exitosos (carpeta : string) (archivos : Carpeta) : list (DataFrame V) :=
  omap (fun f => (leer_entrada carpeta f).2) archivos.

Definition registros_de (carpeta : string) (archivos : Carpeta) : list Registro :=
  archivos ≫= fun f => (leer_entrada carpeta f).1.

(** The rows of the tables of the entries that parse, in the order of the
    entries, each with its entry and its table. *)
Definition filas_leidas (carpeta : string) (archivos : Carpeta)
    : list (string * Resultado (list string) * DataFrame V * list (Celda V)) :=
  archivos ≫= fun f =>
    match (leer_entrada carpeta f).2 with
    | Some df_canton => (fun fila => (f, df_canton, fila)) <$> filas df_canton
    | None => []
    end.

Definition es_csv (f : string * Resultado (list string)) : bool :=
  Py.endswith f.1 ".csv".

(** The cell of a pivot table at a position of its index and columns. *)
Definition celda_pivote (t : Pivote V) (a b : nat) : option (Celda V) :=
  p_valores t !! a ≫= fun vals => vals !! b.

End Procesador.
End Atmosfericos.

(** ** pipeline_procesamiento.py: the quality report *)
Module Pipeline.

(** A float, rounding aside: a rational, an infinity or the NaN. *)
Inductive Flotante : Type :=
| FNum (q : Q)
| FInf (positivo : bool)
| FNaN.

(** [a / b] where [a] is a numpy integer, as [Series.sum()] returns: a
    zero divisor gives NaN or an infinity (with a warning), not an
    exception. *)
Definition np_truediv (a b : Z) : Flotante :=
  if (b =? 0)%Z then (if (a =? 0)%Z then FNaN else FInf (0 <? a)%Z)
  else FNum (inject_Z a / inject_Z b).

(** [1 - x] *)
Definition uno_menos (x : Flotante) : Flotante :=
  match x with
  | FNum q => FNum (1 - q)
  | FInf s => FInf (negb s)
  | FNaN => FNaN
  end.

(** [x * 100] *)
Definition por_cien (x : Flotante) : Flotante :=
  match x with
  | FNum q => FNum (q * 100)
  | FInf s => FInf s
  | FNaN => FNaN
  end.

(** The dictionary that [generar_reporte_calidad] fills ([anios_unicos]
    is the key "años_unicos"). *)
Record Reporte : Type := mkReporte {
  total_filas : nat;
  total_columnas : nat;
  cantones_unicos : nat;
  anios_unicos : nat;
  meses_unicos : nat;
  valores_faltantes : nat;
  porcentaje_completitud : Flotante
}.

Inductive RegistroReporte : Type :=
| Info_reporte (reporte : Reporte)
| Error_reporte (e : Excepcion).

Section Reporte.
Context {V : Type} `{EqDecision V}.

(** [df[col].nunique() if col in df.columns else 0] *)
Definition nunique_si_existe (df : DataFrame V) (col : Celda V) : nat :=
  if decide (col ∈ columns df)
  then length (remove_dups (dropna ((fun fila => celda_de (columns df) fila col) <$> filas df)))
  else 0.

(** [df.isnull().sum().sum()] *)
Definition contar_nulos (df : DataFrame V) : nat :=
  sum_list ((fun fila => length (List.filter isnull fila)) <$> filas df).

(** The body of the [try]; [None] stands for Python's [None], on which
    [len] raises. *)
Definition calcular_reporte (df_final : option (DataFrame V)) : Resultado Reporte :=
  match df_final with
  | None => Lanza TypeError
  | Some df =>
      Devuelve
        (mkReporte
           (length (filas df))
           (length (columns df))
           (nunique_si_existe df (CTexto "canton"))
           (nunique_si_existe df (CTexto "anio"))
           (nunique_si_existe df (CTexto "mes"))
           (contar_nulos df)
           (por_cien (uno_menos
              (np_truediv (Z.of_nat (contar_nulos df))
                          (Z.of_nat (length (filas df) * length (columns df)))))))
  end.

(** [generar_reporte_calidad(df_final)]: the log entry and the returned
    dictionary, [None] for the empty dictionary. *)
Definition generar_reporte_calidad (df_final : option (DataFrame V))
    : list RegistroReporte * option Reporte :=
  match calcular_reporte df_final with
  | Devuelve reporte => ([Info_reporte reporte], Some reporte)
  | Lanza e => ([Error_reporte e], None)
  end.

End Reporte.
End Pipeline.

(** ** Sample data, with integers as the numbers *)
Module Ejemplos.

(** A row of Turrialba with the values 1 to 25 and no null. *)
Definition fila25 : list (Celda Z) :=
  CTexto "Turrialba" :: ((fun n => CNum (Z.of_nat n)) <$> seq 1 25).

(** January and part of February: three values. *)
Definition fila_impar : list (Celda Z) :=
  [CTexto "Turrialba"; CNum 10%Z; CNum 11%Z; CNum 20%Z].

(** January, nothing for February, then March. *)
Definition fila_hueco : list (Celda Z) :=
  [CTexto "Turrialba"; CNum 10%Z; CNum 11%Z; CNaN; CNaN; CNum 30%Z; CNum 31%Z].

Definition canton_col : Celda Z := CTexto "Canton".

(** A plain reader of comma-separated text standing for [pd.read_csv]:
    no quoting, blank lines skipped, integer cells as numbers, empty cells
    missing, short rows padded. *)
Definition digito (c : ascii) : option Z :=
  let n := Py.code c in
  if ((48 <=? n) && (n <=? 57))%N then Some (Z.of_N (n - 48)) else None.

Fixpoint natural (s : string) (acc : Z) : option Z :=
  match s with
  | EmptyString => Some acc
  | String c s' =>
      match digito c with
      | Some d => natural s' (acc * 10 + d)%Z
      | None => None
      end
  end.

Definition entero (s : string) : option Z :=
  match s with
  | EmptyString => None
  | String "-"%char (String c s') => Z.opp <$> natural (String c s') 0
  | _ => natural s 0
  end.

Fixpoint split_comas (s : string) : list string :=
  match s with
  | EmptyString => [""]
  | String c s' =>
      let r := split_comas s' in
      if decide (c = ","%char) then "" :: r
      else match r with
           | h :: t => String c h :: t
           | [] => [String c ""]
           end
  end.

Definition fin_de_linea (c : ascii) : bool :=
  ((Py.code c =? 10) || (Py.code c =? 13))%N.

Definition celda_csv (s : string) : Celda Z :=
  if String.eqb s "" then CNaN
  else match entero s with Some z => CNum z | None => CTexto s end.

Definition leer_csv_simple (lineas : list string) (skiprows : nat)
    : Resultado (DataFrame Z) :=
  let utiles :=
    List.filter (fun l => negb (String.eqb l ""))
      (Py.rstrip_con fin_de_linea <$> drop skiprows lineas) in
  match utiles with
  | [] => Lanza (OtraExcepcion "EmptyDataError")
  | encabezado :: datos =>
      let cols := split_comas encabezado in
      Devuelve
        (mkDataFrame (CTexto <$> cols)
           ((fun l => take (length cols)
                        ((celda_csv <$> split_comas l) ++ replicate (length cols) CNaN))
              <$> datos))
  end.

(** The mean of integers, exact when the sum divides. *)
Definition media_Z (l : list Z) : Z := (foldr Z.add 0 l / Z.of_nat (length l))%Z.

(** The order of the keys: numbers by value and before texts, texts by
    code points. *)
Definition orden_Z (a b : Celda Z) : bool :=
  match a, b with
  | CNum x, CNum y => (x <=? y)%Z
  | CTexto s, CTexto t => String.leb s t
  | CNum _, _ => true
  | CTexto _, CNum _ => false
  | CTexto _, CNaN => true
  | CNaN, CNaN => true
  | CNaN, _ => false
  end.

Definition leer (lineas : list string) (ruta canton : string)
    : list Atmosfericos.Registro * option (DataFrame Z) :=
  Atmosfericos._leer_archivo leer_csv_simple entero media_Z orden_Z (Devuelve lineas) ruta canton.

Definition salto : string := String (ascii_of_N 10) "".

(** A file with two preamble lines and one parameter over one year. *)
Definition archivo_t2m : list string :=
  ["-BEGIN HEADER-" +:+ salto;
   "-END HEADER-" +:+ salto;
   "PARAMETER,YEAR,JAN,FEB,MAR,APR,MAY,JUN,JUL,AUG,SEP,OCT,NOV,DEC,ANN" +:+ salto;
   "T2M,2020,1,2,3,4,5,6,7,8,9,10,11,12,6" +:+ salto].

(** No line starts with the marker. *)
Definition archivo_sin_encabezado : list string :=
  ["-BEGIN HEADER-" +:+ salto; "YEAR,PARAMETER,JAN" +:+ salto].

(** The header lacks DEC; one data row. *)
Definition archivo_sin_dec : list string :=
  ["PARAMETER,YEAR,JAN,FEB,MAR,APR,MAY,JUN,JUL,AUG,SEP,OCT,NOV" +:+ salto;
   "T2M,2020,1,2,3,4,5,6,7,8,9,10,11" +:+ salto].

(** The header lacks the month columns and no data row follows. *)
Definition archivo_solo_encabezado : list string :=
  ["PARAMETER,YEAR" +:+ salto].

(** Two rows for the same parameter and year. *)
Definition archivo_duplicado : list string :=
  ["PARAMETER,YEAR,JAN,FEB,MAR,APR,MAY,JUN,JUL,AUG,SEP,OCT,NOV,DEC" +:+ salto;
   "T2M,2020,1,2,3,4,5,6,7,8,9,10,11,12" +:+ salto;
   "T2M,2020,3,2,3,4,5,6,7,8,9,10,11,12" +:+ salto].

(** One row whose parameter is named [anio]. *)
Definition archivo_anio : list string :=
  ["PARAMETER,YEAR,JAN,FEB,MAR,APR,MAY,JUN,JUL,AUG,SEP,OCT,NOV,DEC" +:+ salto;
   "anio,2020,1,2,3,4,5,6,7,8,9,10,11,12" +:+ salto].

(** Two files that parse, the first with the parameter [anio]. *)
Definition carpeta_repetida : Atmosfericos.Carpeta :=
  [("a.csv", Devuelve archivo_anio); ("b.csv", Devuelve archivo_t2m)].

Definition carpeta_demo : Atmosfericos.Carpeta :=
  [("notas.txt", Devuelve ["hola"]);
   (" turrialba.csv", Devuelve archivo_t2m);
   ("roto.csv", Devuelve archivo_sin_dec);
   ("ilegible.csv", Lanza (OtraExcepcion "UnicodeDecodeError"))].

Definition todos (carpeta : string) (listado : Atmosfericos.Carpeta) :=
  Atmosfericos.procesar_todos leer_csv_simple entero media_Z orden_Z carpeta listado.

(** The table the reader gives for some lines, empty if it raises. *)
Definition df_de (lineas : list string) (skiprows : nat) : DataFrame Z :=
  match leer_csv_simple lineas skiprows with
  | Devuelve df => df
  | Lanza _ => mkDataFrame [] []
  end.

(** The table the parser returns for some lines, empty if it returns none. *)
Definition tabla_de (lineas : list string) (canton : string) : DataFrame Z :=
  default (mkDataFrame [] []) (leer lineas "d/x.csv" canton).2.

Definition fila_enero_de (canton : string) : list (Celda Z) :=
  [CNum 2020%Z; CTexto "JAN"; CNum 1%Z; CTexto canton].

Definition fila_enero : list (Celda Z) := fila_enero_de "TURRIALBA".

(** A region name with an accent, in small letters and in capitals: the
    code points 233 and 201. *)
Definition san_jose : string := "San Jos" +:+ String (ascii_of_N 233) "".
Definition SAN_JOSE : string := "SAN JOS" +:+ String (ascii_of_N 201) "".

Definition pivote_de (lineas : list string) (skiprows : nat) : Atmosfericos.Pivote Z :=
  Atmosfericos.pivot_table media_Z orden_Z
    (Atmosfericos.valor_a_numerico entero (Atmosfericos.melt (df_de lineas skiprows))).

(** Yield rows whose region is a variant of the name. *)
Definition hoja_variantes : DataFrame Z :=
  mkDataFrame [CTexto "Canton"; CTexto "c1"; CTexto "c2"]
    [[CTexto " Turrialba "; CNum 1%Z; CNum 2%Z];
     [CTexto "TURRIALBA"; CNum 3%Z; CNum 4%Z];
     [CTexto "turrialba"; CNum 5%Z; CNum 6%Z];
     [CTexto "Turrialba"; CNum 7%Z; CNum 8%Z]].

(** A merged table with one missing cell, and one without rows. *)
Definition tabla_final : DataFrame Z :=
  mkDataFrame [CTexto "canton"; CTexto "anio"; CTexto "mes"; CTexto "T2M"]
    [[CTexto "TURRIALBA"; CNum 2020%Z; CTexto "JAN"; CNum 1%Z];
     [CTexto "TURRIALBA"; CNum 2020%Z; CTexto "FEB"; CNaN]].

Definition tabla_sin_filas : DataFrame Z :=
  mkDataFrame [CTexto "canton"; CTexto "anio"; CTexto "mes"; CTexto "T2M"] [].

End Ejemplos.

(** ** Invariants used below *)
Module Invariantes.
Section Invariantes.
Context {V : Type} `{EqDecision V}.

(** What the month loop of the yield script keeps true of the row [d] it
    fills from [d0]: distinct keys, at most [n] entries added, the keys of
    [d0] kept, and no value from elsewhere than [d0] and [valores]. *)
Definition fila_bien (valores : list (Celda V)) (d0 d : @Papa.Dict V) (n : nat) : Prop :=
  NoDup d.*1
  /\ length d <= length d0 + n
  /\ (forall k, k ∈ d0.*1 -> k ∈ d.*1)
  /\ (forall v, v ∈ d.*2 -> v ∈ d0.*2 \/ v ∈ valores).

(** The row [fila'] of a table with columns [cols'] is the row [fila] of a
    table with columns [cols]: under every label it reads the same cell,
    missing under the labels [cols] lacks. *)
Definition misma_fila (cols fila cols' fila' : list (Celda V)) : Prop :=
  length fila' = length cols'
  /\ forall col, celda_de cols' fila' col = celda_de cols fila col.

End Invariantes.
End Invariantes.

(** ** The stages of the pipeline and the file system they test *)
Module Orquestacion.

(** What a path holds: nothing, a file with what reading it gives, or a
    folder with its listing. *)
Inductive Nodo : Type :=
| NoExiste
| Archivo (contenido : Resultado (list string))
| Directorio (listado : Atmosfericos.Carpeta).

Definition Sistema : Type := string -> Nodo.

(** [os.path.exists] and [os.path.isdir] *)
Definition existe (fs : Sistema) (ruta : string) : bool :=
  match fs ruta with NoExiste => false | _ => true end.

Definition isdir (fs : Sistema) (ruta : string) : bool :=
  match fs ruta with Directorio _ => true | _ => false end.

Inductive ErrorES : Type :=
| FileNotFoundError (msg : string)
| NotADirectoryError (msg : string).

(** What a stage raises: an error of the file system tests, or an
    exception of the processing. *)
Inductive Fallo : Type :=
| DeSistema (e : ErrorES)
| DePython (e : Excepcion).

Inductive Salida (A : Type) : Type :=
| Retorna (a : A)
| Falla (f : Fallo).
Arguments Retorna {A} a.
Arguments Falla {A} f.

(** [os.listdir] *)
Definition listdir (fs : Sistema) (ruta : string) : Salida Atmosfericos.Carpeta :=
  match fs ruta with
  | Directorio listado => Retorna listado
  | Archivo _ => Falla (DeSistema (NotADirectoryError ruta))
  | NoExiste => Falla (DeSistema (FileNotFoundError ruta))
  end.

(** What the loggers of the pipeline and of its stages receive. *)
Inductive RegistroPipeline : Type :=
| Info (msg : string)
| ErrorEn (etapa : string) (f : Fallo)
| DeClima (r : Atmosfericos.Registro)
| DeReporte (r : Pipeline.RegistroReporte).

(** The object [ProcesadorDatosAtmosfericos.__init__] builds. *)
Record Procesador : Type := mkProcesador {
  carpeta : string;
  carpeta_salida : string
}.

(** [ProcesadorDatosAtmosfericos(carpeta, carpeta_salida)] *)
Definition nuevo_procesador (fs : Sistema) (carpeta carpeta_salida : string)
    : Salida Procesador :=
  if negb (existe fs carpeta)
  then Falla (DeSistema (NotADirectoryError ("La carpeta " +:+ carpeta +:+ " no existe")))
  else if negb (isdir fs carpeta)
  then Falla (DeSistema (NotADirectoryError (carpeta +:+ " no es una carpeta válida")))
  else Retorna (mkProcesador carpeta carpeta_salida).

(** [PipelineProcesamiento._validar_archivos_entrada] *)
Definition _validar_archivos_entrada (fs : Sistema) (ruta_excel_papa carpeta : string)
    : list RegistroPipeline * Salida unit :=
  if negb (existe fs ruta_excel_papa)
  then ([], Falla (DeSistema (FileNotFoundError
                     ("Archivo Excel no encontrado: " +:+ ruta_excel_papa))))
  else if negb (existe fs carpeta)
  then ([], Falla (DeSistema (FileNotFoundError
                     ("Carpeta de datos atmosféricos no encontrada: " +:+ carpeta))))
  else if negb (isdir fs carpeta)
  then ([], Falla (DeSistema (NotADirectoryError
                     ("La ruta no es una carpeta válida: " +:+ carpeta))))
  else
    match listdir fs carpeta with
    | Falla f => ([], Falla f)
    | Retorna listado =>
        match List.filter Atmosfericos.es_csv listado with
        | [] => ([], Falla (DeSistema (FileNotFoundError
                           ("No se encontraron archivos CSV en: " +:+ carpeta))))
        | _ :: _ => ([Info "Validación de archivos de entrada completada"], Retorna tt)
        end
    end.

Section Etapas.
Context {V : Type} `{EqDecision V}.
Variable read_csv : list string -> nat -> Resultado (DataFrame V).
Variable to_numeric_texto : string -> option V.
Variable media : list V -> V.
Variable menor_o_igual : Celda V -> Celda V -> bool.
(** [ProcesadorDatosPapa(ruta).procesar_a_formato_largo()]; the class is
    not in these sources. *)
Variable procesar_a_formato_largo : string -> Resultado (DataFrame V).
(** What [fusionar_datos] does with the two tables, climate first: the
    temporary files and [MergeDatosPapaAtmosfericos(...).unir_datasets()];
    the class is not in these sources. *)
Variable unir_datasets : DataFrame V -> DataFrame V -> Resultado (DataFrame V).
(** [df.to_csv(ruta, ...)] *)
Variable to_csv : string -> DataFrame V -> Resultado unit.

Definition de_resultado {A} (r : Resultado A) : Salida A :=
  match r with
  | Devuelve a => Retorna a
  | Lanza e => Falla (DePython e)
  end.

(** [procesador.procesar_todos()] on the folder as the file system has it. *)
Definition procesar_todos_en (fs : Sistema) (p : Procesador)
    : list RegistroPipeline * Salida (DataFrame V) :=
  match listdir fs (carpeta p) with
  | Falla f => ([ErrorEn "procesar archivos" f], Falla f)
  | Retorna listado =>
      let r := Atmosfericos.procesar_todos read_csv to_numeric_texto media menor_o_igual
                 (carpeta p) listado in
      (DeClima <$> r.1, de_resultado r.2)
  end.

(** A stage: the info entry, the body, then the closing info entry, or
    the error entry and the same failure again. *)
Definition etapa {A} (inicio fin nombre : string)
    (cuerpo : list RegistroPipeline * Salida A) : list RegistroPipeline * Salida A :=
  match cuerpo.2 with
  | Retorna a => (Info inicio :: cuerpo.1 ++ [Info fin], Retorna a)
  | Falla f => (Info inicio :: cuerpo.1 ++ [ErrorEn nombre f], Falla f)
  end.

(** [PipelineProcesamiento.procesar_datos_papa] *)
Definition procesar_datos_papa (ruta_excel_papa : string)
    : list RegistroPipeline * Salida (DataFrame V) :=
  etapa "Iniciando procesamiento de datos de papa"
        "Procesamiento de datos de papa completado"
        "procesando datos de papa"
        ([], de_resultado (procesar_a_formato_largo ruta_excel_papa)).

(** [PipelineProcesamiento.procesar_datos_atmosfericos] *)
Definition procesar_datos_atmosfericos (fs : Sistema) (carpeta carpeta_salida : string)
    : list RegistroPipeline * Salida (DataFrame V) :=
  etapa "Iniciando procesamiento de datos atmosféricos"
        "Procesamiento de datos atmosféricos completado"
        "procesando datos atmosféricos"
        (match nuevo_procesador fs carpeta carpeta_salida with
         | Falla f => ([], Falla f)
         | Retorna p => procesar_todos_en fs p
         end).

(** [PipelineProcesamiento.fusionar_datos] *)
Definition fusionar_datos (df_papa df_clima : DataFrame V)
    : list RegistroPipeline * Salida (DataFrame V) :=
  etapa "Iniciando fusión de datos" "Fusión completada" "fusionando datos"
        ([], de_resultado (unir_datasets df_clima df_papa)).

(** Sequencing inside the [try] of the pipeline: a failure ends it. *)
Definition luego {A B} (m : list RegistroPipeline * Salida A)
    (k : A -> list RegistroPipeline * Salida B) : list RegistroPipeline * Salida B :=
  match m.2 with
  | Retorna a => (m.1 ++ (k a).1, (k a).2)
  | Falla f => (m.1, Falla f)
  end.

(** The body of the [try] of [ejecutar_pipeline_completo]. *)
Definition cuerpo_pipeline (fs : Sistema) (ruta_excel_papa carpeta carpeta_salida : string)
    : list RegistroPipeline * Salida (string * option Pipeline.Reporte) :=
  luego ([Info "=== INICIANDO PIPELINE COMPLETO ==="], Retorna tt) (fun _ =>
  luego (_validar_archivos_entrada fs ruta_excel_papa carpeta) (fun _ =>
  luego (procesar_datos_papa ruta_excel_papa) (fun df_papa =>
  luego (procesar_datos_atmosfericos fs carpeta carpeta_salida) (fun df_clima =>
  luego (fusionar_datos df_papa df_clima) (fun df_final =>
  let ruta_final := Py.path_join carpeta_salida "rnn_df.csv" in
  luego ([], de_resultado (to_csv ruta_final df_final)) (fun _ =>
  let reporte := Pipeline.generar_reporte_calidad (Some df_final) in
  ((DeReporte <$> reporte.1) ++ [Info "=== PIPELINE COMPLETADO EXITOSAMENTE ==="],
   Retorna (ruta_final, reporte.2)))))))).

(** [PipelineProcesamiento.ejecutar_pipeline_completo]; the two entries
    that report the elapsed time and the final path are left out of the
    log. *)
Definition ejecutar_pipeline_completo (fs : Sistema)
    (ruta_excel_papa carpeta carpeta_salida : string)
    : list RegistroPipeline * Salida (string * option Pipeline.Reporte) :=
  let r := cuerpo_pipeline fs ruta_excel_papa carpeta carpeta_salida in
  match r.2 with
  | Retorna a => r
  | Falla f => (r.1 ++ [ErrorEn "pipeline completo" f], Falla f)
  end.

End Etapas.
End Orquestacion.

(** ** A sample file system *)
Module EjemplosSistema.
Import Orquestacion Ejemplos.

(** The yield spreadsheet and the demo folder; [solo_texto] has no CSV
    entry and [datos.csv] is a file, not a folder. *)
Definition fs_demo : Sistema := fun ruta =>
  if String.eqb ruta "papa.xls" then Archivo (Lanza (OtraExcepcion "UnicodeDecodeError"))
  else if String.eqb ruta "datos" then Directorio carpeta_demo
  else if String.eqb ruta "solo_texto" then Directorio [("notas.txt", Devuelve ["hola"])]
  else if String.eqb ruta "datos.csv" then Archivo (Devuelve archivo_t2m)
  else NoExiste.

(** Stand-ins for the yield processor, the merger and the writer. *)
Definition papa_demo (ruta : string) : Resultado (DataFrame Z) :=
  Devuelve hoja_variantes.

Definition fusion_demo (df_clima df_papa : DataFrame Z) : Resultado (DataFrame Z) :=
  Devuelve df_clima.

Definition escribir_demo (ruta : string) (df : DataFrame Z) : Resultado unit :=
  Devuelve tt.

Definition clima_demo (carpeta : string) :=
  procesar_datos_atmosfericos leer_csv_simple entero media_Z orden_Z fs_demo carpeta "salida".

Definition pipeline_demo (ruta_excel carpeta : string) :=
  ejecutar_pipeline_completo leer_csv_simple entero media_Z orden_Z
    papa_demo fusion_demo escribir_demo fs_demo ruta_excel carpeta "salida".

(** A row without data, and the table the demo batch returns. *)
Definition fila_nula : list (Celda Z) := [CTexto "Turrialba"; CNaN; CNaN].

Definition consolidado_demo : DataFrame Z :=
  match (todos "datos" carpeta_demo).2 with
  | Devuelve df => df
  | Lanza _ => mkDataFrame [] []
  end.

End EjemplosSistema.

(** * Properties *)

(** ** String methods *)
Section PyProps.
Import Py.

Lemma append_String c s t : String c s +:+ t = String c (s +:+ t).
Proof. reflexivity. Qed.

Lemma append_vacio t : "" +:+ t = t.
Proof. reflexivity. Qed.

Local Ltac paso :=
  rewrite ?append_String, ?append_vacio;
  cbn [lstrip rstrip_con es_blanco all_chars upper solo_difiere_caso].

Lemma upper_char_casos c :
  (isspace c = true /\ upper_char c = String c "")
  \/ (isspace c = false
      /\ ((exists d, upper_char c = String d "" /\ isspace d = false)
          \/ upper_char c = "SS")).
Proof.
  destruct c as [[] [] [] [] [] [] [] []];
    first [ left; split; reflexivity
          | right; split; [reflexivity|left; eexists; split; reflexivity]
          | right; split; [reflexivity|right; reflexivity] ].
Qed.

Lemma lstrip_blanco s : es_blanco s = true -> lstrip s = "".
Proof.
  induction s as [|c s IH]; paso; [done|].
  intros [Hc Hs]%andb_prop. rewrite Hc. auto.
Qed.

Lemma rstrip_blanco s : es_blanco s = true -> rstrip s = "".
Proof.
  unfold rstrip. induction s as [|c s IH]; paso; [done|].
  intros [Hc Hs]%andb_prop. rewrite IH by done. by rewrite Hc.
Qed.

Lemma lstrip_blanco_app w s : es_blanco w = true -> lstrip (w +:+ s) = lstrip s.
Proof.
  induction w as [|c w IH]; paso; [done|].
  intros [Hc Hw]%andb_prop. rewrite Hc. auto.
Qed.

Lemma rstrip_app_blanco s w : es_blanco w = true -> rstrip (s +:+ w) = rstrip s.
Proof.
  intros Hw. unfold rstrip. induction s as [|c s IH]; paso.
  - by apply rstrip_blanco.
  - by rewrite IH.
Qed.

Lemma lstrip_app s w :
  lstrip (s +:+ w) = if es_blanco s then lstrip w else lstrip s +:+ w.
Proof.
  induction s as [|c s IH]; paso; [done|].
  destruct (isspace c); paso; [done|done].
Qed.

(** Surrounding whitespace does not change what [strip] returns. *)
Lemma strip_rodeado w1 s w2 :
  es_blanco w1 = true -> es_blanco w2 = true ->
  strip (w1 +:+ s +:+ w2) = strip s.
Proof.
  intros H1 H2. unfold strip.
  rewrite lstrip_blanco_app, lstrip_app by done.
  destruct (es_blanco s) eqn:Es.
  - by rewrite (lstrip_blanco w2), (lstrip_blanco s).
  - by apply rstrip_app_blanco.
Qed.

Lemma rstrip_con_no_blanco c s :
  isspace c = false -> rstrip_con isspace (String c s) = String c (rstrip_con isspace s).
Proof. intros Hc. cbn [rstrip_con]. rewrite Hc. by destruct (rstrip_con isspace s). Qed.

Lemma upper_vacio s : upper s = "" -> s = "".
Proof.
  destruct s as [|c s]; [done|]. cbn [upper].
  by destruct (upper_char_casos c) as [[_ ->]|[_ [(d & -> & _)| ->]]].
Qed.

Lemma upper_lstrip s : upper (lstrip s) = lstrip (upper s).
Proof.
  induction s as [|c s IH]; [done|]. cbn [lstrip upper].
  destruct (upper_char_casos c) as [[Hc Hu]|[Hc Hu]]; rewrite Hc.
  - rewrite Hu. paso. by rewrite Hc.
  - cbn [upper]. destruct Hu as [(d & -> & Hd)| ->]; paso; [by rewrite Hd|done].
Qed.

Lemma upper_rstrip s : upper (rstrip s) = rstrip (upper s).
Proof.
  unfold rstrip. induction s as [|c s IH]; [done|]. cbn [upper].
  destruct (upper_char_casos c) as [[Hc Hu]|[Hc Hu]].
  - rewrite Hu. paso. rewrite <- IH, Hc.
    destruct (rstrip_con isspace s) as [|c' r] eqn:Er; [done|].
    cbn [upper]. rewrite Hu.
    destruct (upper_char c' +:+ upper r) eqn:E; [|done].
    apply (upper_vacio (String c' r)) in E. done.
  - rewrite rstrip_con_no_blanco by done. cbn [upper]. rewrite IH.
    destruct Hu as [(d & -> & Hd)| ->]; paso.
    + rewrite Hd. by destruct (rstrip_con isspace (upper s)).
    + by destruct (rstrip_con isspace (upper s)).
Qed.

Lemma upper_strip s : upper (strip s) = strip (upper s).
Proof. unfold strip. by rewrite upper_rstrip, upper_lstrip. Qed.

Local Ltac a_numeros :=
  repeat match goal with
  | H : (_ && _) = true |- _ => apply andb_prop in H as [? ?]
  | H : (_ || _) = true |- _ => apply orb_prop in H as [?|?]
  | H : negb _ = true |- _ => apply negb_true_iff in H
  | H : (_ <=? _)%N = true |- _ => apply N.leb_le in H
  | H : (_ =? _)%N = true |- _ => apply N.eqb_eq in H
  | H : (_ =? _)%N = false |- _ => apply N.eqb_neq in H
  end.

(** The capital of a small letter is not a small letter, nor 223. *)
Lemma es_minuscula_capital x y :
  es_minuscula x = true -> x = (y + 32)%N ->
  es_minuscula y = false /\ (y =? 223)%N = false /\ (x - 32 = y)%N.
Proof.
  intros Hx ->. unfold es_minuscula in *. split_and!.
  - apply not_true_is_false. intros Hy. a_numeros; lia.
  - apply N.eqb_neq. intros ->. a_numeros; lia.
  - lia.
Qed.

Lemma variante_char_upper a b :
  variante_char a b = true -> upper_char a = upper_char b.
Proof.
  unfold variante_char. destruct (decide (a = b)) as [->|_]; [done|].
  unfold upper_char.
  intros [[Hm E%N.eqb_eq]%andb_prop|[Hm E%N.eqb_eq]%andb_prop]%orb_prop.
  - destruct (es_minuscula_capital _ _ Hm E) as (-> & -> & ->).
    rewrite Hm. unfold code. by rewrite ascii_N_embedding.
  - destruct (es_minuscula_capital _ _ Hm E) as (-> & -> & ->).
    rewrite Hm. unfold code. by rewrite ascii_N_embedding.
Qed.

Lemma solo_difiere_caso_upper s : forall t,
  solo_difiere_caso s t = true -> upper s = upper t.
Proof.
  induction s as [|a s IH]; intros [|b t]; paso; try done.
  intros [Hc Hs]%andb_prop. by rewrite (variante_char_upper a b), (IH t).
Qed.

(** Region names that differ only in case and in surrounding whitespace
    have the same image under trim followed by uppercase. *)
Lemma normalizacion_insensible w1 c1 w2 w3 c2 w4 :
  es_blanco w1 = true -> es_blanco w2 = true ->
  es_blanco w3 = true -> es_blanco w4 = true ->
  solo_difiere_caso c1 c2 = true ->
  upper (strip (w1 +:+ c1 +:+ w2)) = upper (strip (w3 +:+ c2 +:+ w4)).
Proof.
  intros H1 H2 H3 H4 Hc. rewrite !strip_rodeado, !upper_strip by done.
  by rewrite (solo_difiere_caso_upper c1 c2).
Qed.

Lemma rfind_dot_csv s : forall i,
  rfind_dot (s +:+ ".csv") i = Some (i + String.length s).
Proof.
  induction s as [|c s IH]; intros i.
  - cbn. f_equal. lia.
  - rewrite append_String. cbn [rfind_dot String.length]. rewrite IH. f_equal. lia.
Qed.

Lemma substring_todo t : String.substring 0 (String.length t) t = t.
Proof. induction t as [|c t IH]; cbn; [done|by rewrite IH]. Qed.

Lemma substring_app_l s t : String.substring 0 (String.length s) (s +:+ t) = s.
Proof.
  induction s as [|c s IH]; [by destruct t|].
  rewrite append_String. cbn. by rewrite IH.
Qed.

Lemma substring_app_r s t :
  String.substring (String.length s) (String.length (s +:+ t) - String.length s) (s +:+ t) = t.
Proof.
  induction s as [|c s IH].
  - rewrite append_vacio. cbn [String.length]. rewrite Nat.sub_0_r. apply substring_todo.
  - rewrite append_String. cbn [String.length String.substring Nat.sub]. apply IH.
Qed.

(** [splitext] removes the final [.csv], unless only dots precede it. *)
Lemma splitext_csv base :
  all_chars es_punto base = false -> splitext (base +:+ ".csv") = (base, ".csv").
Proof.
  intros Hb. unfold splitext. rewrite rfind_dot_csv. cbn [Nat.add].
  by rewrite substring_app_l, Hb, substring_app_r.
Qed.

Example strip_ejemplo : strip "  Turrialba  " = "Turrialba" /\ strip "   " = "".
Proof. split; reflexivity. Qed.

Example upper_ejemplo :
  upper "Turrialba 2" = "TURRIALBA 2"
  /\ upper ("San Jos" +:+ String (ascii_of_N 233) "")
     = "SAN JOS" +:+ String (ascii_of_N 201) ""
  /\ upper (String (ascii_of_N 223) "") = "SS".
Proof. split_and!; reflexivity. Qed.

Example splitext_ejemplo :
  splitext "san.jose.csv" = ("san.jose", ".csv") /\ splitext ".csv" = (".csv", "").
Proof. split; reflexivity. Qed.

Example endswith_ejemplo : endswith "a.csv" ".csv" = true /\ endswith "a.CSV" ".csv" = false.
Proof. split; reflexivity. Qed.

Example startswith_ejemplo :
  startswith (strip "  PARAMETER,YEAR,JAN") "PARAMETER,YEAR" = true
  /\ startswith (strip "YEAR,PARAMETER") "PARAMETER,YEAR" = false.
Proof. split; reflexivity. Qed.

End PyProps.

(** ** The yield script *)
Section PapaProps.
Context {V : Type} `{EqDecision V}.
Import Papa.
Implicit Types (d : @Dict V) (k v pc : Celda V) (valores fila : list (Celda V)).
Local Abbreviation claves_de := (claves_de (V:=V)).
Local Abbreviation claves := (claves (V:=V)).
Local Abbreviation clave_produccion := (clave_produccion (V:=V)).
Local Abbreviation clave_area := (clave_area (V:=V)).

Lemma dict_set_fresh d k v : k ∉ d.*1 -> dict_set d k v = d ++ [(k, v)].
Proof.
  induction d as [|[k' v'] d IH]; intros Hk; [done|].
  cbn in *. apply not_elem_of_cons in Hk as [Hne Hk].
  destruct (decide (k' = k)) as [->|_]; [done|]. by rewrite IH.
Qed.

Lemma asignar_si_lookup d k valores n :
  asignar_si d k valores n =
  match valores !! n with Some v => dict_set d k v | None => d end.
Proof.
  unfold asignar_si. destruct (valores !! n) as [v|] eqn:E.
  - apply lookup_lt_Some in E. by destruct (Nat.ltb_spec n (length valores)); [|lia].
  - by destruct (n <? length valores)%nat.
Qed.

Lemma drop_cons_inv {A} (l : list A) n a l' :
  drop n l = a :: l' -> l !! n = Some a /\ drop (S n) l = l'.
Proof.
  intros E. assert (l !! n = Some a) as Hl.
  { rewrite <- (Nat.add_0_r n), <- lookup_drop, E. done. }
  split; [done|]. rewrite (drop_S _ _ _ Hl) in E. congruence.
Qed.

Lemma NoDup_app_cons_inv {A} (l k : list A) x :
  NoDup (l ++ x :: k) -> (x ∉ l) /\ NoDup (l ++ k) /\ NoDup ((l ++ [x]) ++ k).
Proof.
  intros Hnd. split_and!.
  - rewrite <- Permutation_middle in Hnd. apply NoDup_cons in Hnd as [Hx _].
    intros Hin. apply Hx, elem_of_app. by left.
  - rewrite <- Permutation_middle in Hnd. by apply NoDup_cons in Hnd as [_ ?].
  - by rewrite <- app_assoc.
Qed.

Lemma zip_nil_r {A B} (l : list A) : zip l (@nil B) = [].
Proof. by destruct l. Qed.

Lemma asignar_meses_zip ms : forall i valores d,
  NoDup (d.*1 ++ claves_de ms) ->
  asignar_meses i ms valores d = d ++ zip (claves_de ms) (drop (i * 2) valores).
Proof.
  induction ms as [|mes ms IH]; intros i valores d Hnd.
  { cbn. by rewrite app_nil_r. }
  cbn [asignar_meses claves_de flat_map] in *. cbn [app] in *.
  rewrite !asignar_si_lookup.
  assert (drop (S i * 2) valores = drop 2 (drop (i * 2) valores)) as Hdd.
  { rewrite drop_drop. f_equal. lia. }
  destruct (NoDup_app_cons_inv _ _ _ Hnd) as (Hp & Hnd0 & Hnd1).
  destruct (drop (i * 2) valores) as [|a [|b l']] eqn:E; cbn [drop] in Hdd.
  - apply drop_nil_inv in E.
    rewrite !lookup_ge_None_2 by lia.
    apply NoDup_app_cons_inv in Hnd0 as (_ & Hnd0 & _).
    rewrite IH, Hdd by done. by rewrite !zip_nil_r.
  - apply drop_cons_inv in E as [E1 E2].
    apply drop_nil_inv in E2.
    rewrite E1, (lookup_ge_None_2 valores (i * 2 + 1)) by lia.
    rewrite dict_set_fresh by done.
    apply NoDup_app_cons_inv in Hnd1 as (_ & Hnd1 & _).
    rewrite IH, Hdd by (by rewrite fmap_app).
    rewrite zip_nil_r, app_nil_r. by cbn.
  - apply drop_cons_inv in E as [E1 E2].
    apply drop_cons_inv in E2 as [E2 E3].
    replace (S (i * 2)) with (i * 2 + 1) in E2 by lia.
    rewrite E1, E2.
    rewrite (dict_set_fresh d) by done.
    apply NoDup_app_cons_inv in Hnd1 as (Ha & _ & Hnd1).
    rewrite dict_set_fresh by (by rewrite fmap_app).
    rewrite IH, Hdd by (by rewrite !fmap_app).
    by rewrite <- !app_assoc.
Qed.

Lemma NoDup_claves : NoDup claves.
Proof.
  unfold Papa.claves, Papa.claves_de, meses, Papa.clave_produccion, Papa.clave_area.
  cbn [flat_map app].
  change (NoDup (CTexto (V:=V) <$>
    (flat_map (fun mes => [mes +:+ "-produccion"; mes +:+ "-area"]) meses))).
  apply NoDup_fmap_2; [by intros ?? [= ->]|].
  apply (bool_decide_unpack _). by vm_compute.
Qed.

(** The result row in closed form: the region entry, then the month keys
    paired in slot order with the non-null values of the row. *)
Lemma procesar_fila_zip pc fila :
  pc ∉ claves ->
  procesar_fila pc fila = (pc, CTexto "Turrialba") :: zip claves (dropna (tail fila)).
Proof.
  intros Hpc. unfold procesar_fila.
  rewrite asignar_meses_zip; [done|].
  cbn. apply NoDup_cons. split; [done|apply NoDup_claves].
Qed.

Lemma dict_get_zip (ks : list (Celda V)) : forall p k (vs : list (Celda V)),
  NoDup ks -> ks !! p = Some k -> dict_get (zip ks vs) k = vs !! p.
Proof.
  induction ks as [|k0 ks IH]; intros p k vs Hnd Hp; [done|].
  apply NoDup_cons in Hnd as [Hk0 Hnd].
  destruct vs as [|v0 vs]; [done|].
  destruct p as [|p]; cbn in *.
  - injection Hp as ->. by rewrite decide_True.
  - rewrite decide_False; [by apply IH|].
    intros ->. apply Hk0. by eapply list_elem_of_lookup_2.
Qed.

Lemma zip_fst_take (ks vs : list (Celda V)) : (zip ks vs).*1 = take (length vs) ks.
Proof.
  revert vs. induction ks as [|k ks IH]; intros [|v vs]; cbn; [done..|].
  by rewrite IH.
Qed.

Lemma zip_snd_take (ks vs : list (Celda V)) : (zip ks vs).*2 = take (length ks) vs.
Proof.
  revert vs. induction ks as [|k ks IH]; intros [|v vs]; cbn; [done..|].
  by rewrite IH.
Qed.

Lemma claves_de_lookup ms : forall i mes,
  ms !! i = Some mes ->
  claves_de ms !! (i * 2) = Some (clave_produccion mes) /\
  claves_de ms !! (i * 2 + 1) = Some (clave_area mes).
Proof.
  induction ms as [|m ms IH]; intros [|i] mes Hi; try done.
  - by injection Hi as ->.
  - cbn in Hi. apply IH in Hi as [H1 H2]. by split.
Qed.

Lemma dict_get_slot pc fila p k :
  pc ∉ claves -> claves !! p = Some k ->
  dict_get (procesar_fila pc fila) k = dropna (tail fila) !! p.
Proof.
  intros Hpc Hp. rewrite procesar_fila_zip by done. cbn [dict_get].
  rewrite decide_False.
  - apply dict_get_zip; [apply NoDup_claves|done].
  - intros ->. apply Hpc. by eapply list_elem_of_lookup_2.
Qed.

Lemma tiene_slot pc fila p k :
  pc ∉ claves -> claves !! p = Some k ->
  tiene (procesar_fila pc fila) k = (p <? length (dropna (tail fila)))%nat.
Proof.
  intros Hpc Hp. unfold tiene. rewrite (dict_get_slot _ _ p) by done.
  destruct (dropna (tail fila) !! p) eqn:E.
  - apply lookup_lt_Some in E. symmetry. apply Nat.ltb_lt. lia.
  - apply lookup_ge_None in E. symmetry. apply Nat.ltb_ge. lia.
Qed.

Lemma filter_prefijo {A} (f : A -> bool) (ms : list A) : forall n,
  (forall i x, ms !! i = Some x -> f x = (i <? n)%nat) ->
  List.filter f ms = take n ms.
Proof.
  induction ms as [|m ms IH]; intros n Hf; [by rewrite take_nil|].
  cbn. rewrite (Hf 0%nat m eq_refl). destruct n as [|n]; cbn.
  - rewrite (IH 0%nat); [by rewrite take_0|].
    intros i x Hi. by rewrite (Hf (S i) x Hi).
  - f_equal. apply IH. intros i x Hi. by rewrite (Hf (S i) x Hi).
Qed.

Lemma techo_mitad (i N : nat) :
  ((i * 2 <? N) || (i * 2 + 1 <? N))%nat = (i <? (N + 1) / 2)%nat.
Proof.
  pose proof (Nat.div_mod_eq (N + 1) 2) as E.
  pose proof (Nat.mod_upper_bound (N + 1) 2 ltac:(lia)) as B.
  destruct (Nat.ltb_spec i ((N + 1) / 2)), (Nat.ltb_spec (i * 2) N),
    (Nat.ltb_spec (i * 2 + 1) N); cbn; try done; lia.
Qed.

Lemma meses_asignados_prefijo pc fila :
  pc ∉ claves ->
  meses_asignados (procesar_fila pc fila) =
  take ((length (dropna (tail fila)) + 1) / 2) meses.
Proof.
  intros Hpc. unfold meses_asignados. apply filter_prefijo.
  intros i mes Hi. apply (claves_de_lookup meses) in Hi as [Hp Ha].
  rewrite (tiene_slot _ _ _ _ Hpc Hp), (tiene_slot _ _ _ _ Hpc Ha).
  apply techo_mitad.
Qed.

(** C2 (as amended).  With [valores] the non-null cells of the row after
    its first column, month [i+1] of the twelve gets [valores[2i]] as
    production and [valores[2i+1]] as area when they exist; the row holds
    the region entry and one entry per value among the first 24 and nothing
    else, so the pairing stops when the values are exhausted or after the
    twelfth month; a row whose last value has an even index [2i] below 24
    gives month [i+1] that value as production and no area. *)
Theorem asignacion_por_pares pc fila i mes :
  pc ∉ claves ->
  meses !! i = Some mes ->
  dict_get (procesar_fila pc fila) (clave_produccion mes) = dropna (tail fila) !! (i * 2)
  /\ dict_get (procesar_fila pc fila) (clave_area mes) = dropna (tail fila) !! (i * 2 + 1)
  /\ (procesar_fila pc fila).*1 = pc :: take (length (dropna (tail fila))) claves
  /\ (procesar_fila pc fila).*2 = CTexto "Turrialba" :: take 24 (dropna (tail fila))
  /\ (length (dropna (tail fila)) = i * 2 + 1 ->
      dict_get (procesar_fila pc fila) (clave_produccion mes) = last (dropna (tail fila))
      /\ dict_get (procesar_fila pc fila) (clave_area mes) = None).
Proof.
  intros Hpc Hi. destruct (claves_de_lookup meses i mes Hi) as [Hp Ha].
  rewrite (dict_get_slot _ _ _ _ Hpc Hp), (dict_get_slot _ _ _ _ Hpc Ha).
  split_and!; try done.
  - rewrite procesar_fila_zip by done. cbn [fmap list_fmap fst]. f_equal.
    apply zip_fst_take.
  - rewrite procesar_fila_zip by done. cbn [fmap list_fmap snd]. f_equal.
    apply zip_snd_take.
  - intros HN. split.
    + rewrite last_lookup, HN. f_equal. lia.
    + apply lookup_ge_None. lia.
Qed.

(** C3 (as amended).  A row with [N] non-null values after its first column
    gives [min 12 (ceil (N/2))] months a value, the first ones of the year,
    hence [ceil (N/2)] when [N <= 24]; when [N] is odd and below 24 the last
    of them has a production and no area. *)
Theorem cantidad_de_registros pc fila :
  pc ∉ claves ->
  length (meses_asignados (procesar_fila pc fila))
    = ((length (dropna (tail fila)) + 1) / 2) `min` 12
  /\ meses_asignados (procesar_fila pc fila)
     = take ((length (dropna (tail fila)) + 1) / 2) meses
  /\ (Nat.odd (length (dropna (tail fila))) = true ->
      length (dropna (tail fila)) < 24 ->
      exists mes, last (meses_asignados (procesar_fila pc fila)) = Some mes
        /\ tiene (procesar_fila pc fila) (clave_produccion mes) = true
        /\ tiene (procesar_fila pc fila) (clave_area mes) = false).
Proof.
  intros Hpc. rewrite meses_asignados_prefijo by done.
  set (N := length (dropna (tail fila))).
  split_and!; [by rewrite length_take|done|].
  intros Hodd HN.
  pose proof (Nat.div_mod_eq (N + 1) 2) as E.
  pose proof (Nat.mod_upper_bound (N + 1) 2 ltac:(lia)) as B.
  apply Nat.odd_spec in Hodd as [m Hm].
  assert ((N + 1) / 2 = S m) as -> by lia.
  assert (m < length meses) as Hlt by (cbn; lia).
  destruct (lookup_lt_is_Some_2 meses m Hlt) as [mes Hmes].
  exists mes. split_and!.
  - rewrite last_lookup, length_take, lookup_take_lt by lia.
    replace (Init.Nat.pred (S m `min` length meses)) with m by lia. done.
  - destruct (claves_de_lookup meses m mes Hmes) as [Hp _].
    rewrite (tiene_slot _ _ _ _ Hpc Hp). apply Nat.ltb_lt. fold N. lia.
  - destruct (claves_de_lookup meses m mes Hmes) as [_ Ha].
    rewrite (tiene_slot _ _ _ _ Hpc Ha). apply Nat.ltb_ge. fold N. lia.
Qed.

(** How many values precede cell [j] once the nulls are dropped. *)
Lemma dropna_take_S (celdas : list (Celda V)) j c :
  celdas !! j = Some c ->
  dropna (take (S j) celdas) =
  dropna (take j celdas) ++ (if isnull c then [] else [c]).
Proof.
  intros Hj. unfold dropna. rewrite (take_S_r _ _ _ Hj), filter_app.
  f_equal. rewrite filter_cons, filter_nil. by destruct (isnull c).
Qed.

Lemma previos_paso (celdas : list (Celda V)) j :
  length (dropna (take (S j) celdas)) <= S (length (dropna (take j celdas))).
Proof.
  destruct (celdas !! j) as [c|] eqn:E.
  - rewrite (dropna_take_S _ _ _ E), length_app. destruct (isnull c); cbn; lia.
  - apply lookup_ge_None in E. rewrite !take_ge by lia. lia.
Qed.

Lemma previos_cota (celdas : list (Celda V)) a b :
  a <= b ->
  length (dropna (take b celdas)) <= length (dropna (take a celdas)) + (b - a).
Proof.
  induction 1 as [|b Hab IH]; [lia|].
  pose proof (previos_paso celdas b). lia.
Qed.

Lemma previos_nulo (celdas : list (Celda V)) (k : nat) :
  celdas !! k = Some CNaN ->
  length (dropna (take (S k) celdas)) = length (dropna (take k celdas)).
Proof. intros E. rewrite (dropna_take_S _ _ _ E). cbn. by rewrite app_nil_r. Qed.

Lemma previos_con_nulo (celdas : list (Celda V)) (k j : nat) :
  celdas !! k = Some CNaN -> k < j ->
  length (dropna (take j celdas)) <= j - 1.
Proof.
  intros E Hkj.
  pose proof (previos_cota celdas (S k) j ltac:(lia)).
  pose proof (previos_cota celdas 0 k ltac:(lia)) as H0.
  rewrite take_0 in H0. cbn in H0.
  rewrite (previos_nulo _ _ E) in *. lia.
Qed.

Lemma valor_en_su_slot (celdas : list (Celda V)) j v :
  celdas !! j = Some v -> isnull v = false ->
  dropna celdas !! length (dropna (take j celdas)) = Some v.
Proof.
  intros Hj Hv.
  set (previos := dropna (take j celdas)).
  rewrite <- (take_drop_middle celdas j v Hj).
  unfold dropna. rewrite filter_app, filter_cons_True by done.
  by apply list_lookup_middle.
Qed.

(** C4.  The conversion drops the null cells wherever they are in the
    row.  When a cell of some month is null and a later month, within the
    twelve, has a value, some value of a later month is stored under the key
    of an earlier month than its own: the slot of a value is the number of
    non-null cells before it. *)
Theorem desplazamiento_por_nulos pc fila (k j : nat) v :
  pc ∉ claves ->
  tail fila !! k = Some CNaN ->
  tail fila !! j = Some v ->
  isnull v = false ->
  k / 2 < j / 2 ->
  j < 24 ->
  (CNaN ∉ dropna (tail fila))
  /\ exists j' v' p clave,
       k / 2 < j' / 2
       /\ tail fila !! j' = Some v'
       /\ isnull v' = false
       /\ p = length (dropna (take j' (tail fila)))
       /\ p / 2 < j' / 2
       /\ claves !! p = Some clave
       /\ dict_get (procesar_fila pc fila) clave = Some v'.
Proof.
  intros Hpc Hk Hj Hv Hkj Hj24. set (celdas := tail fila) in *.
  split.
  { unfold dropna. rewrite list_elem_of_filter. by intros [? _]. }
  set (base := k / 2 * 2 + 2).
  pose proof (Nat.div_mod_eq k 2) as Ek.
  pose proof (Nat.mod_upper_bound k 2 ltac:(lia)) as Bk.
  pose proof (Nat.div_mod_eq j 2) as Ej.
  pose proof (Nat.mod_upper_bound j 2 ltac:(lia)) as Bj.
  assert (base <= j) as Hbj by (unfold base; lia).
  destruct (list_find (fun c => isnull c = false) (drop base celdas))
    as [[i' v']|] eqn:Ef.
  2:{ apply list_find_None in Ef. rewrite Forall_lookup in Ef.
      exfalso. apply (Ef (j - base) v); [|done].
      rewrite lookup_drop. rewrite <- Hj. f_equal. lia. }
  apply list_find_Some in Ef as (Hi' & Hv' & Hmin).
  rewrite lookup_drop in Hi'.
  assert (i' <= j - base) as Hle.
  { destruct (Nat.le_gt_cases i' (j - base)) as [|Hgt]; [done|].
    exfalso. apply (Hmin (j - base) v); [|done|done].
    rewrite lookup_drop. rewrite <- Hj. f_equal. lia. }
  set (j' := base + i') in *.
  pose proof (Nat.div_mod_eq j' 2) as Ej'.
  pose proof (Nat.mod_upper_bound j' 2 ltac:(lia)) as Bj'.
  assert (k / 2 < j' / 2) as Hmes by (unfold base in *; lia).
  set (p := length (dropna (take j' celdas))).
  assert (p / 2 < j' / 2) as Hp.
  { pose proof (Nat.div_mod_eq p 2) as Ep.
    pose proof (Nat.mod_upper_bound p 2 ltac:(lia)) as Bp.
    assert (k < j') as Hkj' by (unfold base in *; lia).
    pose proof (previos_con_nulo celdas k j' Hk Hkj') as H1. fold p in H1.
    destruct (decide (j' `mod` 2 = 0)) as [Hev|Hodd]; [lia|].
    assert (base <= j' - 1) as Hb1 by (unfold base in *; lia).
    assert (celdas !! (j' - 1) = Some CNaN) as Hn.
    { destruct (celdas !! (j' - 1)) as [c|] eqn:Ec.
      - destruct c; try done; exfalso.
        + apply (Hmin (j' - 1 - base) (CNum v0)); [|lia|done].
          rewrite lookup_drop, <- Ec. f_equal. lia.
        + apply (Hmin (j' - 1 - base) (CTexto s)); [|lia|done].
          rewrite lookup_drop, <- Ec. f_equal. lia.
      - apply lookup_ge_None in Ec. apply lookup_lt_Some in Hi'. lia. }
    assert (k < j' - 1) as Hk1 by (unfold base in *; lia).
    pose proof (previos_con_nulo celdas k (j' - 1) Hk Hk1) as H2.
    pose proof (previos_nulo celdas (j' - 1) Hn) as H3.
    replace (S (j' - 1)) with j' in H3 by lia. fold p in H3. lia. }
  assert (p < length claves) as Hp24.
  { assert (j' <= j) by (unfold j'; lia).
    pose proof (Nat.div_mod_eq p 2). pose proof (Nat.mod_upper_bound p 2 ltac:(lia)).
    change (length claves) with 24. lia. }
  destruct (lookup_lt_is_Some_2 claves p Hp24) as [clave Hclave].
  exists j', v', p, clave. split_and!; try done.
  rewrite (dict_get_slot _ _ _ _ Hpc Hclave).
  by apply valor_en_su_slot.
Qed.

End PapaProps.

Section PapaEjemplos.
Import Papa Ejemplos.

Ltac decidir := apply (bool_decide_unpack _); vm_compute; exact I.

Lemma asignacion_por_pares_testigo :
  (canton_col ∉ claves)
  /\ meses !! 1 = Some "febrero"
  /\ dict_get (procesar_fila canton_col fila_impar) (clave_produccion "febrero")
     = Some (CNum 20%Z)
  /\ dict_get (procesar_fila canton_col fila_impar) (clave_area "febrero") = None.
Proof.
  assert (canton_col ∉ claves) as Hpc by decidir.
  assert (meses !! 1 = Some "febrero") as Hmes by reflexivity.
  split_and!; [exact Hpc|exact Hmes|..];
    destruct (asignacion_por_pares canton_col fila_impar 1 "febrero" Hpc Hmes)
      as (Hp & Ha & _ & _ & _).
  - exact Hp.
  - exact Ha.
Defined.

(** C2, the claim as stated fails on a row with 25 values: their number is
    odd, yet the last month that gets values, December, has an area, and
    the last value is stored nowhere although values remain. *)
Lemma fila_de_25_valores_no_se_agota :
  Nat.odd (length (dropna (tail fila25))) = true
  /\ last (meses_asignados (procesar_fila canton_col fila25)) = Some "diciembre"
  /\ dict_get (procesar_fila canton_col fila25) (clave_area "diciembre")
     = Some (CNum 24%Z)
  /\ last (dropna (tail fila25)) = Some (CNum 25%Z)
  /\ (CNum 25%Z ∉ (procesar_fila canton_col fila25).*2).
Proof. split_and!; [by vm_compute..|decidir]. Qed.

Lemma cantidad_de_registros_testigo :
  (canton_col ∉ claves)
  /\ length (meses_asignados (procesar_fila canton_col fila_impar)) = 2.
Proof.
  assert (canton_col ∉ claves) as Hpc by decidir.
  split; [exact Hpc|].
  destruct (cantidad_de_registros canton_col fila_impar Hpc) as (Hn & _ & _).
  exact Hn.
Defined.

(** C3, the claim as stated fails on a row with 25 values: 12 months get
    values, not ceil(25/2) = 13, and the last of them has an area. *)
Lemma fila_de_25_valores_da_12_meses :
  length (dropna (tail fila25)) = 25
  /\ length (meses_asignados (procesar_fila canton_col fila25)) = 12
  /\ length (meses_asignados (procesar_fila canton_col fila25))
     <> (length (dropna (tail fila25)) + 1) / 2
  /\ tiene (procesar_fila canton_col fila25) (clave_area "diciembre") = true.
Proof. split_and!; by vm_compute. Qed.

Lemma desplazamiento_por_nulos_testigo :
  (canton_col ∉ claves)
  /\ tail fila_hueco !! 2 = Some CNaN
  /\ tail fila_hueco !! 4 = Some (CNum 30%Z)
  /\ isnull (CNum 30%Z) = false
  /\ 2 / 2 < 4 / 2
  /\ 4 < 24
  /\ exists j' v' p clave,
       2 / 2 < j' / 2
       /\ tail fila_hueco !! j' = Some v'
       /\ isnull v' = false
       /\ p = length (dropna (take j' (tail fila_hueco)))
       /\ p / 2 < j' / 2
       /\ claves !! p = Some clave
       /\ dict_get (procesar_fila canton_col fila_hueco) clave = Some v'.
Proof.
  assert (canton_col ∉ claves) as Hpc by decidir.
  assert (2 / 2 < 4 / 2) as Hlt by (vm_compute; lia).
  assert (4 < 24) as H24 by lia.
  split_and!; [exact Hpc|reflexivity|reflexivity|reflexivity|exact Hlt|exact H24|].
  exact (proj2 (desplazamiento_por_nulos canton_col fila_hueco 2 4 (CNum 30%Z)
                  Hpc eq_refl eq_refl eq_refl Hlt H24)).
Defined.

(** The March values of [fila_hueco] end up under the February keys. *)
Example marzo_en_febrero :
  dict_get (procesar_fila canton_col fila_hueco) (clave_produccion "febrero")
    = Some (CNum 30%Z)
  /\ dict_get (procesar_fila canton_col fila_hueco) (clave_produccion "marzo") = None.
Proof. split; by vm_compute. Qed.

End PapaEjemplos.

(** ** Table operations *)
Section PandasProps.
Import Invariantes.
Context {V : Type} `{EqDecision V}.
Implicit Types (df : DataFrame V) (col c v : Celda V) (cols fila : list (Celda V)).

Lemma insertar_Permutation {A} (le : A -> A -> bool) x (l : list A) :
  insertar le x l ≡ₚ x :: l.
Proof.
  induction l as [|y l IH]; cbn; [done|].
  destruct (le x y); [done|]. rewrite IH. apply Permutation_swap.
Qed.

(** Sorting permutes, whatever the order. *)
Lemma ordenar_Permutation {A} (le : A -> A -> bool) (l : list A) : ordenar le l ≡ₚ l.
Proof.
  induction l as [|x l IH]; cbn; [done|].
  fold (ordenar le l). by rewrite insertar_Permutation, IH.
Qed.

Lemma elem_of_ordenar {A} (le : A -> A -> bool) (l : list A) x :
  x ∈ ordenar le l <-> x ∈ l.
Proof. by rewrite ordenar_Permutation. Qed.

Lemma NoDup_ordenar {A} (le : A -> A -> bool) (l : list A) :
  NoDup (ordenar le l) <-> NoDup l.
Proof. by rewrite ordenar_Permutation. Qed.

Lemma length_ordenar {A} (le : A -> A -> bool) (l : list A) :
  length (ordenar le l) = length l.
Proof. apply Permutation_length, ordenar_Permutation. Qed.

Lemma indice_de_Some col cols n :
  indice_de col cols = Some n -> cols !! n = Some col.
Proof.
  revert n. induction cols as [|c cols IH]; intros n; cbn; [done|].
  destruct (decide (c = col)) as [->|_].
  - by intros [= <-].
  - destruct (indice_de col cols) as [m|]; cbn; [|done].
    intros [= <-]. by apply IH.
Qed.

Lemma indice_de_None col cols : indice_de col cols = None <-> col ∉ cols.
Proof.
  induction cols as [|c cols IH]; cbn.
  - split; [intros _; apply not_elem_of_nil|done].
  - rewrite not_elem_of_cons. destruct (decide (c = col)) as [->|Hne].
    + split; [done|]. by intros [? _].
    + destruct (indice_de col cols); cbn.
      * split; [done|]. intros [_ Hn]. by apply IH in Hn.
      * split; [|done]. intros _. split; [done|]. by apply IH.
Qed.

Lemma indice_de_elem col cols : col ∈ cols -> is_Some (indice_de col cols).
Proof.
  intros Hin. destruct (indice_de col cols) eqn:E; [done|].
  by apply indice_de_None in E.
Qed.

Lemma indice_de_app_nuevo col cols :
  col ∉ cols -> indice_de col (cols ++ [col]) = Some (length cols).
Proof.
  induction cols as [|c cols IH]; cbn.
  - intros _. by rewrite decide_True.
  - intros [Hne Hn]%not_elem_of_cons. rewrite decide_False by done.
    by rewrite IH.
Qed.

(** After [df[col] = v] every row reads [v] in column [col]. *)
Lemma set_columna_celda df col v fila :
  rectangular df ->
  fila ∈ filas (set_columna df col v) ->
  celda_de (columns (set_columna df col v)) fila col = v.
Proof.
  intros Hrect. unfold rectangular in Hrect. rewrite Forall_forall in Hrect.
  unfold set_columna, celda_de.
  destruct (indice_de col (columns df)) as [n|] eqn:E; cbn [columns filas].
  - intros (f & -> & Hf)%list_elem_of_fmap. rewrite E.
    apply indice_de_Some, lookup_lt_Some in E.
    specialize (Hrect f Hf).
    rewrite list_lookup_insert_eq by lia. done.
  - intros (f & -> & Hf)%list_elem_of_fmap.
    apply indice_de_None in E. rewrite indice_de_app_nuevo by done.
    rewrite <- (Hrect f Hf).
    by rewrite list_lookup_middle.
Qed.

Lemma rename_indice viejo nuevo col cols :
  col <> viejo -> col <> nuevo ->
  indice_de col ((fun c => if decide (c = viejo) then nuevo else c) <$> cols)
  = indice_de col cols.
Proof.
  intros H1 H2. induction cols as [|c cols IH]; cbn; [done|]. rewrite IH.
  destruct (decide (c = viejo)) as [->|Hcv].
  - by rewrite !decide_False.
  - done.
Qed.

Lemma rename_celda df viejo nuevo fila col :
  col <> viejo -> col <> nuevo ->
  celda_de (columns (rename df viejo nuevo)) fila col = celda_de (columns df) fila col.
Proof. intros H1 H2. unfold celda_de, rename. cbn. by rewrite rename_indice. Qed.

Lemma rename_fuera (viejo nuevo : Celda V) (cols : list (Celda V)) :
  viejo ∉ cols -> (fun c => if decide (c = viejo) then nuevo else c) <$> cols = cols.
Proof.
  induction cols as [|c cols IH]; [done|].
  intros [Hne Hn]%not_elem_of_cons. cbn. rewrite decide_False by done. by rewrite IH.
Qed.

(** A row laid out on other columns keeps the cells of the columns it had. *)
Lemma celda_de_redistribuida cols' cols fila col :
  col ∈ cols' ->
  celda_de cols' (celda_de cols fila <$> cols') col = celda_de cols fila col.
Proof.
  intros [n Hn]%indice_de_elem. unfold celda_de at 1. rewrite Hn.
  apply indice_de_Some in Hn. by rewrite list_lookup_fmap, Hn.
Qed.

Lemma unir_columnas_elem (dfs : list (DataFrame V)) col :
  col ∈ unir_columnas dfs <-> exists df, df ∈ dfs /\ col ∈ columns df.
Proof.
  unfold unir_columnas.
  assert (forall l acc,
    col ∈ foldl (fun acc c => if decide (c ∈ acc) then acc else acc ++ [c]) acc l
    <-> col ∈ acc \/ col ∈ l) as Hfold.
  { induction l as [|c l IH]; intros acc; cbn.
    - rewrite elem_of_nil. tauto.
    - rewrite IH, elem_of_cons. destruct (decide (c ∈ acc)).
      + split; [tauto|]. intros [?|[->|?]]; auto.
      + rewrite elem_of_app, list_elem_of_singleton. tauto. }
  rewrite Hfold, elem_of_nil, list_elem_of_bind. split.
  - intros [[]|(df & ? & ?)]. eauto.
  - intros (df & ? & ?). right. eauto.
Qed.

Lemma set_columna_rectangular (df : DataFrame V) col v :
  rectangular df -> rectangular (set_columna df col v).
Proof.
  unfold rectangular, set_columna. intros Hr.
  destruct (indice_de col (columns df)); cbn [columns filas]; apply Forall_fmap.
  - eapply Forall_impl; [exact Hr|]. intros fila Hf. cbn.
    by rewrite length_insert.
  - eapply Forall_impl; [exact Hr|]. intros fila Hf. cbn.
    rewrite !length_app, Hf. done.
Qed.

Lemma unir_columnas_NoDup (dfs : list (DataFrame V)) : NoDup (unir_columnas dfs).
Proof.
  unfold unir_columnas.
  assert (forall (l acc : list (Celda V)), NoDup acc ->
    NoDup (foldl (fun acc c => if decide (c ∈ acc) then acc else acc ++ [c]) acc l))
    as Hfold.
  { induction l as [|c l IH]; intros acc Hacc; cbn; [done|]. apply IH.
    case_decide as Hin; [done|]. apply NoDup_app. split_and!; [done| |apply NoDup_singleton].
    by intros x Hx ->%list_elem_of_singleton. }
  apply Hfold, NoDup_nil_2.
Qed.

Lemma celda_de_fuera cols fila col : col ∉ cols -> celda_de cols fila col = CNaN.
Proof. intros Hn%indice_de_None. unfold celda_de. by rewrite Hn. Qed.

(** A row laid out on columns that include its own reads as before under
    every label. *)
Lemma celda_de_sobre_union cols' cols fila col :
  (forall c, c ∈ cols -> c ∈ cols') ->
  celda_de cols' (celda_de cols fila <$> cols') col = celda_de cols fila col.
Proof.
  intros Hsub. destruct (decide (col ∈ cols')) as [Hin|Hn].
  - by apply celda_de_redistribuida.
  - rewrite (celda_de_fuera cols'), (celda_de_fuera cols); auto.
Qed.

Lemma Forall2_con_Forall {A B} (P R : A -> B -> Prop) (Q : A -> Prop) l k :
  Forall2 P l k -> Forall Q l -> (forall x y, P x y -> Q x -> R x y) -> Forall2 R l k.
Proof.
  intros HP. induction HP as [|x y l k Hxy HP IH]; intros HQ HR; [constructor|].
  apply Forall_cons in HQ as [Hx HQ]. constructor; auto.
Qed.

(** When [pd.concat] returns: either all the tables have the columns of
    the result and their rows are stacked as they are, or no table repeats
    a label and the rows are laid out on the union of the columns. *)
Lemma concat_casos (dfs : list (DataFrame V)) df :
  concat dfs = Devuelve df ->
  dfs <> []
  /\ ((Forall (fun t => columns t = columns df) dfs /\ filas df = dfs ≫= filas)
      \/ (Forall (fun t => NoDup (columns t)) dfs
          /\ columns df = unir_columnas dfs
          /\ filas df = dfs ≫= fun t =>
               (fun fila => celda_de (columns t) fila <$> unir_columnas dfs) <$> filas t)).
Proof.
  unfold concat. destruct dfs as [|df0 dfs]; [done|]. split; [done|].
  case_decide as H1; [injection H as <-; by left|].
  case_decide as H2; [injection H as <-; by right|done].
Qed.

(** When [pd.concat] raises on a list that is not empty: some table
    repeats a label, and two tables differ in their columns. *)
Lemma concat_Lanza (dfs : list (DataFrame V)) e :
  dfs <> [] -> concat dfs = Lanza e ->
  e = InvalidIndexError
  /\ (exists t, t ∈ dfs /\ ~ NoDup (columns t))
  /\ (exists t t', t ∈ dfs /\ t' ∈ dfs /\ columns t <> columns t').
Proof.
  unfold concat. destruct dfs as [|df0 dfs]; [done|]. intros _.
  case_decide as H1; [done|]. case_decide as H2; [done|]. intros [= <-].
  split_and!; [done| |].
  - apply not_Forall_Exists in H2; [|apply _].
    apply Exists_exists in H2 as (t & Ht & Hnd). by exists t.
  - apply not_Forall_Exists in H1; [|apply _].
    apply Exists_exists in H1 as (t & Ht & Hne). exists t, df0.
    split_and!; [done|apply list_elem_of_here|done].
Qed.

Lemma concat_rechaza (dfs : list (DataFrame V)) :
  (exists t, t ∈ dfs /\ ~ NoDup (columns t)) ->
  (exists t t', t ∈ dfs /\ t' ∈ dfs /\ columns t <> columns t') ->
  concat dfs = Lanza InvalidIndexError.
Proof.
  intros (t & Ht & Hnd) (t1 & t2 & Ht1 & Ht2 & Hne).
  unfold concat. destruct dfs as [|df0 dfs]; [by apply elem_of_nil in Ht|].
  rewrite decide_False.
  - rewrite decide_False; [done|].
    intros Hall. rewrite Forall_forall in Hall. by apply Hnd, Hall.
  - intros Hall. rewrite Forall_forall in Hall.
    apply Hne. by rewrite (Hall t1 Ht1), (Hall t2 Ht2).
Qed.

(** Tables without repeated labels are always concatenated. *)
Lemma concat_distintas (dfs : list (DataFrame V)) :
  dfs <> [] -> Forall (fun t => NoDup (columns t)) dfs ->
  exists df, concat dfs = Devuelve df.
Proof.
  intros Hne Hnd. destruct (concat dfs) as [df|e] eqn:E; [by exists df|].
  apply concat_Lanza in E as (_ & (t & Ht & Hn) & _); [|done].
  rewrite Forall_forall in Hnd. by destruct (Hn (Hnd t Ht)).
Qed.

Lemma concat_columnas (dfs : list (DataFrame V)) df col :
  concat dfs = Devuelve df ->
  col ∈ columns df <-> exists t, t ∈ dfs /\ col ∈ columns t.
Proof.
  intros (Hne & [[Hcols _]|(_ & -> & _)])%concat_casos; [|apply unir_columnas_elem].
  rewrite Forall_forall in Hcols. split.
  - intros Hin. destruct dfs as [|t dfs]; [done|].
    exists t. split; [apply list_elem_of_here|].
    rewrite (Hcols t); [done|apply list_elem_of_here].
  - intros (t & Ht & Hin). by rewrite <- (Hcols t Ht).
Qed.

(** The rows of the result are the rows of the tables, in order, each
    with the cells it had. *)
Lemma concat_filas (dfs : list (DataFrame V)) df :
  Forall rectangular dfs -> concat dfs = Devuelve df ->
  Forall2 (fun tf fila' => misma_fila (columns tf.1) tf.2 (columns df) fila')
          (dfs ≫= fun t => (fun fila => (t, fila)) <$> filas t) (filas df).
Proof.
  intros Hrect (_ & [[Hcols ->]|(_ & Hcols & ->)])%concat_casos.
  - revert Hrect Hcols. generalize (columns df). intros cols Hrect Hcols.
    induction dfs as [|t dfs IH]; [constructor|].
    apply Forall_cons in Hrect as [Ht Hrect]. apply Forall_cons in Hcols as [Hc Hcols].
    rewrite !bind_cons. apply Forall2_app; [|by apply IH].
    apply Forall2_fmap_l, Forall_Forall2_diag.
    unfold rectangular in Ht. eapply Forall_impl; [exact Ht|].
    intros fila Hf. cbn. split; [by rewrite <- Hc|]. intros col. by rewrite Hc.
  - rewrite Hcols.
    assert (forall t c, t ∈ dfs -> c ∈ columns t -> c ∈ unir_columnas dfs) as Hsub.
    { intros t c Ht Hc. apply unir_columnas_elem. eauto. }
    revert Hsub. generalize (unir_columnas dfs). intros cols Hsub. clear Hrect Hcols.
    induction dfs as [|t dfs IH]; [constructor|].
    rewrite !bind_cons. apply Forall2_app.
    + apply Forall2_fmap_l, Forall2_fmap_r, Forall_Forall2_diag, Forall_forall.
      intros fila _. cbn. split; [by rewrite length_fmap|].
      intros col. apply celda_de_sobre_union. intros c. apply Hsub, list_elem_of_here.
    + apply IH. intros t' c Ht'. apply Hsub. by apply list_elem_of_further.
Qed.

(** Tables that have the columns of the result are stacked as they are. *)
Lemma concat_iguales (dfs : list (DataFrame V)) df :
  concat dfs = Devuelve df ->
  Forall (fun t => columns t = columns df) dfs -> filas df = dfs ≫= filas.
Proof.
  unfold concat. destruct dfs as [|df0 dfs]; [done|].
  case_decide as H1; [by intros [= <-]|].
  case_decide as H2; [|done]. intros [= <-] Hall. cbn [columns] in Hall.
  destruct H1. pose proof Hall as [-> _]%Forall_cons. done.
Qed.

Lemma concat_rectangular (dfs : list (DataFrame V)) df :
  Forall rectangular dfs -> concat dfs = Devuelve df -> rectangular df.
Proof.
  intros Hrect Hc. unfold rectangular.
  apply (Forall2_Forall_r _ _ _ _ (concat_filas dfs df Hrect Hc)).
  apply Forall_forall. by intros tf _ fila' [? _].
Qed.

Lemma concat_largo (dfs : list (DataFrame V)) df :
  concat dfs = Devuelve df ->
  length (filas df) = sum_list ((fun t => length (filas t)) <$> dfs).
Proof.
  intros (_ & [[_ ->]|(_ & _ & ->)])%concat_casos.
  - induction dfs as [|t dfs IH]; [done|]. by rewrite bind_cons, length_app, IH.
  - generalize (unir_columnas dfs). intros cols.
    induction dfs as [|t dfs IH]; [done|].
    by rewrite bind_cons, length_app, length_fmap, IH.
Qed.

End PandasProps.

(** ** The atmospheric parser and the batch loader *)
Section AtmosfericosProps.
Import Atmosfericos.
Context {V : Type} `{EqDecision V}.
Variable read_csv : list string -> nat -> Resultado (DataFrame V).
Variable to_numeric_texto : string -> option V.
Variable media : list V -> V.
Variable menor_o_igual : Celda V -> Celda V -> bool.

Local Abbreviation leer_archivo := (_leer_archivo read_csv to_numeric_texto media menor_o_igual).
Local Abbreviation tabla := (procesar_tabla to_numeric_texto media menor_o_igual).
Local Abbreviation exitosos := (exitosos read_csv to_numeric_texto media menor_o_igual).
Local Abbreviation registros_de := (registros_de read_csv to_numeric_texto media menor_o_igual).
Local Abbreviation leer_entrada := (leer_entrada read_csv to_numeric_texto media menor_o_igual).
Local Abbreviation bucle := (bucle read_csv to_numeric_texto media menor_o_igual).
Local Abbreviation filas_leidas := (filas_leidas read_csv to_numeric_texto media menor_o_igual).
Local Abbreviation procesar_todos := (procesar_todos read_csv to_numeric_texto media menor_o_igual).

Lemma buscar_inicio_list_find lineas : forall k,
  buscar_inicio k lineas = (fun r => k + r.1) <$> list_find es_encabezado lineas.
Proof.
  induction lineas as [|linea resto IH]; intros k; cbn; [done|].
  unfold es_encabezado at 1. case_decide as Hd.
  - rewrite Hd. cbn. f_equal. lia.
  - apply not_true_is_false in Hd. rewrite Hd, IH.
    destruct (list_find es_encabezado resto) as [[i l]|]; cbn; [f_equal; lia|done].
Qed.

Lemma buscar_inicio_Some lineas i :
  buscar_inicio 0 lineas = Some i <->
  exists linea, lineas !! i = Some linea /\ es_encabezado linea
    /\ forall j l, lineas !! j = Some l -> j < i -> ~ es_encabezado l.
Proof.
  rewrite buscar_inicio_list_find. split.
  - destruct (list_find es_encabezado lineas) as [[j l]|] eqn:E; [|done].
    cbn. intros [= <-]. exists l. by apply list_find_Some in E.
  - intros (linea & Hl).
    assert (list_find es_encabezado lineas = Some (i, linea)) as ->
      by (by apply list_find_Some).
    done.
Qed.

Lemma buscar_inicio_None lineas :
  buscar_inicio 0 lineas = None <-> Forall (fun l => ~ es_encabezado l) lineas.
Proof.
  rewrite buscar_inicio_list_find, <- (list_find_None es_encabezado).
  destruct (list_find es_encabezado lineas); cbn; split; intros; congruence.
Qed.

(** A table never comes with the missing-header warning. *)
Lemma tabla_no_avisa_encabezado ruta canton leido :
  (tabla ruta canton leido).1 <> [Warning_sin_encabezado ruta].
Proof.
  unfold procesar_tabla. destruct leido as [df|e]; [|done].
  destruct (empty df); [done|].
  destruct (columnas_faltantes df); [|done].
  by destruct (reset_index _).
Qed.

(** The loop keeps the tables of the entries that parse, in order. *)
Lemma bucle_resultado carpeta archivos : forall df_final n log,
  bucle carpeta archivos df_final n log =
  (df_final ++ exitosos carpeta archivos,
   n + length (exitosos carpeta archivos),
   log ++ registros_de carpeta archivos).
Proof.
  induction archivos as [|[archivo contenido] resto IH]; intros df_final n log.
  { cbn. by rewrite !app_nil_r, Nat.add_0_r. }
  cbn [Atmosfericos.bucle]. unfold Atmosfericos.exitosos, Atmosfericos.registros_de.
  cbn [omap list_omap mbind list_bind].
  change (leer_archivo contenido (Py.path_join carpeta archivo) (Py.splitext archivo).1)
    with (leer_entrada carpeta (archivo, contenido)).
  destruct (leer_entrada carpeta (archivo, contenido)) as [l [df|]]; cbn [fst snd].
  - rewrite IH. unfold Atmosfericos.exitosos, Atmosfericos.registros_de.
    cbn [length]. rewrite <- !app_assoc. cbn [app]. do 2 f_equal. lia.
  - rewrite IH. unfold Atmosfericos.exitosos, Atmosfericos.registros_de.
    by rewrite <- !app_assoc.
Qed.

(** An entry that does not parse is skipped: the others are collected as
    if it were not there. *)
Lemma exitosos_omite carpeta pre f post :
  (leer_entrada carpeta f).2 = None ->
  exitosos carpeta (pre ++ f :: post) = exitosos carpeta pre ++ exitosos carpeta post.
Proof.
  intros Hf. unfold Atmosfericos.exitosos.
  rewrite omap_app. cbn. by rewrite Hf.
Qed.

Lemma procesar_todos_valor carpeta listado :
  (procesar_todos carpeta listado).2 =
  match List.filter es_csv listado with
  | [] => Lanza (sin_archivos carpeta)
  | _ :: _ =>
      match exitosos carpeta (List.filter es_csv listado) with
      | [] => Lanza sin_validos
      | _ :: _ => concat (exitosos carpeta (List.filter es_csv listado))
      end
  end.
Proof.
  unfold Atmosfericos.procesar_todos. fold es_csv.
  destruct (List.filter es_csv listado) as [|f fs] eqn:E; [done|].
  rewrite bucle_resultado. cbn [app].
  destruct (exitosos carpeta (f :: fs)) as [|t ts]; [done|].
  by destruct (concat (t :: ts)).
Qed.

(** C5.  The scan takes the first line whose trimmed content starts with
    [PARAMETER,YEAR]: the table is read from that line on.  The parser
    reports a missing header, and returns no table, exactly when no line
    has the marker; it returns, so that the batch goes on with the other
    entries. *)
Theorem encabezado_en_primera_linea lineas ruta canton :
  (forall i, buscar_inicio 0 lineas = Some i <->
     exists linea, lineas !! i = Some linea /\ es_encabezado linea
       /\ forall j l, lineas !! j = Some l -> j < i -> ~ es_encabezado l)
  /\ (forall i, buscar_inicio 0 lineas = Some i ->
        leer_archivo (Devuelve lineas) ruta canton = tabla ruta canton (read_csv lineas i))
  /\ (Forall (fun l => ~ es_encabezado l) lineas <->
        leer_archivo (Devuelve lineas) ruta canton = ([Warning_sin_encabezado ruta], None))
  /\ (Forall (fun l => ~ es_encabezado l) lineas ->
        forall carpeta archivo pre post,
          exitosos carpeta (pre ++ (archivo, Devuelve lineas) :: post)
          = exitosos carpeta pre ++ exitosos carpeta post).
Proof.
  split_and!.
  - apply buscar_inicio_Some.
  - intros i Hi. cbn. by rewrite Hi.
  - rewrite <- buscar_inicio_None. cbn. split.
    + by intros ->.
    + destruct (buscar_inicio 0 lineas) as [i|]; [|done].
      intros Hr. exfalso.
      apply (tabla_no_avisa_encabezado ruta canton (read_csv lineas i)).
      by rewrite Hr.
  - intros Hno carpeta archivo pre post. apply exitosos_omite.
    apply buscar_inicio_None in Hno. unfold Atmosfericos.leer_entrada. cbn.
    by rewrite Hno.
Qed.

Lemma columnas_faltantes_spec (df : DataFrame V) col :
  col ∈ columnas_faltantes df <->
  col ∈ columnas_necesarias /\ CTexto col ∉ columns df.
Proof. unfold columnas_faltantes. rewrite list_elem_of_filter. tauto. Qed.

Lemma leer_archivo_inicio lineas i ruta canton :
  buscar_inicio 0 lineas = Some i ->
  leer_archivo (Devuelve lineas) ruta canton = tabla ruta canton (read_csv lineas i).
Proof. intros Hi. unfold _leer_archivo. by rewrite Hi. Qed.

Lemma tabla_vacia ruta canton df :
  empty df = true -> tabla ruta canton (Devuelve df) = ([Warning_vacio ruta], None).
Proof. intros He. unfold procesar_tabla. by rewrite He. Qed.

Lemma tabla_faltantes ruta canton df :
  empty df = false -> columnas_faltantes df <> [] ->
  tabla ruta canton (Devuelve df)
  = ([Warning_columnas_faltantes ruta (columnas_faltantes df)], None).
Proof.
  intros He Hf. unfold procesar_tabla. rewrite He.
  by destruct (columnas_faltantes df).
Qed.

(** C6 (as amended).  When the table read from a file lacks one of the
    fourteen required columns, the parser returns no table: with the
    warning that lists exactly the absent required columns when the table
    has rows, with the empty-table warning when it has none (emptiness is
    tested first).  Either way the batch skips the entry and collects the
    others. *)
Theorem columnas_faltantes_no_fatal lineas i df ruta canton col :
  buscar_inicio 0 lineas = Some i ->
  read_csv lineas i = Devuelve df ->
  col ∈ columnas_necesarias ->
  CTexto col ∉ columns df ->
  (forall c, c ∈ columnas_faltantes df <->
     c ∈ columnas_necesarias /\ CTexto c ∉ columns df)
  /\ (empty df = false ->
        leer_archivo (Devuelve lineas) ruta canton
        = ([Warning_columnas_faltantes ruta (columnas_faltantes df)], None))
  /\ (empty df = true ->
        leer_archivo (Devuelve lineas) ruta canton = ([Warning_vacio ruta], None))
  /\ (forall carpeta archivo pre post,
        exitosos carpeta (pre ++ (archivo, Devuelve lineas) :: post)
        = exitosos carpeta pre ++ exitosos carpeta post).
Proof.
  intros Hi Hr Hcol Hno.
  assert (columnas_faltantes df <> []) as Hf.
  { intros E. assert (col ∈ columnas_faltantes df) as Hin
      by (by apply columnas_faltantes_spec).
    rewrite E in Hin. by apply elem_of_nil in Hin. }
  assert (forall r c, (leer_archivo (Devuelve lineas) r c).2 = None) as Hnone.
  { intros r c. rewrite (leer_archivo_inicio _ _ _ _ Hi), Hr.
    destruct (empty df) eqn:He.
    - by rewrite tabla_vacia.
    - by rewrite tabla_faltantes. }
  split_and!.
  - apply columnas_faltantes_spec.
  - intros He. by rewrite (leer_archivo_inicio _ _ _ _ Hi), Hr, tabla_faltantes.
  - intros He. by rewrite (leer_archivo_inicio _ _ _ _ Hi), Hr, tabla_vacia.
  - intros carpeta archivo pre post. apply exitosos_omite. apply Hnone.
Qed.

Lemma reset_index_rectangular df_largo df :
  reset_index (pivot_table media menor_o_igual df_largo) = Devuelve df -> rectangular df.
Proof.
  unfold reset_index. case_decide; [done|]. intros [= <-].
  unfold rectangular. cbn. apply Forall_forall.
  intros fila ([[y m] vals] & -> & Hiv)%list_elem_of_fmap. cbn.
  apply elem_of_zip_r in Hiv.
  apply list_elem_of_fmap in Hiv as (im & -> & _).
  by rewrite length_fmap.
Qed.

Lemma tabla_exito ruta canton leido df :
  (tabla ruta canton leido).2 = Some df ->
  exists df0 dfp,
    leido = Devuelve df0 /\ empty df0 = false /\ columnas_faltantes df0 = []
    /\ reset_index (pivot_table media menor_o_igual (valor_a_numerico to_numeric_texto (melt df0)))
       = Devuelve dfp
    /\ df = rename (set_columna dfp (CTexto "canton") (CTexto (Py.upper (Py.strip canton))))
              (CTexto "YEAR") (CTexto "anio").
Proof.
  unfold procesar_tabla. destruct leido as [df0|e]; [|done].
  destruct (empty df0) eqn:He; [done|].
  destruct (columnas_faltantes df0) eqn:Hf; [|done].
  destruct (reset_index _) as [dfp|e] eqn:Hr; [|done].
  cbn [snd]. intros [= <-]. exists df0, dfp. split_and!; reflexivity || assumption.
Qed.

(** Every row of a parsed table carries the normalized region. *)
Lemma leer_archivo_canton contenido ruta canton df fila :
  (leer_archivo contenido ruta canton).2 = Some df ->
  fila ∈ filas df ->
  celda_de (columns df) fila (CTexto "canton") = CTexto (Py.upper (Py.strip canton)).
Proof.
  unfold _leer_archivo. destruct contenido as [lineas|e]; [|done].
  destruct (buscar_inicio 0 lineas) as [i|]; [|done].
  intros (df0 & dfp & _ & _ & _ & Hr & ->)%tabla_exito Hfila.
  rewrite rename_celda by done.
  apply set_columna_celda; [by eapply reset_index_rectangular|done].
Qed.

Lemma leer_archivo_tiene_canton contenido ruta canton df :
  (leer_archivo contenido ruta canton).2 = Some df -> CTexto "canton" ∈ columns df.
Proof.
  unfold _leer_archivo. destruct contenido as [lineas|e]; [|done].
  destruct (buscar_inicio 0 lineas) as [i|]; [|done].
  intros (df0 & dfp & _ & _ & _ & Hr & ->)%tabla_exito.
  unfold rename, set_columna. cbn [columns].
  apply list_elem_of_fmap. exists (CTexto "canton"). split; [done|].
  destruct (indice_de _ (columns dfp)) eqn:E; cbn [columns].
  - apply indice_de_Some in E. by eapply list_elem_of_lookup_2.
  - apply elem_of_app. right. by apply list_elem_of_singleton.
Qed.

Lemma leer_archivo_rectangular contenido ruta canton df :
  (leer_archivo contenido ruta canton).2 = Some df -> rectangular df.
Proof.
  unfold _leer_archivo. destruct contenido as [lineas|e]; [|done].
  destruct (buscar_inicio 0 lineas) as [i|]; [|done].
  intros (df0 & dfp & _ & _ & _ & Hr & ->)%tabla_exito.
  unfold rename, rectangular. cbn [filas columns]. rewrite length_fmap.
  eapply set_columna_rectangular, reset_index_rectangular, Hr.
Qed.

Lemma exitosos_elem carpeta archivos df :
  df ∈ exitosos carpeta archivos <->
  exists f, f ∈ archivos
    /\ (leer_archivo f.2 (Py.path_join carpeta f.1) (Py.splitext f.1).1).2 = Some df.
Proof. unfold Atmosfericos.exitosos. by rewrite list_elem_of_omap. Qed.

Lemma exitosos_rectangular carpeta archivos :
  Forall rectangular (exitosos carpeta archivos).
Proof.
  apply Forall_forall. intros df (f & _ & Hf)%exitosos_elem.
  by eapply leer_archivo_rectangular.
Qed.

(** The rows collected are the rows of the parsed tables, in order. *)
Lemma filas_leidas_exitosos carpeta archivos :
  (fun x => (x.1.2, x.2)) <$> filas_leidas carpeta archivos
  = exitosos carpeta archivos ≫= fun t => (fun fila => (t, fila)) <$> filas t.
Proof.
  unfold Atmosfericos.filas_leidas, Atmosfericos.exitosos.
  induction archivos as [|f fs IH]; [done|].
  rewrite bind_cons, fmap_app, IH. cbn [omap list_omap].
  destruct (leer_entrada carpeta f).2 as [t|]; [|done].
  rewrite bind_cons. f_equal. rewrite <- list_fmap_compose. done.
Qed.

Lemma filas_leidas_elem carpeta archivos f t fila :
  (f, t, fila) ∈ filas_leidas carpeta archivos ->
  f ∈ archivos /\ (leer_entrada carpeta f).2 = Some t /\ fila ∈ filas t.
Proof.
  unfold Atmosfericos.filas_leidas. intros (f0 & Hin & Hf0)%list_elem_of_bind.
  destruct (leer_entrada carpeta f0).2 as [t0|] eqn:E; [|by apply elem_of_nil in Hin].
  apply list_elem_of_fmap in Hin as (fila0 & [= -> -> ->] & Hfila). done.
Qed.

(** What the batch returns holds, in the order of the entries, the rows
    of the tables of the entries that parse, each with the cells it had and
    with the normalized name of its entry as [canton]. *)
Lemma procesar_todos_filas carpeta listado df :
  (procesar_todos carpeta listado).2 = Devuelve df ->
  Forall2 (fun x fila' =>
             Invariantes.misma_fila (columns x.1.2) x.2 (columns df) fila'
             /\ celda_de (columns df) fila' (CTexto "canton")
                = CTexto (Py.upper (Py.strip (Py.splitext x.1.1.1).1)))
          (filas_leidas carpeta (List.filter es_csv listado)) (filas df).
Proof.
  rewrite procesar_todos_valor.
  destruct (List.filter es_csv listado) as [|f fs] eqn:Ef; [done|]. rewrite <- Ef.
  destruct (exitosos carpeta (List.filter es_csv listado)) as [|t ts] eqn:Et; [done|].
  rewrite <- Et. intros Hc.
  pose proof (concat_filas _ _ (exitosos_rectangular _ _) Hc) as Hfilas.
  rewrite <- filas_leidas_exitosos in Hfilas. apply Forall2_fmap_l in Hfilas.
  eapply (Forall2_con_Forall _ _
            (fun x => x ∈ filas_leidas carpeta (List.filter es_csv listado)));
    [exact Hfilas|by apply Forall_forall|].
  intros [[f0 t0] fila] fila' Hm (Hf0 & Hleer & Hfila)%filas_leidas_elem.
  split; [exact Hm|]. cbn [fst snd] in *. destruct Hm as [_ ->].
  by eapply leer_archivo_canton.
Qed.

Lemma reset_index_columnas df_largo dfp :
  reset_index (pivot_table media menor_o_igual df_largo) = Devuelve dfp ->
  exists pcols,
    columns dfp = CTexto "YEAR" :: CTexto "mes" :: pcols
    /\ (CTexto "YEAR" ∉ pcols) /\ (CTexto "mes" ∉ pcols)
    /\ pcols = p_columns (pivot_table media menor_o_igual df_largo)
    /\ filas dfp = (fun iv => iv.1.1 :: CTexto iv.1.2 :: iv.2)
                     <$> zip (p_index (pivot_table media menor_o_igual df_largo))
                             (p_valores (pivot_table media menor_o_igual df_largo)).
Proof.
  unfold reset_index. case_decide as Hd; [done|]. intros [= <-].
  eexists. split_and!; [reflexivity| | |reflexivity..].
  - intros Hin. apply Hd. by left.
  - intros Hin. apply Hd. by right.
Qed.

(** The labels of a parsed table: [anio], [mes], then the parameters,
    each once, with [canton] among them or after them. *)
Lemma tabla_leida_etiquetas contenido ruta canton df :
  (leer_archivo contenido ruta canton).2 = Some df ->
  exists pcols,
    columns df = CTexto "anio" :: CTexto "mes" :: pcols
    /\ NoDup pcols /\ (CTexto "mes" ∉ pcols) /\ (CTexto "YEAR" ∉ pcols)
    /\ CTexto "canton" ∈ pcols.
Proof.
  unfold _leer_archivo. destruct contenido as [lineas|e]; [|done].
  destruct (buscar_inicio 0 lineas) as [i|]; [|done].
  intros (df0 & dfp & _ & _ & _ & Hreset & ->)%tabla_exito.
  apply reset_index_columnas in Hreset as (pcols & Hcols & HY & Hm & Hp & _).
  assert (NoDup pcols) as Hnd.
  { rewrite Hp. cbn [pivot_table p_columns]. apply NoDup_ordenar, NoDup_remove_dups. }
  unfold rename, set_columna. rewrite Hcols. cbn [indice_de].
  rewrite !decide_False by done.
  destruct (indice_de (CTexto "canton") pcols) as [n|] eqn:En;
    cbn [fmap option_fmap option_map columns list_fmap].
  - exists pcols. rewrite decide_True by done. rewrite decide_False by done.
    rewrite rename_fuera by done. split_and!; try done.
    apply indice_de_Some in En. by eapply list_elem_of_lookup_2.
  - exists (pcols ++ [CTexto "canton"]). apply indice_de_None in En.
    cbn [app]. rewrite !fmap_cons.
    rewrite decide_True by done. rewrite decide_False by done.
    rewrite rename_fuera.
    + split_and!; [done| | | |].
      * apply NoDup_app. split_and!; [done| |apply NoDup_singleton].
        by intros c Hc ->%list_elem_of_singleton.
      * rewrite elem_of_app, list_elem_of_singleton. by intros [?|?].
      * rewrite elem_of_app, list_elem_of_singleton. by intros [?|?].
      * apply elem_of_app. right. by apply list_elem_of_singleton.
    + rewrite elem_of_app, list_elem_of_singleton. by intros [?|?].
Qed.

(** A parsed table repeats a label exactly when [anio] is also the name of
    one of its columns after the second. *)
Lemma tabla_leida_repetida contenido ruta canton df :
  (leer_archivo contenido ruta canton).2 = Some df ->
  NoDup (columns df) <-> CTexto "anio" ∉ drop 2 (columns df).
Proof.
  intros (pcols & -> & Hnd & Hmes & _ & _)%tabla_leida_etiquetas. cbn [drop].
  rewrite !NoDup_cons, not_elem_of_cons. split; [by intros [[_ ?] _]|done].
Qed.

(** C1 (as amended).  The atmospheric side writes trim-then-uppercase of
    the region as the [canton] of every row, so two region names that
    differ only in case and in surrounding whitespace give the same key on
    that side.  The yield script does not normalize: it keeps the rows whose
    first cell is exactly ['Turrialba'] and writes that literal as region.
    The names are those whose capitals [upper] can hold. *)
Theorem region_normalizada_en_clima
    contenido1 ruta1 contenido2 ruta2 w1 c1 w2 w3 c2 w4 df1 df2 fila1 fila2 :
  Py.es_blanco w1 = true -> Py.es_blanco w2 = true ->
  Py.es_blanco w3 = true -> Py.es_blanco w4 = true ->
  Py.mayusculas_en_rango c1 = true -> Py.mayusculas_en_rango c2 = true ->
  Py.solo_difiere_caso c1 c2 = true ->
  (leer_archivo contenido1 ruta1 (w1 +:+ c1 +:+ w2)).2 = Some df1 ->
  (leer_archivo contenido2 ruta2 (w3 +:+ c2 +:+ w4)).2 = Some df2 ->
  fila1 ∈ filas df1 -> fila2 ∈ filas df2 ->
  celda_de (columns df1) fila1 (CTexto "canton") = CTexto (Py.upper (Py.strip c1))
  /\ celda_de (columns df2) fila2 (CTexto "canton")
     = celda_de (columns df1) fila1 (CTexto "canton")
  /\ (forall (pc : Celda V) fila,
        pc ∉ Papa.claves ->
        Papa.dict_get (Papa.procesar_fila pc fila) pc = Some (CTexto "Turrialba"))
  /\ (forall fila : list (Celda V),
        Papa.es_turrialba fila = true <-> head fila = Some (CTexto "Turrialba")).
Proof.
  intros H1 H2 H3 H4 _ _ Hc Hdf1 Hdf2 Hf1 Hf2.
  rewrite (leer_archivo_canton _ _ _ _ _ Hdf1 Hf1),
          (leer_archivo_canton _ _ _ _ _ Hdf2 Hf2).
  split_and!.
  - by rewrite strip_rodeado.
  - f_equal. symmetry. by apply normalizacion_insensible.
  - intros pc fila Hpc. rewrite procesar_fila_zip by done.
    cbn [Papa.dict_get]. by rewrite decide_True.
  - intros [|c fila]; cbn; [done|]. rewrite bool_decide_eq_true.
    split; [by intros ->|by intros [= ->]].
Qed.

(** C7 (as amended).  The batch loader raises when the folder has no
    entry ending in [.csv], raises when no such entry parses, and otherwise
    gives what [pd.concat] gives for the tables of the entries that parse.
    That call returns whenever no table repeats a label, and raises exactly
    when some table repeats one and the tables do not all have the same
    columns; a table repeats a label only when [anio] is also the name of
    a parameter.  What is returned holds the rows of the parsed tables, in
    listing order, each with the cells it had (the very rows, when the
    tables have the columns of the result) and with, as [canton], the
    normalized first component of [splitext] of its file name, which is the
    name without its [.csv]. *)
Theorem procesar_todos_resultado carpeta listado :
  (forall f, f ∈ List.filter es_csv listado <->
     f ∈ listado /\ Py.endswith f.1 ".csv" = true)
  /\ (List.filter es_csv listado = [] ->
        (procesar_todos carpeta listado).2 = Lanza (sin_archivos carpeta))
  /\ (List.filter es_csv listado <> [] ->
      exitosos carpeta (List.filter es_csv listado) = [] ->
        (procesar_todos carpeta listado).2 = Lanza sin_validos)
  /\ (forall df, df ∈ exitosos carpeta (List.filter es_csv listado) <->
        exists f, f ∈ List.filter es_csv listado
          /\ (leer_archivo f.2 (Py.path_join carpeta f.1) (Py.splitext f.1).1).2 = Some df)
  /\ (exitosos carpeta (List.filter es_csv listado) <> [] ->
        (procesar_todos carpeta listado).2
        = concat (exitosos carpeta (List.filter es_csv listado))
        /\ (Forall (fun t => NoDup (columns t)) (exitosos carpeta (List.filter es_csv listado)) ->
              exists df, (procesar_todos carpeta listado).2 = Devuelve df)
        /\ (forall e, (procesar_todos carpeta listado).2 = Lanza e -> e = InvalidIndexError)
        /\ ((procesar_todos carpeta listado).2 = Lanza InvalidIndexError <->
              (exists t, t ∈ exitosos carpeta (List.filter es_csv listado)
                         /\ ~ NoDup (columns t))
              /\ (exists t t', t ∈ exitosos carpeta (List.filter es_csv listado)
                               /\ t' ∈ exitosos carpeta (List.filter es_csv listado)
                               /\ columns t <> columns t')))
  /\ (forall df, (procesar_todos carpeta listado).2 = Devuelve df ->
        (forall col, col ∈ columns df <->
           exists t, t ∈ exitosos carpeta (List.filter es_csv listado) /\ col ∈ columns t)
        /\ Forall2 (fun '(f, t, fila) fila' =>
                      length fila' = length (columns df)
                      /\ (forall col, celda_de (columns df) fila' col
                                      = celda_de (columns t) fila col)
                      /\ (Py.mayusculas_en_rango f.1 = true ->
                            celda_de (columns df) fila' (CTexto "canton")
                            = CTexto (Py.upper (Py.strip (Py.splitext f.1).1))))
                   (filas_leidas carpeta (List.filter es_csv listado)) (filas df)
        /\ (Forall (fun t => columns t = columns df)
                   (exitosos carpeta (List.filter es_csv listado)) ->
              filas df = exitosos carpeta (List.filter es_csv listado) ≫= filas))
  /\ (forall t, t ∈ exitosos carpeta (List.filter es_csv listado) ->
        NoDup (columns t) <-> CTexto "anio" ∉ drop 2 (columns t))
  /\ (forall base, Py.all_chars Py.es_punto base = false ->
        Py.splitext (base +:+ ".csv") = (base, ".csv")).
Proof.
  pose proof (procesar_todos_valor carpeta listado) as Hv.
  split_and!.
  - intros f. rewrite !list_elem_of_In, filter_In. done.
  - intros E. by rewrite Hv, E.
  - intros Hne E. rewrite Hv, E. by destruct (List.filter es_csv listado).
  - apply exitosos_elem.
  - intros Hne.
    assert ((procesar_todos carpeta listado).2
            = concat (exitosos carpeta (List.filter es_csv listado))) as Hc.
    { rewrite Hv. destruct (List.filter es_csv listado) as [|f fs]; [done|].
      by destruct (exitosos carpeta (f :: fs)). }
    rewrite Hc. split_and!; [done| | |].
    + by apply concat_distintas.
    + intros e He. by apply concat_Lanza in He as [-> _].
    + split.
      * intros He. by apply concat_Lanza in He as (_ & ? & ?).
      * intros [H1 H2]. by apply concat_rechaza.
  - intros df Hdf.
    assert (concat (exitosos carpeta (List.filter es_csv listado)) = Devuelve df) as Hc.
    { revert Hdf. rewrite Hv.
      destruct (List.filter es_csv listado) as [|f fs]; [done|].
      by destruct (exitosos carpeta (f :: fs)). }
    split_and!.
    + intros col. by apply concat_columnas.
    + eapply Forall2_impl; [by apply procesar_todos_filas|].
      intros [[f t] fila] fila' [[Hlen Hcel] Hcanton]. done.
    + by apply concat_iguales.
  - intros t (f & _ & Hleer)%exitosos_elem. by eapply tabla_leida_repetida.
  - apply splitext_csv.
Qed.

End AtmosfericosProps.

(** ** Melt followed by pivot *)
Section PivoteProps.
Import Atmosfericos.
Context {V : Type} `{EqDecision V}.
Variable to_numeric_texto : string -> option V.
Variable media : list V -> V.
Variable menor_o_igual : Celda V -> Celda V -> bool.
Hypothesis media_uno : forall x, media [x] = x.

Local Abbreviation largo df := (valor_a_numerico to_numeric_texto (melt df)).
Local Abbreviation P_de df fila := (celda_de (columns df) fila (CTexto "PARAMETER")).
Local Abbreviation Y_de df fila := (celda_de (columns df) fila (CTexto "YEAR")).
Local Abbreviation M_de df fila m := (celda_de (columns df) fila (CTexto m)).

Lemma omap_de_bind {A B C} (f : B -> option C) (g : A -> list B) (l : list A) :
  omap f (l ≫= g) = l ≫= (fun x => omap f (g x)).
Proof.
  induction l as [|x l IH]; [done|].
  by rewrite !bind_cons, omap_app, IH.
Qed.

Lemma omap_de_fmap {A B C} (f : B -> option C) (g : A -> B) (l : list A) :
  omap f (g <$> l) = omap (fun x => f (g x)) l.
Proof.
  induction l as [|x l IH]; [done|]. cbn. rewrite IH. done.
Qed.

Lemma omap_nada {A B} (f : A -> option B) (l : list A) :
  (forall x, x ∈ l -> f x = None) -> omap f l = [].
Proof.
  induction l as [|x l IH]; intros Hf; [done|]. cbn.
  rewrite (Hf x) by apply list_elem_of_here.
  apply IH. intros y Hy. apply Hf. by apply list_elem_of_further.
Qed.

Lemma omap_clave {A B K} `{EqDecision K} (sel : A -> option B) (clave : A -> K)
    (g : A -> option B) (l : list A) (x : A) :
  (forall y, sel y = if decide (clave y = clave x) then g y else None) ->
  NoDup (clave <$> l) -> x ∈ l ->
  omap sel l = option_list (g x).
Proof.
  intros Hsel. induction l as [|y l IH]; intros Hnd Hx.
  { by apply elem_of_nil in Hx. }
  cbn in Hnd. apply NoDup_cons in Hnd as [Hy Hnd]. cbn.
  rewrite Hsel. apply elem_of_cons in Hx as [->|Hx].
  - rewrite decide_True by done.
    rewrite (omap_nada sel l).
    + by destruct (g y).
    + intros z Hz. rewrite Hsel, decide_False; [done|].
      intros E. apply Hy. rewrite <- E. apply list_elem_of_fmap. eauto.
  - rewrite decide_False; [by apply IH|].
    intros E. apply Hy. rewrite E. apply list_elem_of_fmap. eauto.
Qed.

Lemma bind_nada {A B} (k : A -> list B) (ms : list A) :
  (forall m', m' ∈ ms -> k m' = []) -> ms ≫= k = [].
Proof.
  induction ms as [|m0 ms IH]; intros Hk; [done|].
  rewrite bind_cons, (Hk m0) by apply list_elem_of_here.
  apply IH. intros m' Hm'. apply Hk. by apply list_elem_of_further.
Qed.

Lemma bind_unico {A B} (k : A -> list B) (ms : list A) (m : A) :
  NoDup ms -> m ∈ ms ->
  (forall m', m' ∈ ms -> m' <> m -> k m' = []) ->
  ms ≫= k = k m.
Proof.
  induction ms as [|m0 ms IH]; intros Hnd Hm Hk.
  { by apply elem_of_nil in Hm. }
  apply NoDup_cons in Hnd as [Hm0 Hnd]. rewrite bind_cons.
  apply elem_of_cons in Hm as [->|Hm].
  - rewrite bind_nada; [by rewrite app_nil_r|].
    intros m' Hm'. apply Hk; [by apply list_elem_of_further|].
    by intros ->.
  - rewrite (Hk m0).
    + apply IH; [done..|]. intros m' Hm' Hne.
      apply Hk; [by apply list_elem_of_further|done].
    + apply list_elem_of_here.
    + by intros ->.
Qed.

Lemma NoDup_columnas_meses : NoDup columnas_meses.
Proof. apply (bool_decide_unpack _). by vm_compute. Qed.

Lemma largo_elem (df : DataFrame V) r :
  r ∈ largo df <->
  exists m fila, m ∈ columnas_meses /\ fila ∈ filas df
    /\ r = mkFilaLarga (P_de df fila) (Y_de df fila) m
             (to_numeric to_numeric_texto (M_de df fila m)).
Proof.
  unfold valor_a_numerico, melt. rewrite list_elem_of_fmap. split.
  - intros (r0 & -> & (m & (fila & -> & Hf)%list_elem_of_fmap & Hm)%list_elem_of_bind).
    by exists m, fila.
  - intros (m & fila & Hm & Hf & ->).
    exists (mkFilaLarga (P_de df fila) (Y_de df fila) m (M_de df fila m)).
    split; [done|]. apply list_elem_of_bind. exists m. split; [|done].
    apply list_elem_of_fmap. eauto.
Qed.

(** With one row per (PARAMETER, YEAR), the group of a row and a month
    holds the number of that cell and nothing else. *)
Lemma grupo_de_fila (df : DataFrame V) fila m :
  NoDup ((fun f => (P_de df f, Y_de df f)) <$> filas df) ->
  fila ∈ filas df -> m ∈ columnas_meses ->
  grupo (largo df) (Y_de df fila) m (P_de df fila)
  = option_list (numero (to_numeric to_numeric_texto (M_de df fila m))).
Proof.
  intros Hnd Hf Hm. unfold grupo, valor_a_numerico, melt.
  rewrite omap_de_fmap, omap_de_bind.
  rewrite (bind_unico _ columnas_meses m NoDup_columnas_meses Hm).
  - rewrite omap_de_fmap.
    apply (omap_clave _ (fun f => (P_de df f, Y_de df f))
             (fun f => numero (to_numeric to_numeric_texto (M_de df f m)))); [|done..].
    intros y. cbn.
    destruct (decide (_ /\ _ /\ _)) as [(Hy & _ & Hp)|Hn],
      (decide (_ = _ :> Celda V * Celda V)) as [E|Hn']; try done.
    + exfalso. apply Hn'. by rewrite Hy, Hp.
    + exfalso. apply Hn. by injection E as -> ->.
  - intros m' _ Hne. rewrite omap_de_fmap. apply omap_nada.
    intros y _. cbn. case_decide as Hd; [|done]. by destruct Hd as (_ & ? & _).
Qed.

Lemma grupo_elem (df_largo : list (FilaLarga V)) y m p x :
  x ∈ grupo df_largo y m p <->
  exists r, r ∈ df_largo /\ YEAR r = y /\ mes r = m /\ PARAMETER r = p
    /\ valor r = CNum x.
Proof.
  unfold grupo. rewrite list_elem_of_omap. split.
  - intros (r & Hr & Hsel). exists r. case_decide as Hd; [|done].
    destruct Hd as (? & ? & ?). destruct (valor r); cbn in Hsel; try done.
    by injection Hsel as ->.
  - intros (r & Hr & <- & <- & <- & Hv). exists r. split; [done|].
    rewrite decide_True by done. by rewrite Hv.
Qed.

Lemma celda_pivote_media (df_largo : list (FilaLarga V)) a b y m p :
  p_index (pivot_table media menor_o_igual df_largo) !! a = Some (y, m) ->
  p_columns (pivot_table media menor_o_igual df_largo) !! b = Some p ->
  celda_pivote (pivot_table media menor_o_igual df_largo) a b = Some (celda_media media df_largo y m p).
Proof.
  unfold celda_pivote, pivot_table. cbn [p_index p_columns p_valores].
  intros Ha Hb. rewrite list_lookup_fmap, Ha. cbn.
  by rewrite list_lookup_fmap, Hb.
Qed.

(** C8 (as amended).  For a table whose PARAMETER and YEAR cells are
    present, whose twelve month columns hold numbers only and where no two
    rows share (PARAMETER, YEAR), the pivot of the melted table has, for
    every row and month, exactly the number of that cell at (YEAR, month)
    and PARAMETER, and holds no number that does not come from such a cell;
    its index and its columns have no repetition. *)
Theorem pivote_reconstruye_matriz (df : DataFrame V) :
  (forall fila m, fila ∈ filas df -> m ∈ columnas_meses ->
     exists v, M_de df fila m = CNum v) ->
  (forall fila, fila ∈ filas df ->
     isnull (P_de df fila) = false /\ isnull (Y_de df fila) = false) ->
  NoDup ((fun f => (P_de df f, Y_de df f)) <$> filas df) ->
  NoDup (p_index (pivot_table media menor_o_igual (largo df)))
  /\ NoDup (p_columns (pivot_table media menor_o_igual (largo df)))
  /\ (forall fila m, fila ∈ filas df -> m ∈ columnas_meses ->
        exists a b,
          p_index (pivot_table media menor_o_igual (largo df)) !! a = Some (Y_de df fila, m)
          /\ p_columns (pivot_table media menor_o_igual (largo df)) !! b = Some (P_de df fila)
          /\ celda_pivote (pivot_table media menor_o_igual (largo df)) a b = Some (M_de df fila m))
  /\ (forall a b y m p c,
        p_index (pivot_table media menor_o_igual (largo df)) !! a = Some (y, m) ->
        p_columns (pivot_table media menor_o_igual (largo df)) !! b = Some p ->
        celda_pivote (pivot_table media menor_o_igual (largo df)) a b = Some c ->
        c = CNaN
        \/ exists fila, fila ∈ filas df /\ m ∈ columnas_meses
             /\ y = Y_de df fila /\ p = P_de df fila /\ c = M_de df fila m).
Proof.
  intros Hnum Hkeys Hnd.
  assert (forall fila m, fila ∈ filas df -> m ∈ columnas_meses ->
            celda_media media (largo df) (Y_de df fila) m (P_de df fila)
            = M_de df fila m) as Hmedia.
  { intros fila m Hf Hm. unfold celda_media. rewrite grupo_de_fila by done.
    destruct (Hnum fila m Hf Hm) as [v ->]. cbn. by rewrite media_uno. }
  split_and!.
  - apply NoDup_ordenar, NoDup_remove_dups.
  - apply NoDup_ordenar, NoDup_remove_dups.
  - intros fila m Hf Hm.
    set (r := mkFilaLarga (P_de df fila) (Y_de df fila) m
                (to_numeric to_numeric_texto (M_de df fila m))).
    assert (r ∈ con_dato (largo df)) as Hr.
    { unfold con_dato. apply list_elem_of_filter. split.
      - destruct (Hkeys fila Hf) as [HP HY]. destruct (Hnum fila m Hf Hm) as [v Hv].
        subst r. cbn. by rewrite Hv.
      - apply largo_elem. by exists m, fila. }
    assert ((Y_de df fila, m) ∈ p_index (pivot_table media menor_o_igual (largo df))) as Hi.
    { cbn [pivot_table p_index p_columns].
      apply elem_of_ordenar, elem_of_remove_dups, list_elem_of_fmap. by exists r. }
    assert (P_de df fila ∈ p_columns (pivot_table media menor_o_igual (largo df))) as Hc.
    { cbn [pivot_table p_index p_columns].
      apply elem_of_ordenar, elem_of_remove_dups, list_elem_of_fmap. by exists r. }
    apply list_elem_of_lookup_1 in Hi as [a Ha].
    apply list_elem_of_lookup_1 in Hc as [b Hb].
    exists a, b. split_and!; [done..|].
    by rewrite (celda_pivote_media _ _ _ _ _ _ Ha Hb), Hmedia.
  - intros a b y m p c Ha Hb Hc.
    rewrite (celda_pivote_media _ _ _ _ _ _ Ha Hb) in Hc. injection Hc as <-.
    unfold celda_media at 1.
    destruct (grupo (largo df) y m p) as [|x vs] eqn:Eg; [by left|right].
    assert (x ∈ grupo (largo df) y m p) as Hx by (rewrite Eg; apply list_elem_of_here).
    apply grupo_elem in Hx as (r & Hr & Hy & Hm' & Hp & Hv).
    apply largo_elem in Hr as (m0 & fila & Hm & Hf & ->).
    cbn [YEAR mes PARAMETER] in Hy, Hm', Hp. subst y m0 p.
    exists fila. split_and!; try done.
    by apply Hmedia.
Qed.

End PivoteProps.

(** ** The quality report *)
Section PipelineProps.
Import Pipeline.
Context {V : Type} `{EqDecision V}.
Implicit Types (df : DataFrame V).

Lemma nulos_de_fila (fila : list (Celda V)) :
  length (List.filter isnull fila) <= length fila.
Proof.
  induction fila as [|c fila IH]; cbn; [lia|].
  destruct (isnull c); cbn; lia.
Qed.

(** The missing cells are at most all the cells. *)
Lemma contar_nulos_cota df :
  rectangular df ->
  contar_nulos df <= length (filas df) * length (columns df).
Proof.
  unfold rectangular, contar_nulos.
  induction (filas df) as [|fila fs IH]; intros Hr; cbn; [lia|].
  apply Forall_cons in Hr as [Hf Hr]. specialize (IH Hr).
  pose proof (nulos_de_fila fila). lia.
Qed.

Lemma contar_nulos_sin_filas df : filas df = [] -> contar_nulos df = 0.
Proof. unfold contar_nulos. by intros ->. Qed.

Lemma contar_nulos_mjoin df :
  contar_nulos df = length (List.filter isnull (mjoin (filas df))).
Proof.
  unfold contar_nulos. induction (filas df) as [|fila fs IH]; [done|].
  cbn. by rewrite List.filter_app, length_app, IH.
Qed.

Lemma cociente_acotado (m n : nat) :
  m <= n -> 0 < n ->
  (0 <= inject_Z (Z.of_nat m) / inject_Z (Z.of_nat n)
   /\ inject_Z (Z.of_nat m) / inject_Z (Z.of_nat n) <= 1)%Q.
Proof.
  intros Hmn Hn.
  assert (0 < inject_Z (Z.of_nat n))%Q as Hpos.
  { change 0%Q with (inject_Z 0). rewrite <- Zlt_Qlt. lia. }
  split.
  - apply Qle_shift_div_l; [done|]. rewrite Qmult_0_l.
    change 0%Q with (inject_Z 0). rewrite <- Zle_Qle. lia.
  - apply Qle_shift_div_r; [done|]. rewrite Qmult_1_l.
    rewrite <- Zle_Qle. lia.
Qed.

(** C9.  For a table with at least one row and one column the report is
    returned with the counts of the table, the number of missing cells,
    and a completeness equal to (1 - missing / (rows * columns)) * 100,
    which lies between 0 and 100. *)
Theorem completitud_formula df :
  rectangular df -> filas df <> [] -> columns df <> [] ->
  exists r q,
    generar_reporte_calidad (Some df) = ([Info_reporte r], Some r)
    /\ total_filas r = length (filas df)
    /\ total_columnas r = length (columns df)
    /\ valores_faltantes r = length (List.filter isnull (mjoin (filas df)))
    /\ porcentaje_completitud r = FNum q
    /\ (q == (1 - inject_Z (Z.of_nat (valores_faltantes r))
                  / inject_Z (Z.of_nat (total_filas r * total_columnas r))) * 100)%Q
    /\ (0 <= q /\ q <= 100)%Q.
Proof.
  intros Hrect Hf Hc.
  assert (0 < length (filas df) * length (columns df)) as Hpos.
  { destruct (filas df), (columns df); cbn; try done; lia. }
  pose proof (contar_nulos_cota df Hrect) as Hcota.
  unfold generar_reporte_calidad, calcular_reporte.
  unfold np_truediv. destruct (Z.eqb_spec (Z.of_nat (length (filas df) * length (columns df))) 0) as [E|_]; [lia|].
  eexists _, _. split_and!; try reflexivity.
  - apply contar_nulos_mjoin.
  - cbn [valores_faltantes total_filas total_columnas].
    destruct (cociente_acotado _ _ Hcota Hpos) as [H0 H1]. lra.
  - cbn [valores_faltantes total_filas total_columnas].
    destruct (cociente_acotado _ _ Hcota Hpos) as [H0 H1]. lra.
Qed.

(** C10 (as amended).  The report function returns in every case: the
    filled report with an info entry when the body returns, the empty
    dictionary with an error entry when the body raises, as it does on
    [None].  A table, also an empty one, does not make the body raise:
    without rows the division is 0 by 0 on numpy numbers, which gives NaN,
    and the report is returned filled with a NaN completeness. *)
Theorem reporte_sin_excepcion (df_final : option (DataFrame V)) :
  ((exists r, calcular_reporte df_final = Devuelve r
      /\ generar_reporte_calidad df_final = ([Info_reporte r], Some r))
   \/ (exists e, calcular_reporte df_final = Lanza e
      /\ generar_reporte_calidad df_final = ([Error_reporte e], None)))
  /\ (forall df, exists r,
        generar_reporte_calidad (Some df) = ([Info_reporte r], Some r)
        /\ total_filas r = length (filas df)
        /\ (filas df = [] -> porcentaje_completitud r = FNaN))
  /\ generar_reporte_calidad (@None (DataFrame V)) = ([Error_reporte TypeError], None).
Proof.
  split_and!.
  - unfold generar_reporte_calidad.
    destruct (calcular_reporte df_final) as [r|e]; [left|right]; eauto.
  - intros df. eexists. split_and!; [reflexivity..|].
    intros Hf. cbn [porcentaje_completitud].
    by rewrite (contar_nulos_sin_filas df Hf), Hf.
  - done.
Qed.

End PipelineProps.

(** ** The statements on sample files *)
Section ClimaEjemplos.
Import Ejemplos Atmosfericos Pipeline.

Ltac decidir := apply (bool_decide_unpack _); vm_compute; exact I.

Lemma media_Z_uno (x : Z) : media_Z [x] = x.
Proof. unfold media_Z. cbn. rewrite Z.add_0_r. apply Z.div_1_r. Qed.

Lemma region_normalizada_en_clima_testigo :
  celda_de (columns (tabla_de archivo_t2m (" " +:+ san_jose +:+ " ")))
    (fila_enero_de SAN_JOSE) (CTexto "canton")
    = CTexto (Py.upper (Py.strip san_jose))
  /\ celda_de (columns (tabla_de archivo_t2m ("" +:+ SAN_JOSE +:+ "")))
       (fila_enero_de SAN_JOSE) (CTexto "canton")
     = celda_de (columns (tabla_de archivo_t2m (" " +:+ san_jose +:+ " ")))
         (fila_enero_de SAN_JOSE) (CTexto "canton").
Proof.
  assert (fila_enero_de SAN_JOSE ∈ filas (tabla_de archivo_t2m (" " +:+ san_jose +:+ " ")))
    as Hf1 by decidir.
  assert (fila_enero_de SAN_JOSE ∈ filas (tabla_de archivo_t2m ("" +:+ SAN_JOSE +:+ "")))
    as Hf2 by decidir.
  destruct (region_normalizada_en_clima leer_csv_simple entero media_Z orden_Z
              (Devuelve archivo_t2m) "d/x.csv" (Devuelve archivo_t2m) "d/x.csv"
              " " san_jose " " "" SAN_JOSE ""
              (tabla_de archivo_t2m (" " +:+ san_jose +:+ " "))
              (tabla_de archivo_t2m ("" +:+ SAN_JOSE +:+ ""))
              (fila_enero_de SAN_JOSE) (fila_enero_de SAN_JOSE)
              eq_refl eq_refl eq_refl eq_refl eq_refl eq_refl eq_refl
              eq_refl eq_refl Hf1 Hf2) as (H1 & H2 & _).
  split; [exact H1|exact H2].
Defined.

(** The names of the claim: each gives the key ['TURRIALBA']. *)
Example turrialba_normalizada :
  (fun c => celda_de (columns (tabla_de archivo_t2m c)) fila_enero (CTexto "canton"))
    <$> [" Turrialba "; "TURRIALBA"; "turrialba"]
  = [CTexto "TURRIALBA"; CTexto "TURRIALBA"; CTexto "TURRIALBA"].
Proof. by vm_compute. Qed.

(** C1, the claim as stated fails on the yield side: for the region
    ["Turrialba"] the yield script writes ['Turrialba'] and the atmospheric
    parser ['TURRIALBA'], and the script drops the rows whose region is
    [" Turrialba "], ["TURRIALBA"] or ["turrialba"]. *)
Lemma lado_papa_no_normaliza :
  Papa.dict_get (Papa.procesar_fila canton_col [CTexto "Turrialba"; CNum 7%Z]) canton_col
    = Some (CTexto "Turrialba")
  /\ celda_de (columns (tabla_de archivo_t2m "Turrialba")) fila_enero (CTexto "canton")
     = CTexto "TURRIALBA"
  /\ CTexto (V:=Z) "Turrialba" <> CTexto "TURRIALBA"
  /\ List.filter Papa.es_turrialba (filas hoja_variantes)
     = [[CTexto "Turrialba"; CNum 7%Z; CNum 8%Z]].
Proof. split_and!; by vm_compute. Qed.

Lemma encabezado_en_primera_linea_testigo :
  buscar_inicio 0 archivo_t2m = Some 2
  /\ leer archivo_t2m "d/x.csv" "x"
     = procesar_tabla entero media_Z orden_Z "d/x.csv" "x" (leer_csv_simple archivo_t2m 2)
  /\ leer archivo_sin_encabezado "d/x.csv" "x" = ([Warning_sin_encabezado "d/x.csv"], None).
Proof.
  assert (buscar_inicio 0 archivo_t2m = Some 2) as Hi by reflexivity.
  assert (Forall (fun l => ~ es_encabezado l) archivo_sin_encabezado) as Hno by decidir.
  split_and!; [exact Hi| |].
  - exact (proj1 (proj2 (encabezado_en_primera_linea leer_csv_simple entero media_Z orden_Z
                           archivo_t2m "d/x.csv" "x")) 2 Hi).
  - exact (proj1 (proj1 (proj2 (proj2 (encabezado_en_primera_linea leer_csv_simple
                           entero media_Z orden_Z archivo_sin_encabezado "d/x.csv" "x")))) Hno).
Defined.

Lemma columnas_faltantes_no_fatal_testigo :
  buscar_inicio 0 archivo_sin_dec = Some 0
  /\ leer_csv_simple archivo_sin_dec 0 = Devuelve (df_de archivo_sin_dec 0)
  /\ "DEC" ∈ columnas_necesarias
  /\ (CTexto "DEC" ∉ columns (df_de archivo_sin_dec 0))
  /\ leer archivo_sin_dec "d/roto.csv" "roto"
     = ([Warning_columnas_faltantes "d/roto.csv"
           (columnas_faltantes (df_de archivo_sin_dec 0))], None).
Proof.
  assert ("DEC" ∈ columnas_necesarias) as Hc by decidir.
  assert (CTexto "DEC" ∉ columns (df_de archivo_sin_dec 0)) as Hn by decidir.
  split_and!; [reflexivity|reflexivity|exact Hc|exact Hn|].
  exact (proj1 (proj2 (columnas_faltantes_no_fatal leer_csv_simple entero media_Z orden_Z
                         archivo_sin_dec 0 (df_de archivo_sin_dec 0) "d/roto.csv" "roto"
                         "DEC" eq_refl eq_refl Hc Hn)) eq_refl).
Defined.

(** C6, the claim as stated fails on a file that holds only the header
    [PARAMETER,YEAR]: the table lacks the twelve month columns, yet the
    failure reported is the empty table, and no column is named. *)
Lemma encabezado_sin_filas_es_vacio :
  leer_csv_simple archivo_solo_encabezado 0
    = Devuelve (mkDataFrame [CTexto "PARAMETER"; CTexto "YEAR"] [])
  /\ columnas_faltantes (df_de archivo_solo_encabezado 0) = columnas_meses
  /\ leer archivo_solo_encabezado "d/x.csv" "x" = ([Warning_vacio "d/x.csv"], None)
  /\ leer archivo_solo_encabezado "d/x.csv" "x"
     <> ([Warning_columnas_faltantes "d/x.csv"
            (columnas_faltantes (df_de archivo_solo_encabezado 0))], None).
Proof. split_and!; by vm_compute. Qed.

Lemma procesar_todos_resultado_testigo :
  exitosos leer_csv_simple entero media_Z orden_Z "datos" (List.filter es_csv carpeta_demo) <> []
  /\ (exists df, (todos "datos" carpeta_demo).2 = Devuelve df)
  /\ (todos "datos" []).2 = Lanza (sin_archivos "datos").
Proof.
  assert (exitosos leer_csv_simple entero media_Z orden_Z "datos"
            (List.filter es_csv carpeta_demo) <> []) as Hne by (by vm_compute).
  assert (Forall (fun t : DataFrame Z => NoDup (columns t))
            (exitosos leer_csv_simple entero media_Z orden_Z "datos"
               (List.filter es_csv carpeta_demo))) as Hnd by decidir.
  destruct (procesar_todos_resultado leer_csv_simple entero media_Z orden_Z "datos"
              carpeta_demo) as (_ & _ & _ & _ & Hok & _).
  destruct (Hok Hne) as (_ & Hret & _).
  destruct (procesar_todos_resultado leer_csv_simple entero media_Z orden_Z "datos" [])
    as (_ & Hnada & _).
  split_and!; [exact Hne|exact (Hret Hnd)|exact (Hnada eq_refl)].
Defined.

(** C7, the claim as stated fails on a folder with two files that both
    parse, the first with a parameter named [anio]: its table has the
    label [anio] twice, the other table has other columns, and the batch
    raises the error of [pd.concat] after it has logged two parsed files. *)
Lemma etiqueta_repetida_detiene_el_lote :
  columns <$> exitosos leer_csv_simple entero media_Z orden_Z "datos"
                (List.filter es_csv carpeta_repetida)
    = [[CTexto "anio"; CTexto "mes"; CTexto "anio"; CTexto "canton"];
       [CTexto "anio"; CTexto "mes"; CTexto "T2M"; CTexto "canton"]]
  /\ (todos "datos" carpeta_repetida).2 = Lanza InvalidIndexError
  /\ (todos "datos" carpeta_repetida).1
     = [Info_procesando 2; Info_procesados 2 2; Error_al_procesar InvalidIndexError].
Proof. split_and!; by vm_compute. Qed.

(** The demo folder: the text file is ignored, two entries fail, one parses. *)
Example carpeta_demo_canton :
  (fun fila => celda_de [CTexto "anio"; CTexto "mes"; CTexto "T2M"; CTexto "canton"]
                 fila (CTexto "canton"))
    <$> match (todos "datos" carpeta_demo).2 with
        | Devuelve df => take 2 (filas df)
        | Lanza _ => []
        end
  = [CTexto "TURRIALBA"; CTexto "TURRIALBA"].
Proof. by vm_compute. Qed.

Lemma pivote_reconstruye_matriz_testigo :
  exists a b,
    p_index (pivote_de archivo_t2m 2) !! a = Some (CNum 2020%Z, "MAR")
    /\ p_columns (pivote_de archivo_t2m 2) !! b = Some (CTexto "T2M")
    /\ celda_pivote (pivote_de archivo_t2m 2) a b = Some (CNum 3%Z).
Proof.
  assert (forall fila m, fila ∈ filas (df_de archivo_t2m 2) -> m ∈ columnas_meses ->
            exists v, celda_de (columns (df_de archivo_t2m 2)) fila (CTexto m) = CNum v)
    as Hnum.
  { intros fila m Hf Hm. vm_compute in Hf.
    apply list_elem_of_singleton in Hf as ->.
    unfold columnas_meses in Hm.
    repeat (apply elem_of_cons in Hm as [->|Hm]; [eexists; vm_compute; reflexivity|]).
    by apply elem_of_nil in Hm. }
  assert (forall fila, fila ∈ filas (df_de archivo_t2m 2) ->
            isnull (celda_de (columns (df_de archivo_t2m 2)) fila (CTexto "PARAMETER")) = false
            /\ isnull (celda_de (columns (df_de archivo_t2m 2)) fila (CTexto "YEAR")) = false)
    as Hkeys.
  { intros fila Hf. vm_compute in Hf. apply list_elem_of_singleton in Hf as ->.
    by vm_compute. }
  assert (NoDup ((fun f => (celda_de (columns (df_de archivo_t2m 2)) f (CTexto "PARAMETER"),
                            celda_de (columns (df_de archivo_t2m 2)) f (CTexto "YEAR")))
                   <$> filas (df_de archivo_t2m 2))) as Hnd by decidir.
  assert ([CTexto "T2M"; CNum 2020%Z; CNum 1%Z; CNum 2%Z; CNum 3%Z; CNum 4%Z; CNum 5%Z;
           CNum 6%Z; CNum 7%Z; CNum 8%Z; CNum 9%Z; CNum 10%Z; CNum 11%Z; CNum 12%Z;
           CNum 6%Z] ∈ filas (df_de archivo_t2m 2)) as Hf by decidir.
  assert ("MAR" ∈ columnas_meses) as Hm by decidir.
  destruct (pivote_reconstruye_matriz entero media_Z orden_Z media_Z_uno (df_de archivo_t2m 2)
              Hnum Hkeys Hnd) as (_ & _ & Hcelda & _).
  exact (Hcelda _ "MAR" Hf Hm).
Defined.

(** C8, the claim as stated fails on a file with two rows for the same
    parameter and year: January holds 1 in one row and 3 in the other.  The
    pivot has one row for January 2020, the fifth of the sorted index, and
    one column; the cell the two rows share holds 2, so neither 1 nor 3 is
    found back at (2020, JAN) and T2M. *)
Lemma duplicados_se_promedian :
  ((fun fila => celda_de (columns (df_de archivo_duplicado 0)) fila (CTexto "JAN"))
     <$> filas (df_de archivo_duplicado 0)) = [CNum 1%Z; CNum 3%Z]
  /\ ((fun fila => (celda_de (columns (df_de archivo_duplicado 0)) fila (CTexto "PARAMETER"),
                    celda_de (columns (df_de archivo_duplicado 0)) fila (CTexto "YEAR")))
        <$> filas (df_de archivo_duplicado 0))
     = [(CTexto "T2M", CNum 2020%Z); (CTexto "T2M", CNum 2020%Z)]
  /\ p_index (pivote_de archivo_duplicado 0)
     = (fun m => (CNum 2020%Z, m))
         <$> ["APR"; "AUG"; "DEC"; "FEB"; "JAN"; "JUL"; "JUN"; "MAR"; "MAY"; "NOV"; "OCT"; "SEP"]
  /\ p_columns (pivote_de archivo_duplicado 0) = [CTexto "T2M"]
  /\ celda_pivote (pivote_de archivo_duplicado 0) 4 0 = Some (CNum 2%Z)
  /\ (forall a b,
        p_index (pivote_de archivo_duplicado 0) !! a = Some (CNum 2020%Z, "JAN") ->
        p_columns (pivote_de archivo_duplicado 0) !! b = Some (CTexto "T2M") ->
        celda_pivote (pivote_de archivo_duplicado 0) a b <> Some (CNum 1%Z)
        /\ celda_pivote (pivote_de archivo_duplicado 0) a b <> Some (CNum 3%Z)).
Proof.
  split_and!; [by vm_compute..|].
  intros a b Ha Hb. unfold pivote_de in *.
  erewrite celda_pivote_media; [|exact Ha|exact Hb].
  split; by vm_compute.
Qed.

Lemma completitud_formula_testigo :
  rectangular tabla_final
  /\ exists r q,
       generar_reporte_calidad (Some tabla_final) = ([Info_reporte r], Some r)
       /\ total_filas r = 2 /\ total_columnas r = 4 /\ valores_faltantes r = 1
       /\ porcentaje_completitud r = FNum q
       /\ (q == 175 # 2)%Q
       /\ (0 <= q /\ q <= 100)%Q.
Proof.
  assert (rectangular tabla_final) as Hrect by decidir.
  assert (filas tabla_final <> []) as Hf by done.
  assert (columns tabla_final <> []) as Hc by done.
  split; [exact Hrect|].
  destruct (completitud_formula tabla_final Hrect Hf Hc)
    as (r & q & Hg & Hn & Hm & Hv & Hp & Hq & Hb).
  exists r, q. split_and!.
  - exact Hg.
  - rewrite Hn. reflexivity.
  - rewrite Hm. reflexivity.
  - rewrite Hv. reflexivity.
  - exact Hp.
  - rewrite Hq, Hv, Hn, Hm. reflexivity.
  - exact (proj1 Hb).
  - exact (proj2 Hb).
Defined.

(** C10, the example of the claim fails: on a table without rows the
    report is returned filled, with a NaN completeness and an info entry;
    no error is logged and the dictionary is not empty. *)
Lemma tabla_sin_filas_da_reporte :
  generar_reporte_calidad (Some tabla_sin_filas)
    = ([Info_reporte (mkReporte 0 4 0 0 0 0 FNaN)], Some (mkReporte 0 4 0 0 0 0 FNaN))
  /\ (generar_reporte_calidad (Some tabla_sin_filas)).2 <> None
  /\ (forall e, (generar_reporte_calidad (Some tabla_sin_filas)).1 <> [Error_reporte e]).
Proof. split_and!; [by vm_compute|by vm_compute|]. intros e. by vm_compute. Qed.

Lemma reporte_sin_excepcion_testigo :
  generar_reporte_calidad (@None (DataFrame Z)) = ([Error_reporte TypeError], None)
  /\ exists r, generar_reporte_calidad (Some tabla_final) = ([Info_reporte r], Some r)
       /\ total_filas r = 2.
Proof.
  destruct (reporte_sin_excepcion (Some tabla_final)) as (_ & Htabla & Hnone).
  destruct (Htabla tabla_final) as (r & Hr & Hn & _).
  split; [exact Hnone|]. exists r. by split.
Defined.

End ClimaEjemplos.

(** ** More on the yield script *)
Section PapaMas.
Import Papa Invariantes.
Context {V : Type} `{EqDecision V}.
Implicit Types (d : @Dict V) (k v pc : Celda V) (valores fila : list (Celda V)).

Lemma dict_set_claves d k v :
  (dict_set d k v).*1 = if decide (k ∈ d.*1) then d.*1 else d.*1 ++ [k].
Proof.
  induction d as [|[k' v'] d IH]; cbn.
  - rewrite decide_False; [done|apply not_elem_of_nil].
  - destruct (decide (k' = k)) as [->|Hne]; cbn.
    + rewrite decide_True; [done|apply list_elem_of_here].
    + rewrite IH. destruct (decide (k ∈ d.*1)) as [Hin|Hnin].
      * rewrite decide_True; [done|by apply list_elem_of_further].
      * rewrite decide_False; [done|].
        intros [?|?]%elem_of_cons; [by subst|done].
Qed.

Lemma dict_set_valores d k v v' :
  v' ∈ (dict_set d k v).*2 -> v' ∈ d.*2 \/ v' = v.
Proof.
  induction d as [|[k0 v0] d IH]; cbn.
  - intros ->%list_elem_of_singleton. by right.
  - destruct (decide (k0 = k)) as [->|Hne]; cbn.
    + intros [->|Hin]%elem_of_cons; [by right|].
      left. by apply list_elem_of_further.
    + intros [->|Hin]%elem_of_cons; [left; apply list_elem_of_here|].
      destruct (IH Hin) as [?|?]; [left|by right]. by apply list_elem_of_further.
Qed.

Lemma dict_set_NoDup d k v : NoDup d.*1 -> NoDup (dict_set d k v).*1.
Proof.
  intros Hnd. rewrite dict_set_claves. case_decide as Hin; [done|].
  apply NoDup_app. split_and!; [done| |apply NoDup_singleton].
  intros x Hx ->%list_elem_of_singleton. done.
Qed.

Lemma dict_set_largo d k v :
  length d <= length (dict_set d k v) <= S (length d).
Proof.
  rewrite <- !(length_fmap fst), dict_set_claves.
  case_decide; rewrite ?length_app; cbn; lia.
Qed.

Lemma dict_set_conserva d k v k' : k' ∈ d.*1 -> k' ∈ (dict_set d k v).*1.
Proof.
  intros Hin. rewrite dict_set_claves. case_decide; [done|].
  apply elem_of_app. by left.
Qed.

Lemma asignar_si_bien valores d0 d n k p :
  fila_bien valores d0 d n -> fila_bien valores d0 (asignar_si d k valores p) (S n).
Proof.
  intros (Hnd & Hlen & Hk & Hv). rewrite asignar_si_lookup.
  destruct (valores !! p) as [v|] eqn:E.
  - pose proof (dict_set_largo d k v). split_and!.
    + by apply dict_set_NoDup.
    + lia.
    + intros k' Hk'. by apply dict_set_conserva, Hk.
    + intros v' [Hin| ->]%dict_set_valores; [by apply Hv|].
      right. by eapply list_elem_of_lookup_2.
  - split_and!; [done|lia|done|done].
Qed.

Lemma asignar_meses_bien ms : forall i valores d0 d n,
  fila_bien valores d0 d n ->
  fila_bien valores d0 (asignar_meses i ms valores d) (n + 2 * length ms).
Proof.
  induction ms as [|mes ms IH]; intros i valores d0 d n Hd; cbn [asignar_meses length].
  - by rewrite Nat.mul_0_r, Nat.add_0_r.
  - replace (n + 2 * S (length ms)) with (S (S n) + 2 * length ms) by lia.
    apply IH. by do 2 apply asignar_si_bien.
Qed.

(** X1.  A result row never has two entries under one key, has at most
    25 entries, always has the entry of the region column, and holds no
    null value. *)
Theorem fila_resultado_bien_formada pc fila :
  NoDup (procesar_fila pc fila).*1
  /\ length (procesar_fila pc fila) <= 25
  /\ pc ∈ (procesar_fila pc fila).*1
  /\ Forall (fun v => isnull v = false) (procesar_fila pc fila).*2.
Proof.
  assert (fila_bien (dropna (tail fila)) [(pc, CTexto "Turrialba")]
            [(pc, CTexto "Turrialba")] 0) as H0.
  { split_and!; [apply NoDup_singleton|cbn; lia|done|by left]. }
  apply (asignar_meses_bien meses 0) in H0 as (Hnd & Hlen & Hk & Hv).
  split_and!; [done|exact Hlen| |].
  - apply Hk, list_elem_of_here.
  - apply Forall_forall. intros v [Hin|Hin]%Hv.
    + cbn in Hin. by apply list_elem_of_singleton in Hin as ->.
    + unfold dropna in Hin. by apply list_elem_of_filter in Hin as [? _].
Qed.

Lemma asignar_meses_sin_valores ms : forall i d, asignar_meses (V:=V) i ms [] d = d.
Proof. induction ms as [|mes ms IH]; intros i d; cbn; [done|apply IH]. Qed.

(** X2.  A row whose data cells are all null gives a result row with the
    region entry alone. *)
Theorem fila_toda_nula pc fila :
  Forall (fun c => isnull c = true) (tail fila) ->
  procesar_fila pc fila = [(pc, CTexto "Turrialba")].
Proof.
  intros Hn. unfold procesar_fila.
  assert (dropna (tail fila) = []) as ->; [|apply asignar_meses_sin_valores].
  unfold dropna. induction Hn as [|c l Hc _ IH]; [done|].
  rewrite filter_cons_False; [done|]. by rewrite Hc.
Qed.

End PapaMas.

(** ** More on the atmospheric parser *)
Section AtmosfericosMas.
Import Atmosfericos.
Context {V : Type} `{EqDecision V}.
Variable read_csv : list string -> nat -> Resultado (DataFrame V).
Variable to_numeric_texto : string -> option V.
Variable media : list V -> V.
Variable menor_o_igual : Celda V -> Celda V -> bool.

Local Abbreviation leer_archivo := (_leer_archivo read_csv to_numeric_texto media menor_o_igual).
Local Abbreviation tabla := (procesar_tabla to_numeric_texto media menor_o_igual).
Local Abbreviation largo df := (valor_a_numerico to_numeric_texto (melt df)).

Lemma leer_archivo_casos contenido ruta canton :
  (exists df, leer_archivo contenido ruta canton = ([], Some df))
  \/ (exists r, leer_archivo contenido ruta canton = ([r], None)
        /\ (r = Warning_sin_encabezado ruta
            \/ r = Warning_vacio ruta
            \/ (exists f, f <> [] /\ r = Warning_columnas_faltantes ruta f)
            \/ (exists e, r = Error_procesando_archivo ruta e))).
Proof.
  unfold _leer_archivo. destruct contenido as [lineas|e].
  2:{ right. eexists. split; [done|]. do 3 right. by eexists. }
  destruct (buscar_inicio 0 lineas) as [i|].
  2:{ right. eexists. split; [done|]. by left. }
  unfold procesar_tabla. destruct (read_csv lineas i) as [df|e].
  2:{ right. eexists. split; [done|]. do 3 right. by eexists. }
  destruct (empty df).
  { right. eexists. split; [done|]. right. by left. }
  destruct (columnas_faltantes df) as [|c f] eqn:Ef.
  2:{ right. eexists. split; [done|]. do 2 right. left. by exists (c :: f). }
  destruct (reset_index _) as [dfp|e].
  - left. by eexists.
  - right. eexists. split; [done|]. do 3 right. by eexists.
Qed.

(** X4.  The parser either returns a table and logs nothing, or returns no
    table and logs exactly one entry about that file: the missing header,
    the empty table, the non-empty list of absent columns, or the exception
    that was caught. *)
Theorem leer_archivo_un_registro contenido ruta canton :
  (exists df, _leer_archivo read_csv to_numeric_texto media menor_o_igual contenido ruta canton
              = ([], Some df))
  \/ (exists r, _leer_archivo read_csv to_numeric_texto media menor_o_igual contenido ruta canton
                = ([r], None)
        /\ (r = Warning_sin_encabezado ruta
            \/ r = Warning_vacio ruta
            \/ (exists f, f <> [] /\ r = Warning_columnas_faltantes ruta f)
            \/ (exists e, r = Error_procesando_archivo ruta e))).
Proof. apply leer_archivo_casos. Qed.

(** X5.  When the parser returns a table, the file could be read, some
    line has the marker and the table was read from the first such line,
    that table had rows and all fourteen required columns, and nothing was
    logged. *)
Theorem leer_archivo_exito_implica contenido ruta canton df :
  (leer_archivo contenido ruta canton).2 = Some df ->
  exists lineas i linea df0,
    contenido = Devuelve lineas
    /\ lineas !! i = Some linea /\ es_encabezado linea
    /\ (forall j l, lineas !! j = Some l -> j < i -> ~ es_encabezado l)
    /\ read_csv lineas i = Devuelve df0
    /\ filas df0 <> [] /\ columns df0 <> []
    /\ (forall col, col ∈ columnas_necesarias -> CTexto col ∈ columns df0)
    /\ (leer_archivo contenido ruta canton).1 = [].
Proof.
  unfold _leer_archivo. destruct contenido as [lineas|e]; [|done].
  destruct (buscar_inicio 0 lineas) as [i|] eqn:Ei; [|done].
  apply buscar_inicio_Some in Ei as (linea & Hl & He & Hmin).
  intros Hok. pose proof Hok as (df0 & dfp & Hr & Hvac & Hfal & Hreset & ->)%tabla_exito.
  exists lineas, i, linea, df0. split_and!; try done.
  - intros E. unfold empty in Hvac. rewrite E in Hvac. cbn in Hvac.
    by rewrite orb_true_r in Hvac.
  - intros E. unfold empty in Hvac. by rewrite E in Hvac.
  - intros col Hcol. destruct (decide (CTexto col ∈ columns df0)) as [|Hn]; [done|].
    assert (col ∈ columnas_faltantes df0) as Hin by (by apply columnas_faltantes_spec).
    rewrite Hfal in Hin. by apply elem_of_nil in Hin.
  - rewrite Hr. unfold procesar_tabla. rewrite Hvac, Hfal, Hreset. done.
Qed.

Lemma tabla_leida_columnas contenido ruta canton df :
  (leer_archivo contenido ruta canton).2 = Some df ->
  rectangular df
  /\ take 2 (columns df) = [CTexto "anio"; CTexto "mes"]
  /\ CTexto "canton" ∈ columns df
  /\ (CTexto "YEAR" ∉ columns df).
Proof.
  intros Hok. pose proof (leer_archivo_tiene_canton _ _ _ _ _ _ _ _ Hok) as Hcanton.
  revert Hok. unfold _leer_archivo. destruct contenido as [lineas|e]; [|done].
  destruct (buscar_inicio 0 lineas) as [i|]; [|done].
  intros (df0 & dfp & _ & _ & _ & Hreset & ->)%tabla_exito.
  pose proof (reset_index_rectangular _ _ _ _ Hreset) as Hrect.
  apply reset_index_columnas in Hreset as (pcols & Hcols & HY & Hm & _ & _).
  split_and!; [|  |done|].
  - unfold rename, rectangular. cbn [filas columns]. rewrite length_fmap.
    by apply set_columna_rectangular.
  - unfold rename, set_columna. cbn [columns]. rewrite Hcols. cbn.
    rewrite decide_False by done. rewrite decide_False by done.
    by destruct (indice_de _ pcols).
  - unfold rename. cbn [columns]. intros (c & Hc & _)%list_elem_of_fmap.
    by case_decide.
Qed.

(** X6.  A table the parser returns is rectangular, starts with the
    columns [anio] and [mes], has a [canton] column and has no column
    named [YEAR]. *)
Theorem tabla_leida_forma contenido ruta canton df :
  (leer_archivo contenido ruta canton).2 = Some df ->
  rectangular df
  /\ take 2 (columns df) = [CTexto "anio"; CTexto "mes"]
  /\ CTexto "canton" ∈ columns df
  /\ (CTexto "YEAR" ∉ columns df).
Proof. apply tabla_leida_columnas. Qed.

End AtmosfericosMas.

(** ** The parsed table: one row per year and month *)
Section TablaLeida.
Import Atmosfericos.
Context {V : Type} `{EqDecision V}.
Variable read_csv : list string -> nat -> Resultado (DataFrame V).
Variable to_numeric_texto : string -> option V.
Variable media : list V -> V.
Variable menor_o_igual : Celda V -> Celda V -> bool.

Local Abbreviation leer_archivo := (_leer_archivo read_csv to_numeric_texto media menor_o_igual).
Local Abbreviation largo df := (valor_a_numerico to_numeric_texto (melt df)).

Lemma length_remove_dups_le {A} `{EqDecision A} (l : list A) :
  length (remove_dups l) <= length l.
Proof.
  induction l as [|x l IH]; cbn; [lia|]. case_decide; cbn; lia.
Qed.

Lemma melt_largo (df : DataFrame V) : length (melt df) = 12 * length (filas df).
Proof.
  unfold melt, columnas_meses. cbn [mbind list_bind].
  rewrite !length_app, !length_fmap. cbn. lia.
Qed.

Lemma pivote_filas_cota (df : DataFrame V) :
  length (p_index (pivot_table media menor_o_igual (largo df))) <= 12 * length (filas df).
Proof.
  cbn [pivot_table p_index].
  rewrite length_ordenar.
  etransitivity; [apply length_remove_dups_le|]. rewrite length_fmap.
  unfold con_dato. etransitivity; [apply length_filter|].
  unfold valor_a_numerico. by rewrite length_fmap, melt_largo.
Qed.

Lemma claves_de_filas (df_largo : list (FilaLarga V)) dfp canton_v :
  reset_index (pivot_table media menor_o_igual df_largo) = Devuelve dfp ->
  (fun fila => (fila !! 0, fila !! 1))
    <$> filas (set_columna dfp (CTexto "canton") canton_v)
  = (fun im => (Some im.1, Some (CTexto im.2))) <$> p_index (pivot_table media menor_o_igual df_largo).
Proof.
  intros (pcols & Hcols & _ & _ & _ & Hfilas)%reset_index_columnas.
  assert ((zip (p_index (pivot_table media menor_o_igual df_largo))
               (p_valores (pivot_table media menor_o_igual df_largo))).*1
          = p_index (pivot_table media menor_o_igual df_largo)) as Hfst.
  { apply fst_zip. cbn [pivot_table p_index p_valores]. by rewrite length_fmap. }
  transitivity ((fun im : Celda V * string => (Some im.1, Some (CTexto (V:=V) im.2)))
                  <$> (zip (p_index (pivot_table media menor_o_igual df_largo))
                           (p_valores (pivot_table media menor_o_igual df_largo))).*1);
    [|by rewrite Hfst].
  unfold set_columna. rewrite Hcols, Hfilas. cbn [indice_de].
  rewrite !decide_False by done.
  destruct (indice_de (CTexto "canton") pcols) as [n|];
    cbn [fmap option_fmap option_map filas];
    rewrite <- !list_fmap_compose; apply list_fmap_ext; intros j [[y m] vals] _; done.
Qed.

(** X7.  In a table the parser returns, no two rows have the same first
    two cells (the year and the month), and there are at most twelve rows
    per row of the table that was read. *)
Theorem tabla_leida_una_fila_por_mes lineas i df0 ruta canton df :
  buscar_inicio 0 lineas = Some i ->
  read_csv lineas i = Devuelve df0 ->
  (leer_archivo (Devuelve lineas) ruta canton).2 = Some df ->
  NoDup ((fun fila => (fila !! 0, fila !! 1)) <$> filas df)
  /\ length (filas df) <= 12 * length (filas df0).
Proof.
  intros Hi Hr. unfold _leer_archivo. rewrite Hi, Hr.
  intros (df1 & dfp & [= <-] & _ & _ & Hreset & ->)%tabla_exito.
  unfold rename. cbn [filas].
  pose proof (claves_de_filas _ _ (CTexto (Py.upper (Py.strip canton))) Hreset) as Hcl.
  split.
  - rewrite Hcl. apply NoDup_fmap_2_strong; [|apply NoDup_ordenar, NoDup_remove_dups].
    intros [y1 m1] [y2 m2] _ _ [= -> ->]. done.
  - rewrite <- (length_fmap (fun fila => (fila !! 0, fila !! 1))), Hcl, length_fmap.
    apply pivote_filas_cota.
Qed.

End TablaLeida.

(** ** The long table and the groups of the pivot *)
Section LargoYGrupos.
Import Atmosfericos.
Context {V : Type} `{EqDecision V}.
Variable to_numeric_texto : string -> option V.
Variable media : list V -> V.
Variable menor_o_igual : Celda V -> Celda V -> bool.

Local Abbreviation largo df := (valor_a_numerico to_numeric_texto (melt df)).
Local Abbreviation P_de df fila := (celda_de (columns df) fila (CTexto "PARAMETER")).
Local Abbreviation Y_de df fila := (celda_de (columns df) fila (CTexto "YEAR")).
Local Abbreviation M_de df fila m := (celda_de (columns df) fila (CTexto m)).

Lemma to_numeric_sin_texto (c : Celda V) :
  to_numeric to_numeric_texto c = CNaN \/ exists v, to_numeric to_numeric_texto c = CNum v.
Proof.
  destruct c as [v|s|]; cbn; [right; eauto| |by left].
  destruct (to_numeric_texto s); [right; eauto|by left].
Qed.

(** X8.  The long table has twelve rows per row of the table, each for
    one of the twelve month names, and after the conversion its values are
    numbers or missing, never text. *)
Theorem largo_forma (df : DataFrame V) :
  length (largo df) = 12 * length (filas df)
  /\ (forall r, r ∈ largo df ->
        mes r ∈ columnas_meses
        /\ (valor r = CNaN \/ exists v, valor r = CNum v)
        /\ exists fila, fila ∈ filas df
             /\ PARAMETER r = P_de df fila /\ YEAR r = Y_de df fila).
Proof.
  split.
  - unfold valor_a_numerico. by rewrite length_fmap, melt_largo.
  - intros r (m & fila & Hm & Hf & ->)%largo_elem. cbn.
    split_and!; [done|apply to_numeric_sin_texto|by exists fila].
Qed.

Lemma omap_igual {A B} (f g : A -> option B) (l : list A) :
  (forall x, f x = g x) -> omap f l = omap g l.
Proof.
  intros Hfg. induction l as [|x l IH]; [done|]. cbn. by rewrite Hfg, IH.
Qed.

(** X9.  For a month column, the values averaged for (YEAR, month,
    PARAMETER) are the numbers found in that column in the rows with that
    year and that parameter, in row order; cells that are missing or not
    numeric add nothing. *)
Theorem grupo_de_columna (df : DataFrame V) y m p :
  m ∈ columnas_meses ->
  grupo (largo df) y m p
  = omap (fun fila => if decide (Y_de df fila = y /\ P_de df fila = p)
                      then numero (to_numeric to_numeric_texto (M_de df fila m))
                      else None) (filas df).
Proof.
  intros Hm. unfold grupo, valor_a_numerico, melt.
  rewrite omap_de_fmap, omap_de_bind.
  rewrite (bind_unico _ columnas_meses m NoDup_columnas_meses Hm).
  - rewrite omap_de_fmap. apply omap_igual. intros fila. cbn.
    destruct (decide (_ /\ _ /\ _)) as [(Hy & _ & Hp)|Hn],
      (decide (_ /\ _)) as [[Hy' Hp']|Hn']; try done.
    + exfalso. by apply Hn'.
    + exfalso. by apply Hn.
  - intros m' _ Hne. rewrite omap_de_fmap. apply omap_nada.
    intros fila _. cbn. case_decide as Hd; [|done]. by destruct Hd as (_ & ? & _).
Qed.

(** X10.  The pivot has no missing key and no empty line: every index
    entry has a year that is present and one of the twelve month names,
    every column a parameter that is present, and each of them has at
    least one number in the table; its cells are numbers or missing. *)
Theorem pivote_sin_claves_nulas (df : DataFrame V) :
  (forall y m, (y, m) ∈ p_index (pivot_table media menor_o_igual (largo df)) ->
     isnull y = false /\ m ∈ columnas_meses
     /\ exists p v, p ∈ p_columns (pivot_table media menor_o_igual (largo df))
          /\ celda_media media (largo df) y m p = CNum v)
  /\ (forall p, p ∈ p_columns (pivot_table media menor_o_igual (largo df)) ->
        isnull p = false
        /\ exists y m v, (y, m) ∈ p_index (pivot_table media menor_o_igual (largo df))
             /\ celda_media media (largo df) y m p = CNum v)
  /\ (forall vals c, vals ∈ p_valores (pivot_table media menor_o_igual (largo df)) -> c ∈ vals ->
        c = CNaN \/ exists v, c = CNum v).
Proof.
  assert (forall r, r ∈ con_dato (largo df) ->
            isnull (YEAR r) = false /\ isnull (PARAMETER r) = false
            /\ mes r ∈ columnas_meses
            /\ (YEAR r, mes r) ∈ p_index (pivot_table media menor_o_igual (largo df))
            /\ PARAMETER r ∈ p_columns (pivot_table media menor_o_igual (largo df))
            /\ exists v, celda_media media (largo df) (YEAR r) (mes r) (PARAMETER r)
                         = CNum v) as Hdato.
  { intros r Hr. pose proof Hr as Hr'. unfold con_dato in Hr'.
    apply list_elem_of_filter in Hr' as [(HY & HP & [x Hx]) Hin].
    split_and!; [done|done| | | |].
    - by apply largo_elem in Hin as (m & fila & Hm & _ & ->).
    - cbn [pivot_table p_index p_columns].
      apply elem_of_ordenar, elem_of_remove_dups, list_elem_of_fmap. by exists r.
    - cbn [pivot_table p_index p_columns].
      apply elem_of_ordenar, elem_of_remove_dups, list_elem_of_fmap. by exists r.
    - unfold celda_media.
      assert (x ∈ grupo (largo df) (YEAR r) (mes r) (PARAMETER r)) as Hg.
      { apply grupo_elem. exists r. split_and!; try done.
        destruct (valor r); cbn in Hx; try done. by injection Hx as ->. }
      destruct (grupo _ _ _ _); [by apply elem_of_nil in Hg|eauto]. }
  split_and!.
  - intros y m Hin. cbn in Hin.
    apply elem_of_ordenar, elem_of_remove_dups, list_elem_of_fmap in Hin
      as (r & [= -> ->] & Hr).
    destruct (Hdato r Hr) as (HY & HP & Hm & _ & Hc & v & Hv). eauto 10.
  - intros p Hin. cbn in Hin.
    apply elem_of_ordenar, elem_of_remove_dups, list_elem_of_fmap in Hin as (r & -> & Hr).
    destruct (Hdato r Hr) as (HY & HP & Hm & Hi & _ & v & Hv). eauto 10.
  - intros vals c Hvals Hc. cbn in Hvals.
    apply list_elem_of_fmap in Hvals as (im & -> & _).
    apply list_elem_of_fmap in Hc as (p & -> & _).
    unfold celda_media. destruct (grupo _ _ _ _); [by left|right; eauto].
Qed.

End LargoYGrupos.

(** ** More on the batch loader *)
Section LoteMas.
Import Atmosfericos.
Context {V : Type} `{EqDecision V}.
Variable read_csv : list string -> nat -> Resultado (DataFrame V).
Variable to_numeric_texto : string -> option V.
Variable media : list V -> V.
Variable menor_o_igual : Celda V -> Celda V -> bool.

Local Abbreviation leer_archivo := (_leer_archivo read_csv to_numeric_texto media menor_o_igual).
Local Abbreviation exitosos := (exitosos read_csv to_numeric_texto media menor_o_igual).
Local Abbreviation registros_de := (registros_de read_csv to_numeric_texto media menor_o_igual).
Local Abbreviation leer_entrada := (leer_entrada read_csv to_numeric_texto media menor_o_igual).
Local Abbreviation procesar_todos := (procesar_todos read_csv to_numeric_texto media menor_o_igual).

(** Each entry either parses or leaves one log entry. *)
Lemma registros_mas_exitosos carpeta (archivos : Carpeta) :
  length (registros_de carpeta archivos) + length (exitosos carpeta archivos)
  = length archivos.
Proof.
  unfold Atmosfericos.registros_de, Atmosfericos.exitosos.
  induction archivos as [|f fs IH]; [done|].
  rewrite bind_cons, length_app. cbn [omap list_omap length].
  unfold Atmosfericos.leer_entrada at 1 3.
  destruct (leer_archivo_casos read_csv to_numeric_texto media menor_o_igual f.2
              (Py.path_join carpeta f.1) (Py.splitext f.1).1)
    as [[df ->]|(r & -> & _)]; cbn [fst snd length]; lia.
Qed.

Lemma procesar_todos_log carpeta listado :
  (procesar_todos carpeta listado).1 =
  match List.filter es_csv listado with
  | [] => [Error_al_procesar (sin_archivos carpeta)]
  | _ :: _ =>
      Info_procesando (length (List.filter es_csv listado))
      :: registros_de carpeta (List.filter es_csv listado)
      ++ match exitosos carpeta (List.filter es_csv listado) with
         | [] => [Error_al_procesar sin_validos]
         | _ :: _ =>
             Info_procesados (length (exitosos carpeta (List.filter es_csv listado)))
                             (length (List.filter es_csv listado))
             :: match concat (exitosos carpeta (List.filter es_csv listado)) with
                | Devuelve _ => []
                | Lanza e => [Error_al_procesar e]
                end
         end
  end.
Proof.
  unfold Atmosfericos.procesar_todos. fold es_csv.
  destruct (List.filter es_csv listado) as [|f fs] eqn:E; [done|].
  rewrite bucle_resultado. cbn [app Nat.add].
  destruct (exitosos carpeta (f :: fs)) as [|t ts]; [done|].
  destruct (concat (t :: ts)); cbn [fst]; by rewrite <- ?app_assoc.
Qed.

(** X11.  The log of a batch starts with the number of CSV entries and
    has one entry for each entry that did not parse and none for the
    others.  It ends with the error when none parsed; otherwise with the
    count of parsed entries, at most the number of CSV entries, followed by
    the error of the concatenation when that raises. *)
Theorem procesar_todos_registro carpeta listado :
  List.filter es_csv listado <> [] ->
  (procesar_todos carpeta listado).1
  = Info_procesando (length (List.filter es_csv listado))
    :: registros_de carpeta (List.filter es_csv listado)
    ++ (if decide (exitosos carpeta (List.filter es_csv listado) = [])
        then [Error_al_procesar sin_validos]
        else Info_procesados (length (exitosos carpeta (List.filter es_csv listado)))
                             (length (List.filter es_csv listado))
             :: match (procesar_todos carpeta listado).2 with
                | Devuelve _ => []
                | Lanza e => [Error_al_procesar e]
                end)
  /\ length (registros_de carpeta (List.filter es_csv listado))
     + length (exitosos carpeta (List.filter es_csv listado))
     = length (List.filter es_csv listado)
  /\ length (exitosos carpeta (List.filter es_csv listado))
     <= length (List.filter es_csv listado).
Proof.
  intros Hne. pose proof (registros_mas_exitosos carpeta (List.filter es_csv listado)).
  split_and!; [|done|lia].
  rewrite procesar_todos_log, procesar_todos_valor.
  destruct (List.filter es_csv listado) as [|f fs]; [done|].
  by destruct (exitosos carpeta (f :: fs)).
Qed.

(** X12.  The table a batch returns is rectangular, has the columns
    [canton], [anio] and [mes] and none named [YEAR], and has as many rows
    as the parsed tables together.  Its labels after the first are
    distinct, and the first is repeated exactly when the parsed tables
    repeat it. *)
Theorem consolidado_forma carpeta listado df :
  (procesar_todos carpeta listado).2 = Devuelve df ->
  rectangular df
  /\ NoDup (tail (columns df))
  /\ (NoDup (columns df) <->
        Forall (fun t => NoDup (columns t)) (exitosos carpeta (List.filter es_csv listado)))
  /\ CTexto "canton" ∈ columns df
  /\ CTexto "anio" ∈ columns df
  /\ CTexto "mes" ∈ columns df
  /\ (CTexto "YEAR" ∉ columns df)
  /\ length (filas df)
     = sum_list ((fun t => length (filas t)) <$> exitosos carpeta (List.filter es_csv listado)).
Proof.
  rewrite procesar_todos_valor.
  destruct (List.filter es_csv listado) as [|f fs] eqn:Ef; [done|]. rewrite <- Ef.
  destruct (exitosos carpeta (List.filter es_csv listado)) as [|t ts] eqn:Et; [done|].
  intros Hc.
  assert (forall t', t' ∈ t :: ts ->
            exists pcols,
              columns t' = CTexto "anio" :: CTexto "mes" :: pcols
              /\ NoDup pcols /\ (CTexto "mes" ∉ pcols) /\ (CTexto "YEAR" ∉ pcols)
              /\ CTexto "canton" ∈ pcols) as Ht.
  { intros t' Hin. rewrite <- Et in Hin.
    apply exitosos_elem in Hin as (f' & _ & Hleer).
    by apply (tabla_leida_etiquetas read_csv to_numeric_texto media menor_o_igual) in Hleer. }
  assert (Forall rectangular (t :: ts)) as Hrect.
  { rewrite <- Et. apply exitosos_rectangular. }
  destruct (Ht t (list_elem_of_here _ _)) as (pcols & Hcols & Hnd & Hmes & HY & Hcanton).
  pose proof (concat_columnas _ _ (CTexto "canton") Hc) as Hcol_canton.
  pose proof (concat_columnas _ _ (CTexto "anio") Hc) as Hcol_anio.
  pose proof (concat_columnas _ _ (CTexto "mes") Hc) as Hcol_mes.
  pose proof (concat_columnas _ _ (CTexto "YEAR") Hc) as Hcol_year.
  pose proof (concat_casos _ _ Hc) as (_ & Hcasos).
  split_and!.
  - by eapply concat_rectangular.
  - destruct Hcasos as [[Hall _]|(_ & -> & _)].
    + apply Forall_cons in Hall as [<- _]. rewrite Hcols. cbn [tail].
      by apply NoDup_cons.
    + pose proof (unir_columnas_NoDup (t :: ts)) as Hu.
      destruct (unir_columnas (t :: ts)); [done|]. by apply NoDup_cons in Hu as [_ ?].
  - destruct Hcasos as [[Hall _]|(Hall & -> & _)].
    + split.
      * intros Hdf. eapply Forall_impl; [exact Hall|]. by intros t' ->.
      * intros Hts. apply Forall_cons in Hall as [<- _]. by apply Forall_cons in Hts as [? _].
    + split; [done|]. intros _. apply unir_columnas_NoDup.
  - apply Hcol_canton. exists t. split; [apply list_elem_of_here|].
    rewrite Hcols. by do 2 apply list_elem_of_further.
  - apply Hcol_anio. exists t. split; [apply list_elem_of_here|].
    rewrite Hcols. apply list_elem_of_here.
  - apply Hcol_mes. exists t. split; [apply list_elem_of_here|].
    rewrite Hcols. apply list_elem_of_further, list_elem_of_here.
  - intros (t' & Hin & Hyear)%Hcol_year.
    destruct (Ht t' Hin) as (pcols' & Hcols' & _ & _ & HY' & _).
    rewrite Hcols' in Hyear.
    apply elem_of_cons in Hyear as [?|Hyear]; [done|].
    by apply elem_of_cons in Hyear as [?|Hyear].
  - by apply concat_largo.
Qed.

End LoteMas.

(** ** More on the quality report *)
Section ReporteMas.
Import Pipeline.
Context {V : Type} `{EqDecision V}.
Implicit Types (df : DataFrame V).



Lemma cociente_cero (m n : nat) :
  0 < n ->
  (inject_Z (Z.of_nat m) / inject_Z (Z.of_nat n) == 0)%Q <-> m = 0.
Proof.
  intros Hn.
  assert (~ (inject_Z (Z.of_nat n) == 0)%Q) as Hnz.
  { unfold Qeq. cbn. lia. }
  split.
  - intros Hx.
    assert (inject_Z (Z.of_nat m) == 0)%Q as Hm.
    { rewrite <- (Qmult_div_r (inject_Z (Z.of_nat m)) (inject_Z (Z.of_nat n)) Hnz).
      rewrite Hx. apply Qmult_0_r. }
    unfold Qeq in Hm. cbn in Hm. lia.
  - intros ->. cbn. unfold Qdiv. apply Qmult_0_l.
Qed.

Lemma cociente_uno (m n : nat) :
  0 < n ->
  (inject_Z (Z.of_nat m) / inject_Z (Z.of_nat n) == 1)%Q <-> m = n.
Proof.
  intros Hn.
  assert (~ (inject_Z (Z.of_nat n) == 0)%Q) as Hnz.
  { unfold Qeq. cbn. lia. }
  split.
  - intros Hx.
    assert (inject_Z (Z.of_nat m) == inject_Z (Z.of_nat n))%Q as Hm.
    { rewrite <- (Qmult_div_r (inject_Z (Z.of_nat m)) (inject_Z (Z.of_nat n)) Hnz) at 1.
      rewrite Hx. apply Qmult_1_r. }
    unfold Qeq in Hm. cbn in Hm. lia.
  - intros ->. by apply Qmult_inv_r.
Qed.

(** X14.  For a rectangular table with at least one row and one column,
    the completeness is 100 exactly when no cell is missing and 0 exactly
    when every cell is missing. *)
Theorem completitud_extremos df :
  rectangular df -> filas df <> [] -> columns df <> [] ->
  exists r q,
    generar_reporte_calidad (Some df) = ([Info_reporte r], Some r)
    /\ porcentaje_completitud r = FNum q
    /\ ((q == 100)%Q <-> valores_faltantes r = 0)
    /\ ((q == 0)%Q <-> valores_faltantes r = total_filas r * total_columnas r).
Proof.
  intros Hrect Hf Hc.
  assert (0 < length (filas df) * length (columns df)) as Hpos.
  { destruct (filas df), (columns df); cbn; try done; lia. }
  unfold generar_reporte_calidad, calcular_reporte, np_truediv.
  destruct (Z.eqb_spec (Z.of_nat (length (filas df) * length (columns df))) 0) as [E|_];
    [lia|].
  eexists _, _. split_and!; [reflexivity|reflexivity| |];
    cbn [valores_faltantes total_filas total_columnas].
  - rewrite <- (cociente_cero _ _ Hpos).
    set (x := (inject_Z _ / inject_Z _)%Q). split; intros Hq; lra.
  - rewrite <- (cociente_uno _ _ Hpos).
    set (x := (inject_Z _ / inject_Z _)%Q). split; intros Hq; lra.
Qed.

End ReporteMas.

(** ** The stages of the pipeline *)
Section OrquestacionProps.
Import Orquestacion.
Context {V : Type} `{EqDecision V}.
Variable read_csv : list string -> nat -> Resultado (DataFrame V).
Variable to_numeric_texto : string -> option V.
Variable media : list V -> V.
Variable menor_o_igual : Celda V -> Celda V -> bool.
Variable procesar_a_formato_largo : string -> Resultado (DataFrame V).
Variable unir_datasets : DataFrame V -> DataFrame V -> Resultado (DataFrame V).
Variable to_csv : string -> DataFrame V -> Resultado unit.

Local Abbreviation exitosos := (Atmosfericos.exitosos read_csv to_numeric_texto media menor_o_igual).
Local Abbreviation filas_leidas :=
  (Atmosfericos.filas_leidas read_csv to_numeric_texto media menor_o_igual).
Local Abbreviation procesar_todos :=
  (Atmosfericos.procesar_todos read_csv to_numeric_texto media menor_o_igual).
Local Abbreviation clima := (procesar_datos_atmosfericos read_csv to_numeric_texto media menor_o_igual).
Local Abbreviation papa := (procesar_datos_papa procesar_a_formato_largo).
Local Abbreviation fusionar := (fusionar_datos unir_datasets).
Local Abbreviation ejecutar :=
  (ejecutar_pipeline_completo read_csv to_numeric_texto media menor_o_igual
     procesar_a_formato_largo unir_datasets to_csv).
Local Abbreviation cuerpo :=
  (cuerpo_pipeline read_csv to_numeric_texto media menor_o_igual
     procesar_a_formato_largo unir_datasets to_csv).

Lemma validar_casos fs e c :
  _validar_archivos_entrada fs e c =
  match fs e, fs c with
  | NoExiste, _ =>
      ([], Falla (DeSistema (FileNotFoundError ("Archivo Excel no encontrado: " +:+ e))))
  | _, NoExiste =>
      ([], Falla (DeSistema (FileNotFoundError
                    ("Carpeta de datos atmosféricos no encontrada: " +:+ c))))
  | _, Archivo _ =>
      ([], Falla (DeSistema (NotADirectoryError ("La ruta no es una carpeta válida: " +:+ c))))
  | _, Directorio l =>
      match List.filter Atmosfericos.es_csv l with
      | [] => ([], Falla (DeSistema (FileNotFoundError
                            ("No se encontraron archivos CSV en: " +:+ c))))
      | _ :: _ => ([Info "Validación de archivos de entrada completada"], Retorna tt)
      end
  end.
Proof.
  unfold _validar_archivos_entrada, existe, isdir, listdir.
  destruct (fs e); destruct (fs c); reflexivity.
Qed.

(** X15.  The validation returns exactly when the spreadsheet path
    exists and the data path is a folder with at least one entry ending in
    [.csv]; it raises the not-a-directory error exactly when the
    spreadsheet path exists and the data path is a file, the file-not-found
    error in the other failing cases, and logs nothing when it raises. *)
Theorem validar_exacto fs e c :
  ((_validar_archivos_entrada fs e c).2 = Retorna tt <->
     fs e <> NoExiste
     /\ exists l, fs c = Directorio l /\ List.filter Atmosfericos.es_csv l <> [])
  /\ ((exists msg, (_validar_archivos_entrada fs e c).2
                   = Falla (DeSistema (NotADirectoryError msg))) <->
        fs e <> NoExiste /\ exists contenido, fs c = Archivo contenido)
  /\ (forall f, (_validar_archivos_entrada fs e c).2 = Falla f ->
        (_validar_archivos_entrada fs e c).1 = []
        /\ exists msg, f = DeSistema (FileNotFoundError msg)
                       \/ f = DeSistema (NotADirectoryError msg)).
Proof.
  rewrite validar_casos.
  destruct (fs e) as [|ce|le] eqn:Ee; destruct (fs c) as [|cc|lc] eqn:Ec;
    try destruct (List.filter Atmosfericos.es_csv lc) as [|x xs] eqn:El;
    cbn [fst snd]; split_and!.
  all: try (intros f [= <-]; split;
            [reflexivity|eexists; first [left; reflexivity|right; reflexivity]]).
  all: try (intros f Hf; discriminate Hf).
  all: split; intros Hr.
  all: try discriminate Hr.
  all: repeat match goal with
       | H : _ /\ _ |- _ => destruct H
       | H : exists _, _ |- _ => destruct H
       end.
  all: try congruence.
  all: try (split; [discriminate|]).
  all: try (eexists; split; [reflexivity|congruence]).
  all: try (eexists; reflexivity).
Qed.

Lemma etapa_valor {A} inicio fin nombre (c : list RegistroPipeline * Salida A) :
  (etapa inicio fin nombre c).2 = c.2.
Proof. unfold etapa. by destruct c.2. Qed.

Lemma luego_retorna {A B} (m : list RegistroPipeline * Salida A)
    (k : A -> list RegistroPipeline * Salida B) b :
  (luego m k).2 = Retorna b <-> exists a, m.2 = Retorna a /\ (k a).2 = Retorna b.
Proof.
  unfold luego. destruct m.2 as [a|f]; cbn.
  - split; [eauto|]. by intros (a' & [= <-] & ?).
  - split; [done|]. by intros (a' & ? & _).
Qed.

Lemma clima_valor fs c s :
  (clima fs c s).2 =
  match fs c with
  | NoExiste =>
      Falla (DeSistema (NotADirectoryError ("La carpeta " +:+ c +:+ " no existe")))
  | Archivo _ =>
      Falla (DeSistema (NotADirectoryError (c +:+ " no es una carpeta válida")))
  | Directorio l => de_resultado (procesar_todos c l).2
  end.
Proof.
  unfold procesar_datos_atmosfericos. rewrite etapa_valor.
  unfold nuevo_procesador, procesar_todos_en, existe, isdir, listdir. cbn [carpeta].
  destruct (fs c) eqn:E; cbn; [done|done|]. by rewrite E.
Qed.

(** X16.  The atmospheric stage raises the not-a-directory error of the
    processor both when the folder path is absent and when it is a file,
    and otherwise gives what the batch loader gives for the listing of the
    folder; its log opens with the start entry and closes with the
    completion entry when it returns, with the error entry when it
    raises. *)
Theorem etapa_clima_por_nodo fs c s :
  (clima fs c s).2 =
    match fs c with
    | NoExiste =>
        Falla (DeSistema (NotADirectoryError ("La carpeta " +:+ c +:+ " no existe")))
    | Archivo _ =>
        Falla (DeSistema (NotADirectoryError (c +:+ " no es una carpeta válida")))
    | Directorio l => de_resultado (procesar_todos c l).2
    end
  /\ head (clima fs c s).1 = Some (Info "Iniciando procesamiento de datos atmosféricos")
  /\ last (clima fs c s).1 =
       Some (match (clima fs c s).2 with
             | Retorna _ => Info "Procesamiento de datos atmosféricos completado"
             | Falla f => ErrorEn "procesando datos atmosféricos" f
             end).
Proof.
  split; [apply clima_valor|].
  unfold procesar_datos_atmosfericos, etapa.
  destruct (match nuevo_procesador fs c s with
            | Retorna p => procesar_todos_en read_csv to_numeric_texto media menor_o_igual fs p
            | Falla f => ([], Falla f)
            end) as [l [df|f]]; cbn [fst snd head];
    (split; [done|]); by rewrite last_cons, last_snoc.
Qed.

Lemma validar_retorna fs e c :
  (_validar_archivos_entrada fs e c).2 = Retorna tt ->
  exists l, fs c = Directorio l /\ List.filter Atmosfericos.es_csv l <> [].
Proof.
  rewrite validar_casos.
  destruct (fs e); [done| |]; (destruct (fs c) as [|cc|l]; [done|done|]);
    (destruct (List.filter Atmosfericos.es_csv l) eqn:El; [done|]);
    intros _; exists l; by rewrite El.
Qed.

(** X17.  Once the validation has returned, the atmospheric stage finds
    its folder and at least one CSV entry.  It returns what [pd.concat]
    makes of the tables of the entries that parse: their rows, in listing
    order, each with the cells it had.  The failures left are that no
    entry parses and that [pd.concat] refuses a table with a repeated
    label. *)
Theorem clima_tras_validar fs e c s :
  (_validar_archivos_entrada fs e c).2 = Retorna tt ->
  exists l,
    fs c = Directorio l
    /\ List.filter Atmosfericos.es_csv l <> []
    /\ (clima fs c s).2
       = match exitosos c (List.filter Atmosfericos.es_csv l) with
         | [] => Falla (DePython Atmosfericos.sin_validos)
         | _ :: _ => de_resultado (concat (exitosos c (List.filter Atmosfericos.es_csv l)))
         end
    /\ (forall df, (clima fs c s).2 = Retorna df ->
          Forall2 (fun '(f, t, fila) fila' =>
                     Invariantes.misma_fila (columns t) fila (columns df) fila')
                  (filas_leidas c (List.filter Atmosfericos.es_csv l)) (filas df)
          /\ (Forall (fun t => columns t = columns df)
                     (exitosos c (List.filter Atmosfericos.es_csv l)) ->
                filas df = exitosos c (List.filter Atmosfericos.es_csv l) ≫= filas))
    /\ (forall f, (clima fs c s).2 = Falla f ->
          (f = DePython Atmosfericos.sin_validos
           /\ exitosos c (List.filter Atmosfericos.es_csv l) = [])
          \/ (f = DePython InvalidIndexError
              /\ exists t, t ∈ exitosos c (List.filter Atmosfericos.es_csv l)
                           /\ ~ NoDup (columns t))).
Proof.
  intros (l & Ec & Hne)%validar_retorna. exists l.
  rewrite clima_valor, Ec, procesar_todos_valor.
  destruct (List.filter Atmosfericos.es_csv l) as [|x xs] eqn:El; [done|]. rewrite <- El.
  split_and!; [done|by rewrite El| | |].
  - by destruct (exitosos c (List.filter Atmosfericos.es_csv l)).
  - intros df Hdf.
    assert ((procesar_todos c l).2 = Devuelve df) as Hp.
    { rewrite procesar_todos_valor, El. rewrite <- El.
      destruct (exitosos c (List.filter Atmosfericos.es_csv l)); [done|].
      destruct (concat _); [|done]. by injection Hdf as <-. }
    split.
    + eapply Forall2_impl; [by apply procesar_todos_filas|].
      by intros [[f t] fila] fila' [Hm _].
    + apply concat_iguales. revert Hp. rewrite procesar_todos_valor, El. rewrite <- El.
      by destruct (exitosos c (List.filter Atmosfericos.es_csv l)).
  - destruct (exitosos c (List.filter Atmosfericos.es_csv l)) as [|t ts] eqn:Et.
    { intros f [= <-]. by left. }
    destruct (concat (t :: ts)) as [df|ex] eqn:Ecat; [done|].
    intros f [= <-]. right.
    apply concat_Lanza in Ecat as (-> & Hrep & _); done.
Qed.

Lemma cuerpo_retorna fs e c s ruta reporte :
  (cuerpo fs e c s).2 = Retorna (ruta, reporte) <->
  (_validar_archivos_entrada fs e c).2 = Retorna tt
  /\ exists df_papa df_clima df_final,
       procesar_a_formato_largo e = Devuelve df_papa
       /\ (clima fs c s).2 = Retorna df_clima
       /\ unir_datasets df_clima df_papa = Devuelve df_final
       /\ ruta = Py.path_join s "rnn_df.csv"
       /\ to_csv ruta df_final = Devuelve tt
       /\ reporte = (Pipeline.generar_reporte_calidad (Some df_final)).2.
Proof.
  unfold cuerpo_pipeline. rewrite luego_retorna. cbn [snd]. split.
  - intros (_ & _ & (u & Hval & H1)%luego_retorna). destruct u. split; [done|].
    apply luego_retorna in H1 as (df_papa & Hp & H2).
    apply luego_retorna in H2 as (df_clima & Hc & H3).
    apply luego_retorna in H3 as (df_final & Hf & H4).
    apply luego_retorna in H4 as (u & Hw & H5). destruct u.
    cbn [snd] in H5, Hw. injection H5 as <- <-.
    unfold procesar_datos_papa in Hp. rewrite etapa_valor in Hp. cbn [snd] in Hp.
    unfold fusionar_datos in Hf. rewrite etapa_valor in Hf. cbn [snd] in Hf.
    exists df_papa, df_clima, df_final. split_and!; try done.
    + by destruct (procesar_a_formato_largo e); cbn in Hp; [injection Hp as ->|].
    + by destruct (unir_datasets df_clima df_papa); cbn in Hf; [injection Hf as ->|].
    + by destruct (to_csv _ df_final) as [[]|]; cbn in Hw.
  - intros (Hval & df_papa & df_clima & df_final & Hp & Hc & Hf & -> & Hw & ->).
    exists tt. split; [done|]. apply luego_retorna. exists tt. split; [done|].
    apply luego_retorna. exists df_papa. split.
    { unfold procesar_datos_papa. by rewrite etapa_valor, Hp. }
    apply luego_retorna. exists df_clima. split; [done|].
    apply luego_retorna. exists df_final. split.
    { unfold fusionar_datos. by rewrite etapa_valor, Hf. }
    apply luego_retorna. exists tt. split; [by rewrite Hw|done].
Qed.

Lemma ejecutar_valor fs e c s : (ejecutar fs e c s).2 = (cuerpo fs e c s).2.
Proof.
  unfold ejecutar_pipeline_completo.
  by destruct (cuerpo fs e c s) as [l [a|f]].
Qed.

(** X18.  The pipeline returns exactly when the validation returns, the
    yield stage, the atmospheric stage, the merge of their two tables and
    the writing of the result return; it then returns the path of
    [rnn_df.csv] in the output folder and the quality report of the merged
    table, which is a filled report. *)
Theorem pipeline_retorna fs e c s ruta reporte :
  (ejecutar fs e c s).2 = Retorna (ruta, reporte) <->
  (_validar_archivos_entrada fs e c).2 = Retorna tt
  /\ exists df_papa df_clima df_final,
       procesar_a_formato_largo e = Devuelve df_papa
       /\ (clima fs c s).2 = Retorna df_clima
       /\ unir_datasets df_clima df_papa = Devuelve df_final
       /\ ruta = Py.path_join s "rnn_df.csv"
       /\ to_csv ruta df_final = Devuelve tt
       /\ reporte = (Pipeline.generar_reporte_calidad (Some df_final)).2
       /\ is_Some reporte.
Proof.
  rewrite ejecutar_valor, cuerpo_retorna. split.
  - intros (Hval & df_papa & df_clima & df_final & Hp & Hc & Hf & Hr & Hw & Hrep).
    split; [done|]. exists df_papa, df_clima, df_final. split_and!; try done.
    rewrite Hrep. by eexists.
  - intros (Hval & df_papa & df_clima & df_final & Hp & Hc & Hf & Hr & Hw & Hrep & _).
    split; [done|]. by exists df_papa, df_clima, df_final.
Qed.

(** X19.  When the validation raises, the pipeline raises the same error
    and no stage runs: its log holds the start entry and the error entry
    of the pipeline only. *)
Theorem pipeline_falla_en_validacion fs e c s f :
  (_validar_archivos_entrada fs e c).2 = Falla f ->
  ejecutar fs e c s
  = ([Info "=== INICIANDO PIPELINE COMPLETO ==="; ErrorEn "pipeline completo" f], Falla f).
Proof.
  intros Hf.
  assert ((_validar_archivos_entrada fs e c).1 = []) as Hlog.
  { revert Hf. rewrite validar_casos.
    destruct (fs e), (fs c) as [| |l]; try done; by destruct (List.filter _ l). }
  unfold ejecutar_pipeline_completo, cuerpo_pipeline, luego. cbn [fst snd].
  by rewrite Hf, Hlog.
Qed.

End OrquestacionProps.

(** ** The further statements on sample data *)
Section MasEjemplos.
Import Ejemplos EjemplosSistema Atmosfericos Pipeline Orquestacion.

Ltac decidir := apply (bool_decide_unpack _); vm_compute; exact I.

Lemma fila_toda_nula_testigo :
  Papa.procesar_fila canton_col fila_nula = [(canton_col, CTexto "Turrialba")].
Proof.
  assert (Forall (fun c : Celda Z => isnull c = true) (tail fila_nula)) as Hn by decidir.
  exact (fila_toda_nula canton_col fila_nula Hn).
Defined.

Lemma leer_archivo_exito_implica_testigo :
  exists lineas i linea df0,
    Devuelve archivo_t2m = Devuelve lineas
    /\ lineas !! i = Some linea /\ es_encabezado linea
    /\ (forall j l, lineas !! j = Some l -> j < i -> ~ es_encabezado l)
    /\ leer_csv_simple lineas i = Devuelve df0
    /\ filas df0 <> [] /\ columns df0 <> []
    /\ (forall col, col ∈ columnas_necesarias -> CTexto col ∈ columns df0)
    /\ (leer archivo_t2m "d/x.csv" "x").1 = [].
Proof.
  assert ((leer archivo_t2m "d/x.csv" "x").2 = Some (tabla_de archivo_t2m "x")) as Hok
    by reflexivity.
  exact (leer_archivo_exito_implica leer_csv_simple entero media_Z orden_Z
           (Devuelve archivo_t2m) "d/x.csv" "x" (tabla_de archivo_t2m "x") Hok).
Defined.

Lemma tabla_leida_forma_testigo :
  rectangular (tabla_de archivo_t2m "x")
  /\ take 2 (columns (tabla_de archivo_t2m "x")) = [CTexto "anio"; CTexto "mes"]
  /\ CTexto "canton" ∈ columns (tabla_de archivo_t2m "x")
  /\ (CTexto "YEAR" ∉ columns (tabla_de archivo_t2m "x")).
Proof.
  assert ((leer archivo_t2m "d/x.csv" "x").2 = Some (tabla_de archivo_t2m "x")) as Hok
    by reflexivity.
  exact (tabla_leida_forma leer_csv_simple entero media_Z orden_Z
           (Devuelve archivo_t2m) "d/x.csv" "x" (tabla_de archivo_t2m "x") Hok).
Defined.

Lemma tabla_leida_una_fila_por_mes_testigo :
  NoDup ((fun fila => (fila !! 0, fila !! 1)) <$> filas (tabla_de archivo_duplicado "x"))
  /\ length (filas (tabla_de archivo_duplicado "x"))
     <= 12 * length (filas (df_de archivo_duplicado 0)).
Proof.
  assert (buscar_inicio 0 archivo_duplicado = Some 0) as Hi by reflexivity.
  assert (leer_csv_simple archivo_duplicado 0 = Devuelve (df_de archivo_duplicado 0))
    as Hr by reflexivity.
  assert ((leer archivo_duplicado "d/x.csv" "x").2 = Some (tabla_de archivo_duplicado "x"))
    as Hok by reflexivity.
  exact (tabla_leida_una_fila_por_mes leer_csv_simple entero media_Z orden_Z
           archivo_duplicado 0 (df_de archivo_duplicado 0) "d/x.csv" "x"
           (tabla_de archivo_duplicado "x") Hi Hr Hok).
Defined.

Lemma grupo_de_columna_testigo :
  grupo (valor_a_numerico entero (melt (df_de archivo_duplicado 0)))
        (CNum 2020%Z) "JAN" (CTexto "T2M") = [1%Z; 3%Z].
Proof.
  assert ("JAN" ∈ columnas_meses) as Hm by decidir.
  rewrite (grupo_de_columna entero (df_de archivo_duplicado 0)
             (CNum 2020%Z) "JAN" (CTexto "T2M") Hm).
  reflexivity.
Defined.

Lemma procesar_todos_registro_testigo :
  (todos "datos" carpeta_demo).1
  = [Info_procesando 3;
     Warning_columnas_faltantes "datos/roto.csv" ["DEC"];
     Error_procesando_archivo "datos/ilegible.csv" (OtraExcepcion "UnicodeDecodeError");
     Info_procesados 1 3].
Proof.
  assert (List.filter es_csv carpeta_demo <> []) as Hne by (by vm_compute).
  destruct (procesar_todos_registro leer_csv_simple entero media_Z orden_Z "datos" carpeta_demo Hne)
    as (Hlog & _ & _).
  unfold todos. rewrite Hlog. reflexivity.
Defined.

Lemma consolidado_forma_testigo :
  rectangular consolidado_demo
  /\ NoDup (tail (columns consolidado_demo))
  /\ CTexto "canton" ∈ columns consolidado_demo
  /\ length (filas consolidado_demo) = 12.
Proof.
  assert ((todos "datos" carpeta_demo).2 = Devuelve consolidado_demo) as Hok by reflexivity.
  destruct (consolidado_forma leer_csv_simple entero media_Z orden_Z "datos" carpeta_demo
              consolidado_demo Hok) as (Hr & Hn & _ & Hc & _ & _ & _ & Hl).
  split_and!; [exact Hr|exact Hn|exact Hc|]. rewrite Hl. reflexivity.
Defined.

Lemma completitud_extremos_testigo :
  exists r q,
    generar_reporte_calidad (Some tabla_final) = ([Info_reporte r], Some r)
    /\ porcentaje_completitud r = FNum q
    /\ ((q == 100)%Q <-> valores_faltantes r = 0)
    /\ ((q == 0)%Q <-> valores_faltantes r = total_filas r * total_columnas r).
Proof.
  assert (rectangular tabla_final) as Hrect by decidir.
  assert (filas tabla_final <> []) as Hf by done.
  assert (columns tabla_final <> []) as Hc by done.
  exact (completitud_extremos tabla_final Hrect Hf Hc).
Defined.

Lemma clima_tras_validar_testigo :
  exists l,
    fs_demo "datos" = Directorio l
    /\ List.filter es_csv l <> []
    /\ (clima_demo "datos").2
       = match exitosos leer_csv_simple entero media_Z orden_Z "datos"
                 (List.filter es_csv l) with
         | [] => Falla (DePython sin_validos)
         | _ :: _ =>
             de_resultado (concat (exitosos leer_csv_simple entero media_Z orden_Z "datos"
                                     (List.filter es_csv l)))
         end.
Proof.
  assert ((_validar_archivos_entrada fs_demo "papa.xls" "datos").2 = Retorna tt) as Hv
    by reflexivity.
  destruct (clima_tras_validar leer_csv_simple entero media_Z orden_Z fs_demo
              "papa.xls" "datos" "salida" Hv) as (l & H1 & H2 & H3 & _).
  exists l. split_and!; [exact H1|exact H2|exact H3].
Defined.

Lemma pipeline_falla_en_validacion_testigo :
  pipeline_demo "falta.xls" "datos"
  = ([Info "=== INICIANDO PIPELINE COMPLETO ===";
      ErrorEn "pipeline completo"
        (DeSistema (FileNotFoundError "Archivo Excel no encontrado: falta.xls"))],
     Falla (DeSistema (FileNotFoundError "Archivo Excel no encontrado: falta.xls"))).
Proof.
  assert ((_validar_archivos_entrada fs_demo "falta.xls" "datos").2
          = Falla (DeSistema (FileNotFoundError "Archivo Excel no encontrado: falta.xls")))
    as Hv by reflexivity.
  exact (pipeline_falla_en_validacion leer_csv_simple entero media_Z orden_Z
           papa_demo fusion_demo escribir_demo fs_demo "falta.xls" "datos" "salida" _ Hv).
Defined.

(** The demo pipeline returns the path in the output folder and a filled report. *)
Example pipeline_demo_retorna :
  exists r, (pipeline_demo "papa.xls" "datos").2 = Retorna ("salida/rnn_df.csv", Some r)
    /\ total_filas r = 12.
Proof. eexists. split; by vm_compute. Qed.

End MasEjemplos.
